(** * Irrigation analytics: the computation service, embedded and verified

    A shallow embedding of [internal/service/analytics_service.go] (the
    analytics computation service) together with the repository interface it
    calls.  Go's [float64] is the kernel's binary64 [float]; Go's [int] is a
    [Z] wrapped to 64 bits; [uint] identifiers are [N]; a pointer that may be
    nil is an [option]; a Go map is a [gmap] whose iteration order is chosen
    by the runtime. *)

From Stdlib Require Import ZArith List Bool Lia Permutation String Ascii DecimalString.
From Stdlib Require Import Floats.PrimFloat Floats.FloatOps Floats.SpecFloat.
From Stdlib Require Import Floats.FloatAxioms.
From Stdlib Require Import Uint63.
From stdpp Require Import gmap strings.
Import ListNotations.

#[local] Set Warnings "-inexact-float".
#[local] Open Scope Z_scope.

(** ** Go numerics *)

Module Go.

(** [math.Round]: the nearest integer, halves rounded away from zero;
    [Round(±0) = ±0], [Round(±Inf) = ±Inf], [Round(NaN) = NaN].  A finite
    value [±m * 2^e] with [e >= 0] is already an integer; otherwise the
    magnitude is split at the binary point and the half decides.  The
    rounded magnitude is at most [2^52], so its conversion is exact. *)
Definition Round (x : float) : float :=
  match Prim2SF x with
  | S754_finite s m e =>
      if 0 <=? e then x
      else
        let d := 2 ^ (- e) in
        let t := Z.pos m / d in
        let r := Z.pos m mod d in
        let n := if d <=? 2 * r then t + 1 else t in
        let y := of_uint63 (Uint63.of_Z n) in
        if s then (- y)%float else y
  | _ => x
  end.

(** [math.Float64bits] and [math.Float64frombits]: the IEEE 754 bit pattern
    of a float as a 64-bit unsigned integer, and back. *)
Definition Float64bits (x : float) : Z :=
  match Prim2SF x with
  | S754_zero s => if s then 2 ^ 63 else 0
  | S754_infinity s => (if s then 2 ^ 63 else 0) + Z.shiftl 2047 52
  | S754_nan => 9221120237041090561
  | S754_finite s m e =>
      (if s then 2 ^ 63 else 0)
      + (if Z.pos m <? 2 ^ 52 then Z.pos m
         else Z.shiftl (e + 1075) 52 + (Z.pos m - 2 ^ 52))
  end.

Definition Float64frombits (b : Z) : float :=
  let s := Z.testbit b 63 in
  let e := Z.land (Z.shiftr b 52) 2047 in
  let frac := Z.land b (2 ^ 52 - 1) in
  if e =? 2047 then
    if frac =? 0 then (if s then neg_infinity else infinity) else nan
  else if e =? 0 then
    match frac with
    | Z.pos m => SF2Prim (S754_finite s m (-1074))
    | _ => if s then neg_zero else zero
    end
  else
    match (frac + 2 ^ 52)%Z with
    | Z.pos m => SF2Prim (S754_finite s m (e - 1075))
    | _ => nan
    end.

(** [math.Round] as the standard library computes it, on the bit pattern:
    below one the result is a signed zero or a signed one; up to [2^52] half
    a unit is added to the fraction and the fraction bits are cleared;
    beyond that the value is returned as it is.  [Round] above is checked
    against it on sample values. *)
Definition Round_bits (x : float) : float :=
  let bits := Float64bits x in
  let e := Z.land (Z.shiftr bits 52) 2047 in
  let bits :=
    if e <? 1023 then
      let bits := Z.land bits (2 ^ 63) in
      if e =? 1022 then Z.lor bits 4607182418800017408 else bits
    else if e <? 1023 + 52 then
      let e := e - 1023 in
      let bits := (bits + Z.shiftr (2 ^ 51) e) mod 2 ^ 64 in
      Z.land bits (Z.lnot (Z.shiftr (2 ^ 52 - 1) e)) mod 2 ^ 64
    else bits in
  Float64frombits bits.

(** Go's [int] on a 64-bit platform: two's complement wrap-around. *)
Definition wrap (z : Z) : Z := (z + 2 ^ 63) mod 2 ^ 64 - 2 ^ 63.

Definition int_add (a b : Z) : Z := wrap (a + b).

(** The conversion [float64(n)] of an [int]: the nearest binary64 value,
    ties to even. *)
Definition float64 (n : Z) : float :=
  SF2Prim (binary_normalize prec emax n 0 false).

(** An [error] value; only its presence matters to the service. *)
Definition error : Type := string.

End Go.

(** ** Data model *)

Module time.

(** An instant.  The service never inspects one: it passes instants to the
    repository, shifts them with [AddDate] and copies them to the response. *)
Definition Time : Type := Z.

End time.

Module model.

(** [model.IrrigationData], with the columns an aggregate row fills (the
    ORM's bookkeeping fields and relations are never read by the service). *)
Record IrrigationData : Type := {
  FarmID : N;
  IrrigationSectorID : N;
  StartTime : time.Time;
  WaterVolume : float;
  Duration : Z;
  NominalAmount : float;
  RealAmount : float
}.

End model.

Module repository.

Record AggregatedDataWithCount : Type := {
  Data : model.IrrigationData;
  EventCount : Z
}.

(** The repository interface.  A query reads a data source that lives
    outside the service, so each call takes the source's current state and
    returns its next one beside Go's pair of rows and error. *)
Record IrrigationRepository (DB : Type) : Type := {
  GetAggregatedData :
    N -> option N -> time.Time -> time.Time -> string -> DB ->
    (list AggregatedDataWithCount * option Go.error) * DB;
  GetYearOverYearData :
    N -> option N -> time.Time -> time.Time -> string -> Z -> DB ->
    (list AggregatedDataWithCount * option Go.error) * DB
}.

Arguments GetAggregatedData {DB} _ _ _ _ _ _ _.
Arguments GetYearOverYearData {DB} _ _ _ _ _ _ _ _.

End repository.

Module PeriodInfo.
Record t : Type := { StartDate : time.Time; EndDate : time.Time }.
End PeriodInfo.

Module AggregatedDataPoint.
Record t : Type := {
  Period : time.Time;
  WaterVolume : float;
  Duration : Z;
  Efficiency : float;
  EventCount : Z;
  RealAmount : float;
  NominalAmount : float
}.
End AggregatedDataPoint.

Module AnalyticsSummary.
Record t : Type := {
  TotalWaterVolume : float;
  TotalDuration : Z;
  AverageEfficiency : float;
  TotalEvents : Z;
  TotalRealAmount : float;
  TotalNominalAmount : float
}.
End AnalyticsSummary.

Module PeriodMetrics.
Record t : Type := {
  Period : PeriodInfo.t;
  TotalWaterVolume : float;
  TotalEvents : Z;
  AverageEfficiency : float;
  VolumeChangePercent : float;
  EventsChangePercent : float;
  EfficiencyChangePercent : float
}.
End PeriodMetrics.

Module PeriodComparison.
Record t : Type := {
  OneYearAgo : option PeriodMetrics.t;
  TwoYearsAgo : option PeriodMetrics.t
}.
End PeriodComparison.

Module SectorBreakdown.
Record t : Type := {
  SectorID : N;
  TotalWaterVolume : float;
  TotalEvents : Z;
  AverageEfficiency : float;
  TotalRealAmount : float;
  TotalNominalAmount : float
}.
End SectorBreakdown.

Module YearComparison.
Record t : Type := {
  Period : PeriodInfo.t;
  TotalWaterVolume : float;
  TotalDuration : Z;
  AverageEfficiency : float;
  TotalEvents : Z;
  ChangePercent : float
}.
End YearComparison.

Module YearOverYearComparison.
Record t : Type := {
  OneYearAgo : option YearComparison.t;
  TwoYearsAgo : option YearComparison.t
}.
End YearOverYearComparison.

Module AnalyticsResponse.
Record t : Type := {
  FarmID : N;
  SectorID : option N;
  Period : PeriodInfo.t;
  Aggregation : string;
  Data : list AggregatedDataPoint.t;
  Summary : AnalyticsSummary.t;
  PeriodComparison : PeriodComparison.t;
  SectorBreakdown : list SectorBreakdown.t;
  YearOverYear : YearOverYearComparison.t
}.
End AnalyticsResponse.

(** ** The service's two scalar formulas *)

(** [calculateEfficiency]: real amount over nominal amount, [0.0] when the
    nominal amount compares equal to zero. *)
Definition calculateEfficiency (realAmount nominalAmount : float) : float :=
  if (nominalAmount =? 0)%float then 0%float
  else
    let efficiency := (realAmount / nominalAmount)%float in
    (Go.Round (efficiency * 10000) / 10000)%float.

(** [calculateChangePercent]: relative change in percent, with the fixed
    answers [0.0] and [100.0] when the previous value compares equal to
    zero. *)
Definition calculateChangePercent (current previous : float) : float :=
  if (previous =? 0)%float then
    if (current =? 0)%float then 0%float else 100%float
  else
    let change := (((current - previous) / previous) * 100)%float in
    (Go.Round (change * 100) / 100)%float.

(** ** Per-bucket processing *)

(** The body of the loop of [processDataPoints]: one bucket to one data
    point, with the duration-based fallback nested as in the source. *)
Definition processDataPoint (item : repository.AggregatedDataWithCount)
  : AggregatedDataPoint.t :=
  let d := repository.Data item in
  let efficiency :=
    calculateEfficiency (model.RealAmount d) (model.NominalAmount d) in
  let efficiency :=
    if (model.RealAmount d =? 0)%float && (model.NominalAmount d =? 0)%float
       && (0 <? model.WaterVolume d)%float
    then
      if 0 <? model.Duration d then
        let nominalVolume := (Go.float64 (model.Duration d) * 1)%float in
        calculateEfficiency (model.WaterVolume d) nominalVolume
      else efficiency
    else efficiency in
  {| AggregatedDataPoint.Period := model.StartTime d;
     AggregatedDataPoint.WaterVolume := model.WaterVolume d;
     AggregatedDataPoint.Duration := model.Duration d;
     AggregatedDataPoint.Efficiency := efficiency;
     AggregatedDataPoint.EventCount := repository.EventCount item;
     AggregatedDataPoint.RealAmount := model.RealAmount d;
     AggregatedDataPoint.NominalAmount := model.NominalAmount d |}.

(** [processDataPoints]: the points are appended in the order of the rows. *)
Definition processDataPoints (data : list repository.AggregatedDataWithCount)
  (aggregation : string) : list AggregatedDataPoint.t :=
  List.map processDataPoint data.

(** The local variables of [calculateSummary]'s loop. *)
Record SummaryAcc : Type := {
  totalWaterVolume : float;
  totalDuration : Z;
  totalEfficiency : float;
  efficiencyCount : Z;
  totalRealAmount : float;
  totalNominalAmount : float;
  totalEvents : Z
}.

Definition SummaryAcc_zero : SummaryAcc :=
  {| totalWaterVolume := 0; totalDuration := 0; totalEfficiency := 0;
     efficiencyCount := 0; totalRealAmount := 0; totalNominalAmount := 0;
     totalEvents := 0 |}.

(** The efficiency [calculateSummary] (and the first bucket of a sector in
    [calculateSectorBreakdown]) computes for one bucket: the fallback is
    tried whenever the first result compares equal to zero. *)
Definition summaryEfficiency (d : model.IrrigationData) : float :=
  let efficiency :=
    calculateEfficiency (model.RealAmount d) (model.NominalAmount d) in
  if (efficiency =? 0)%float && (0 <? model.WaterVolume d)%float
     && (0 <? model.Duration d)
  then
    let nominalVolume := (Go.float64 (model.Duration d) * 1)%float in
    calculateEfficiency (model.WaterVolume d) nominalVolume
  else efficiency.

(** One iteration of [calculateSummary]'s loop. *)
Definition summaryStep (acc : SummaryAcc)
  (item : repository.AggregatedDataWithCount) : SummaryAcc :=
  let d := repository.Data item in
  let efficiency := summaryEfficiency d in
  {| totalWaterVolume := (totalWaterVolume acc + model.WaterVolume d)%float;
     totalDuration := Go.int_add (totalDuration acc) (model.Duration d);
     totalEfficiency :=
       if (0 <? efficiency)%float
       then (totalEfficiency acc + efficiency)%float
       else totalEfficiency acc;
     efficiencyCount :=
       if (0 <? efficiency)%float
       then Go.int_add (efficiencyCount acc) 1
       else efficiencyCount acc;
     totalRealAmount := (totalRealAmount acc + model.RealAmount d)%float;
     totalNominalAmount :=
       (totalNominalAmount acc + model.NominalAmount d)%float;
     totalEvents := Go.int_add (totalEvents acc) (repository.EventCount item) |}.

Definition calculateSummary (data : list repository.AggregatedDataWithCount)
  : AnalyticsSummary.t :=
  let acc := fold_left summaryStep data SummaryAcc_zero in
  let avgEfficiency :=
    if 0 <? efficiencyCount acc
    then (totalEfficiency acc / Go.float64 (efficiencyCount acc))%float
    else 0%float in
  {| AnalyticsSummary.TotalWaterVolume :=
       (Go.Round (totalWaterVolume acc * 100) / 100)%float;
     AnalyticsSummary.TotalDuration := totalDuration acc;
     AnalyticsSummary.AverageEfficiency :=
       (Go.Round (avgEfficiency * 10000) / 10000)%float;
     AnalyticsSummary.TotalEvents := totalEvents acc;
     AnalyticsSummary.TotalRealAmount :=
       (Go.Round (totalRealAmount acc * 100) / 100)%float;
     AnalyticsSummary.TotalNominalAmount :=
       (Go.Round (totalNominalAmount acc * 100) / 100)%float |}.

(** ** Per-sector accumulation *)

(** The [else] branch of the grouping loop of [calculateSectorBreakdown]: the
    first bucket of a sector creates its entry. *)
Definition sectorCreate (item : repository.AggregatedDataWithCount)
  : SectorBreakdown.t :=
  let d := repository.Data item in
  let efficiency := summaryEfficiency d in
  {| SectorBreakdown.SectorID := model.IrrigationSectorID d;
     SectorBreakdown.TotalWaterVolume := model.WaterVolume d;
     SectorBreakdown.TotalEvents := repository.EventCount item;
     SectorBreakdown.AverageEfficiency := efficiency;
     SectorBreakdown.TotalRealAmount := model.RealAmount d;
     SectorBreakdown.TotalNominalAmount := model.NominalAmount d |}.

(** The [if] branch: a later bucket is added to the entry the map points to. *)
Definition sectorUpdate (breakdown : SectorBreakdown.t)
  (item : repository.AggregatedDataWithCount) : SectorBreakdown.t :=
  let d := repository.Data item in
  {| SectorBreakdown.SectorID := SectorBreakdown.SectorID breakdown;
     SectorBreakdown.TotalWaterVolume :=
       (SectorBreakdown.TotalWaterVolume breakdown + model.WaterVolume d)%float;
     SectorBreakdown.TotalEvents :=
       Go.int_add (SectorBreakdown.TotalEvents breakdown)
         (repository.EventCount item);
     SectorBreakdown.AverageEfficiency :=
       SectorBreakdown.AverageEfficiency breakdown;
     SectorBreakdown.TotalRealAmount :=
       (SectorBreakdown.TotalRealAmount breakdown + model.RealAmount d)%float;
     SectorBreakdown.TotalNominalAmount :=
       (SectorBreakdown.TotalNominalAmount breakdown
        + model.NominalAmount d)%float |}.

(** One iteration of the grouping loop over [sectorMap]. *)
Definition sectorStep (sectorMap : gmap N SectorBreakdown.t)
  (item : repository.AggregatedDataWithCount) : gmap N SectorBreakdown.t :=
  let sectorID := model.IrrigationSectorID (repository.Data item) in
  match sectorMap !! sectorID with
  | Some breakdown => <[sectorID := sectorUpdate breakdown item]> sectorMap
  | None => <[sectorID := sectorCreate item]> sectorMap
  end.

(** The body of the second loop: recompute the average from the totals when
    the nominal total is positive, then round every figure. *)
Definition sectorFinish (breakdown : SectorBreakdown.t) : SectorBreakdown.t :=
  let averageEfficiency :=
    if (0 <? SectorBreakdown.TotalNominalAmount breakdown)%float
    then calculateEfficiency (SectorBreakdown.TotalRealAmount breakdown)
           (SectorBreakdown.TotalNominalAmount breakdown)
    else SectorBreakdown.AverageEfficiency breakdown in
  {| SectorBreakdown.SectorID := SectorBreakdown.SectorID breakdown;
     SectorBreakdown.TotalWaterVolume :=
       (Go.Round (SectorBreakdown.TotalWaterVolume breakdown * 100) / 100)%float;
     SectorBreakdown.TotalEvents := SectorBreakdown.TotalEvents breakdown;
     SectorBreakdown.AverageEfficiency :=
       (Go.Round (averageEfficiency * 10000) / 10000)%float;
     SectorBreakdown.TotalRealAmount :=
       (Go.Round (SectorBreakdown.TotalRealAmount breakdown * 100) / 100)%float;
     SectorBreakdown.TotalNominalAmount :=
       (Go.Round (SectorBreakdown.TotalNominalAmount breakdown * 100)
        / 100)%float |}.

(** [for _, breakdown := range sectorMap]: Go leaves the iteration order of a
    map unspecified, so the order is the runtime's choice, any arrangement
    of the map's entries. *)
Definition MapRange : Type :=
  gmap N SectorBreakdown.t -> list (N * SectorBreakdown.t).

Definition MapRange_ok (range : MapRange) : Prop :=
  forall m, Permutation (range m) (map_to_list m).

(** [err == nil] *)
Definition isNil {A : Type} (p : option A) : bool :=
  match p with None => true | Some _ => false end.

(** [len(s)] *)
Definition len {A : Type} (s : list A) : Z := Z.of_nat (List.length s).

(** ** The service *)

Section Service.

Variable DB : Type.

(** [time.Time.AddDate], the standard library's calendar arithmetic. *)
Variable AddDate : time.Time -> Z -> Z -> Z -> time.Time.

(** The [repo] field of [analyticsService]. *)
Variable repo : repository.IrrigationRepository DB.

(** The order the runtime picks when the sector map is ranged over. *)
Variable range : MapRange.

Definition calculatePeriodComparison (farmID : N) (sectorID : option N)
  (startDate endDate : time.Time) (aggregation : string)
  (currentSummary : AnalyticsSummary.t) (db : DB)
  : PeriodComparison.t * DB :=
  let '((oneYearData, err), db) :=
    repository.GetYearOverYearData repo farmID sectorID startDate endDate
      aggregation 1 db in
  let oneYearAgo :=
    if isNil err && (0 <? len oneYearData) then
      let oneYearSummary := calculateSummary oneYearData in
      Some
        {| PeriodMetrics.Period :=
             {| PeriodInfo.StartDate := AddDate startDate (-1) 0 0;
                PeriodInfo.EndDate := AddDate endDate (-1) 0 0 |};
           PeriodMetrics.TotalWaterVolume :=
             AnalyticsSummary.TotalWaterVolume oneYearSummary;
           PeriodMetrics.TotalEvents :=
             AnalyticsSummary.TotalEvents oneYearSummary;
           PeriodMetrics.AverageEfficiency :=
             AnalyticsSummary.AverageEfficiency oneYearSummary;
           PeriodMetrics.VolumeChangePercent :=
             calculateChangePercent
               (AnalyticsSummary.TotalWaterVolume currentSummary)
               (AnalyticsSummary.TotalWaterVolume oneYearSummary);
           PeriodMetrics.EventsChangePercent :=
             calculateChangePercent
               (Go.float64 (AnalyticsSummary.TotalEvents currentSummary))
               (Go.float64 (AnalyticsSummary.TotalEvents oneYearSummary));
           PeriodMetrics.EfficiencyChangePercent :=
             calculateChangePercent
               (AnalyticsSummary.AverageEfficiency currentSummary)
               (AnalyticsSummary.AverageEfficiency oneYearSummary) |}
    else None in
  let '((twoYearsData, err), db) :=
    repository.GetYearOverYearData repo farmID sectorID startDate endDate
      aggregation 2 db in
  let twoYearsAgo :=
    if isNil err && (0 <? len twoYearsData) then
      let twoYearsSummary := calculateSummary twoYearsData in
      Some
        {| PeriodMetrics.Period :=
             {| PeriodInfo.StartDate := AddDate startDate (-2) 0 0;
                PeriodInfo.EndDate := AddDate endDate (-2) 0 0 |};
           PeriodMetrics.TotalWaterVolume :=
             AnalyticsSummary.TotalWaterVolume twoYearsSummary;
           PeriodMetrics.TotalEvents :=
             AnalyticsSummary.TotalEvents twoYearsSummary;
           PeriodMetrics.AverageEfficiency :=
             AnalyticsSummary.AverageEfficiency twoYearsSummary;
           PeriodMetrics.VolumeChangePercent :=
             calculateChangePercent
               (AnalyticsSummary.TotalWaterVolume currentSummary)
               (AnalyticsSummary.TotalWaterVolume twoYearsSummary);
           PeriodMetrics.EventsChangePercent :=
             calculateChangePercent
               (Go.float64 (AnalyticsSummary.TotalEvents currentSummary))
               (Go.float64 (AnalyticsSummary.TotalEvents twoYearsSummary));
           PeriodMetrics.EfficiencyChangePercent :=
             calculateChangePercent
               (AnalyticsSummary.AverageEfficiency currentSummary)
               (AnalyticsSummary.AverageEfficiency twoYearsSummary) |}
    else None in
  ({| PeriodComparison.OneYearAgo := oneYearAgo;
      PeriodComparison.TwoYearsAgo := twoYearsAgo |}, db).

Definition calculateSectorBreakdown (farmID : N)
  (startDate endDate : time.Time) (aggregation : string) (db : DB)
  : list SectorBreakdown.t * DB :=
  let '((data, err), db) :=
    repository.GetAggregatedData repo farmID None startDate endDate
      aggregation db in
  if isNil err then
    let sectorMap := fold_left sectorStep data (∅ : gmap N SectorBreakdown.t) in
    (List.map (fun entry => sectorFinish (snd entry)) (range sectorMap), db)
  else ([], db).

Definition calculateYearOverYear (farmID : N) (sectorID : option N)
  (startDate endDate : time.Time) (aggregation : string)
  (currentSummary : AnalyticsSummary.t) (db : DB)
  : YearOverYearComparison.t * DB :=
  let '((oneYearData, err), db) :=
    repository.GetYearOverYearData repo farmID sectorID startDate endDate
      aggregation 1 db in
  let oneYearAgo :=
    if isNil err && (0 <? len oneYearData) then
      let oneYearSummary := calculateSummary oneYearData in
      let changePercent :=
        calculateChangePercent
          (AnalyticsSummary.TotalWaterVolume currentSummary)
          (AnalyticsSummary.TotalWaterVolume oneYearSummary) in
      Some
        {| YearComparison.Period :=
             {| PeriodInfo.StartDate := AddDate startDate (-1) 0 0;
                PeriodInfo.EndDate := AddDate endDate (-1) 0 0 |};
           YearComparison.TotalWaterVolume :=
             AnalyticsSummary.TotalWaterVolume oneYearSummary;
           YearComparison.TotalDuration :=
             AnalyticsSummary.TotalDuration oneYearSummary;
           YearComparison.AverageEfficiency :=
             AnalyticsSummary.AverageEfficiency oneYearSummary;
           YearComparison.TotalEvents :=
             AnalyticsSummary.TotalEvents oneYearSummary;
           YearComparison.ChangePercent := changePercent |}
    else None in
  let '((twoYearsData, err), db) :=
    repository.GetYearOverYearData repo farmID sectorID startDate endDate
      aggregation 2 db in
  let twoYearsAgo :=
    if isNil err && (0 <? len twoYearsData) then
      let twoYearsSummary := calculateSummary twoYearsData in
      let changePercent :=
        calculateChangePercent
          (AnalyticsSummary.TotalWaterVolume currentSummary)
          (AnalyticsSummary.TotalWaterVolume twoYearsSummary) in
      Some
        {| YearComparison.Period :=
             {| PeriodInfo.StartDate := AddDate startDate (-2) 0 0;
                PeriodInfo.EndDate := AddDate endDate (-2) 0 0 |};
           YearComparison.TotalWaterVolume :=
             AnalyticsSummary.TotalWaterVolume twoYearsSummary;
           YearComparison.TotalDuration :=
             AnalyticsSummary.TotalDuration twoYearsSummary;
           YearComparison.AverageEfficiency :=
             AnalyticsSummary.AverageEfficiency twoYearsSummary;
           YearComparison.TotalEvents :=
             AnalyticsSummary.TotalEvents twoYearsSummary;
           YearComparison.ChangePercent := changePercent |}
    else None in
  ({| YearOverYearComparison.OneYearAgo := oneYearAgo;
      YearOverYearComparison.TwoYearsAgo := twoYearsAgo |}, db).

(** The first lines of [GetIrrigationAnalytics]: an empty or unknown
    aggregation level becomes ["daily"]. *)
Definition validateAggregation (aggregation : string) : string :=
  let aggregation :=
    if (aggregation =? "")%string then "daily"%string else aggregation in
  if negb (aggregation =? "daily")%string
     && negb (aggregation =? "weekly")%string
     && negb (aggregation =? "monthly")%string
  then "daily"%string else aggregation.

Definition GetIrrigationAnalytics (farmID : N) (sectorID : option N)
  (startDate endDate : time.Time) (aggregation : string) (db : DB)
  : (option AnalyticsResponse.t * option Go.error) * DB :=
  let aggregation := validateAggregation aggregation in
  let '((currentData, err), db) :=
    repository.GetAggregatedData repo farmID sectorID startDate endDate
      aggregation db in
  match err with
  | Some e => ((None, Some e), db)
  | None =>
      let dataPoints := processDataPoints currentData aggregation in
      let summary := calculateSummary currentData in
      let '(periodComparison, db) :=
        calculatePeriodComparison farmID sectorID startDate endDate
          aggregation summary db in
      let '(sectorBreakdown, db) :=
        match sectorID with
        | None =>
            calculateSectorBreakdown farmID startDate endDate aggregation db
        | Some _ => ([], db)
        end in
      let '(yoy, db) :=
        calculateYearOverYear farmID sectorID startDate endDate aggregation
          summary db in
      ((Some
          {| AnalyticsResponse.FarmID := farmID;
             AnalyticsResponse.SectorID := sectorID;
             AnalyticsResponse.Period :=
               {| PeriodInfo.StartDate := startDate;
                  PeriodInfo.EndDate := endDate |};
             AnalyticsResponse.Aggregation := aggregation;
             AnalyticsResponse.Data := dataPoints;
             AnalyticsResponse.Summary := summary;
             AnalyticsResponse.PeriodComparison := periodComparison;
             AnalyticsResponse.SectorBreakdown := sectorBreakdown;
             AnalyticsResponse.YearOverYear := yoy |}, None), db)
  end.

End Service.

Arguments calculatePeriodComparison {DB} AddDate repo _ _ _ _ _ _ _.
Arguments calculateSectorBreakdown {DB} repo range _ _ _ _ _.
Arguments calculateYearOverYear {DB} AddDate repo _ _ _ _ _ _ _.
Arguments GetIrrigationAnalytics {DB} AddDate repo range _ _ _ _ _ _.

(** ** Vocabulary of the properties *)

(** Rounding to four and to two decimals, as the service writes it. *)
Definition round4 (x : float) : float := (Go.Round (x * 10000) / 10000)%float.

Definition round2 (x : float) : float := (Go.Round (x * 100) / 100)%float.

(** The efficiency the duration-based fallback gives a bucket: the water
    volume over one unit per minute of duration. *)
Definition fallbackEfficiency (d : model.IrrigationData) : float :=
  calculateEfficiency (model.WaterVolume d)
    (Go.float64 (model.Duration d) * 1)%float.

(** The efficiency of a bucket without the fallback. *)
Definition plainEfficiency (d : model.IrrigationData) : float :=
  calculateEfficiency (model.RealAmount d) (model.NominalAmount d).

(** The fallback condition in the specification's words: real and nominal
    amount both zero, water volume and duration both non-zero. *)
Definition specFallbackApplies (d : model.IrrigationData) : bool :=
  (model.RealAmount d =? 0)%float && (model.NominalAmount d =? 0)%float
  && negb (model.WaterVolume d =? 0)%float && negb (model.Duration d =? 0).

(** The fallback condition of [processDataPoints], its two nested tests
    taken together. *)
Definition pointFallbackApplies (d : model.IrrigationData) : bool :=
  (model.RealAmount d =? 0)%float && (model.NominalAmount d =? 0)%float
  && (0 <? model.WaterVolume d)%float && (0 <? model.Duration d).

(** The fallback rule as the specification words it, for one bucket: the
    data point and the efficiency that feeds the summary average both take
    the fallback exactly under [specFallbackApplies]. *)
Definition specFallbackLaw (item : repository.AggregatedDataWithCount) : Prop :=
  let d := repository.Data item in
  AggregatedDataPoint.Efficiency (processDataPoint item)
  = (if specFallbackApplies d then fallbackEfficiency d else plainEfficiency d)
  /\ summaryEfficiency d
     = (if specFallbackApplies d then fallbackEfficiency d
        else plainEfficiency d).

(** The arithmetic mean of a list of floats, summed left to right from
    [0.0]; [0.0] for the empty list. *)
Definition mean (l : list float) : float :=
  match l with
  | [] => 0%float
  | _ => (fold_left PrimFloat.add l 0 / Go.float64 (len l))%float
  end.

(** The strictly positive members of a list of floats. *)
Definition positives (l : list float) : list float :=
  List.filter (fun e => (0 <? e)%float) l.

(** The per-bucket efficiency in the specification's words: the fallback
    value under [specFallbackApplies], the efficiency of the two amounts
    otherwise. *)
Definition specEfficiency (d : model.IrrigationData) : float :=
  if specFallbackApplies d then fallbackEfficiency d else plainEfficiency d.

(** The average-efficiency rule as the specification words it: the mean,
    rounded to four decimals, of the strictly positive per-bucket
    efficiencies. *)
Definition specAverageLaw (data : list repository.AggregatedDataWithCount)
  : Prop :=
  AnalyticsSummary.AverageEfficiency (calculateSummary data)
  = round4
      (mean
         (positives
            (List.map (fun item => specEfficiency (repository.Data item))
               data))).

(** The efficiencies of the data points of a response, in row order. *)
Definition pointEfficiencies (data : list repository.AggregatedDataWithCount)
  : list float :=
  List.map AggregatedDataPoint.Efficiency (processDataPoints data "daily").

(** The buckets on which [calculateSummary] takes the fallback and
    [processDataPoints] does not: the efficiency of the two amounts
    compares equal to zero although the amounts are not both zero, and
    water volume and duration are greater than zero. *)
Definition summaryOnlyFallback (d : model.IrrigationData) : bool :=
  (plainEfficiency d =? 0)%float
  && negb ((model.RealAmount d =? 0)%float && (model.NominalAmount d =? 0)%float)
  && (0 <? model.WaterVolume d)%float && (0 <? model.Duration d).

(** The buckets of one sector, in the order of the rows. *)
Definition sectorBuckets (sectorID : N)
  (data : list repository.AggregatedDataWithCount)
  : list repository.AggregatedDataWithCount :=
  List.filter
    (fun item => N.eqb (model.IrrigationSectorID (repository.Data item)) sectorID)
    data.

(** A sum over buckets, left to right, starting from the first one. *)
Definition sumOver (f : model.IrrigationData -> float)
  (buckets : list repository.AggregatedDataWithCount) : float :=
  match buckets with
  | [] => 0%float
  | b :: rest =>
      fold_left (fun acc item => (acc + f (repository.Data item))%float) rest
        (f (repository.Data b))
  end.

(** What the grouping loop does to the entry of one sector. *)
Definition sectorFold (entry : option SectorBreakdown.t)
  (item : repository.AggregatedDataWithCount) : option SectorBreakdown.t :=
  Some match entry with
       | Some breakdown => sectorUpdate breakdown item
       | None => sectorCreate item
       end.

(** The sector average as the specification words it: the quotient of the
    two sums, rounded to four decimals. *)
Definition specSectorLaw (rows : list repository.AggregatedDataWithCount)
  (entry : SectorBreakdown.t) : Prop :=
  let buckets := sectorBuckets (SectorBreakdown.SectorID entry) rows in
  SectorBreakdown.AverageEfficiency entry
  = round4 (sumOver model.RealAmount buckets
            / sumOver model.NominalAmount buckets)%float.

(** The repository calls one successful request makes, in the order
    [GetIrrigationAnalytics] makes them, each on the state its predecessor
    left: the current window, the two historical windows of
    [calculatePeriodComparison], the unscoped window of
    [calculateSectorBreakdown] (only when no sector is given), and the two
    historical windows again for [calculateYearOverYear]. *)
Record Fetches : Type := {
  fetchCurrent : list repository.AggregatedDataWithCount * option Go.error;
  fetchComparison1 : list repository.AggregatedDataWithCount * option Go.error;
  fetchComparison2 : list repository.AggregatedDataWithCount * option Go.error;
  fetchBreakdown :
    option (list repository.AggregatedDataWithCount * option Go.error);
  fetchLegacy1 : list repository.AggregatedDataWithCount * option Go.error;
  fetchLegacy2 : list repository.AggregatedDataWithCount * option Go.error
}.

Definition fetches {DB : Type} (repo : repository.IrrigationRepository DB)
  (farmID : N) (sectorID : option N) (startDate endDate : time.Time)
  (aggregation : string) (db : DB) : Fetches :=
  let aggregation := validateAggregation aggregation in
  let '(current, db) :=
    repository.GetAggregatedData repo farmID sectorID startDate endDate
      aggregation db in
  let '(comparison1, db) :=
    repository.GetYearOverYearData repo farmID sectorID startDate endDate
      aggregation 1 db in
  let '(comparison2, db) :=
    repository.GetYearOverYearData repo farmID sectorID startDate endDate
      aggregation 2 db in
  let '(breakdown, db) :=
    match sectorID with
    | None =>
        let '(r, db) :=
          repository.GetAggregatedData repo farmID None startDate endDate
            aggregation db in
        (Some r, db)
    | Some _ => (None, db)
    end in
  let '(legacy1, db) :=
    repository.GetYearOverYearData repo farmID sectorID startDate endDate
      aggregation 1 db in
  let '(legacy2, _) :=
    repository.GetYearOverYearData repo farmID sectorID startDate endDate
      aggregation 2 db in
  {| fetchCurrent := current;
     fetchComparison1 := comparison1;
     fetchComparison2 := comparison2;
     fetchBreakdown := breakdown;
     fetchLegacy1 := legacy1;
     fetchLegacy2 := legacy2 |}.

(** A [period_comparison] entry and a [year_over_year] entry that tell the
    same story: both absent, or both present with the same period, volume,
    event count and average efficiency, the legacy [change_percent] being
    the [volume_change_percent]. *)
Definition sameEntry (entry : option PeriodMetrics.t)
  (legacy : option YearComparison.t) : Prop :=
  match entry, legacy with
  | None, None => True
  | Some p, Some y =>
      PeriodMetrics.Period p = YearComparison.Period y
      /\ PeriodMetrics.TotalWaterVolume p = YearComparison.TotalWaterVolume y
      /\ PeriodMetrics.TotalEvents p = YearComparison.TotalEvents y
      /\ PeriodMetrics.AverageEfficiency p
         = YearComparison.AverageEfficiency y
      /\ YearComparison.ChangePercent y = PeriodMetrics.VolumeChangePercent p
  | _, _ => False
  end.

(** A data source that does not change: every query answers by its
    arguments alone, whatever state it is asked in. *)
Definition unchanged {DB : Type} (repo : repository.IrrigationRepository DB)
  : Prop :=
  (forall farmID sectorID startDate endDate aggregation db db',
      fst (repository.GetAggregatedData repo farmID sectorID startDate endDate
             aggregation db)
      = fst (repository.GetAggregatedData repo farmID sectorID startDate
               endDate aggregation db')) /\
  (forall farmID sectorID startDate endDate aggregation yearsBack db db',
      fst (repository.GetYearOverYearData repo farmID sectorID startDate
             endDate aggregation yearsBack db)
      = fst (repository.GetYearOverYearData repo farmID sectorID startDate
               endDate aggregation yearsBack db')).

(** ** Sample data *)

Definition bucket (sector : N) (start : time.Time) (volume : float)
  (duration : Z) (nominal real : float) (events : Z)
  : repository.AggregatedDataWithCount :=
  {| repository.Data :=
       {| model.FarmID := 1; model.IrrigationSectorID := sector;
          model.StartTime := start; model.WaterVolume := volume;
          model.Duration := duration; model.NominalAmount := nominal;
          model.RealAmount := real |};
     repository.EventCount := events |}.

(** A bucket with both amounts recorded. *)
Definition bucket_plain : repository.AggregatedDataWithCount :=
  bucket 1 20 150 60 100 120 2.

(** A legacy bucket: volume and duration only. *)
Definition bucket_legacy : repository.AggregatedDataWithCount :=
  bucket 2 20 50 10 0 0 1.

(** A bucket with a nominal amount but no real amount. *)
Definition bucket_no_real : repository.AggregatedDataWithCount :=
  bucket 1 21 50 10 100 0 1.

(** A bucket with neither amount and a negative (correcting) volume. *)
Definition bucket_negative : repository.AggregatedDataWithCount :=
  bucket 2 21 (-5) 10 0 0 1.

(** A second bucket of sector 1. *)
Definition bucket_more : repository.AggregatedDataWithCount :=
  bucket 1 22 90 30 50 45 3.

(** A calendar shift for the samples: one year is 365 units. *)
Definition sampleAddDate (t : time.Time) (years months days : Z) : time.Time :=
  t + 365 * years + 30 * months + days.

(** A source that never changes and never fails: two sectors in the
    current window, one bucket a year back, nothing two years back. *)
Definition steadyRepo : repository.IrrigationRepository unit :=
  {| repository.GetAggregatedData :=
       fun _ sectorID _ _ _ db =>
         (match sectorID with
          | None => [bucket_plain; bucket_legacy; bucket_more]
          | Some s => sectorBuckets s [bucket_plain; bucket_legacy; bucket_more]
          end, None, db);
     repository.GetYearOverYearData :=
       fun _ _ _ _ _ yearsBack db =>
         (if yearsBack =? 1 then [bucket_plain] else [], None, db) |}.

(** A source that counts the queries it has answered and fails every query
    from the [n]-th on. *)
Definition failingFrom (n : Z) : repository.IrrigationRepository Z :=
  {| repository.GetAggregatedData :=
       fun _ _ _ _ _ db =>
         (if db <? n then ([bucket_plain; bucket_legacy], None)
          else ([], Some "connection refused"%string), db + 1);
     repository.GetYearOverYearData :=
       fun _ _ _ _ _ _ db =>
         (if db <? n then ([bucket_plain], None)
          else ([], Some "connection refused"%string), db + 1) |}.

(** A source that answers every current-window query with the same rows
    and has no history. *)
Definition fixedRepo (rows : list repository.AggregatedDataWithCount)
  : repository.IrrigationRepository unit :=
  {| repository.GetAggregatedData := fun _ _ _ _ _ db => (rows, None, db);
     repository.GetYearOverYearData := fun _ _ _ _ _ _ db => ([], None, db) |}.

(** A bucket whose real amount dwarfs its nominal amount. *)
Definition bucket_huge : repository.AggregatedDataWithCount :=
  bucket 3 20 10 10 1 367730173347.66077 1.

(** The entries the sample windows give sectors 1, 2 and 3. *)
Definition sample_sector1_entry : SectorBreakdown.t :=
  {| SectorBreakdown.SectorID := 1;
     SectorBreakdown.TotalWaterVolume := 240;
     SectorBreakdown.TotalEvents := 5;
     SectorBreakdown.AverageEfficiency := 1.1;
     SectorBreakdown.TotalRealAmount := 165;
     SectorBreakdown.TotalNominalAmount := 150 |}.

Definition sample_sector2_entry : SectorBreakdown.t :=
  {| SectorBreakdown.SectorID := 2;
     SectorBreakdown.TotalWaterVolume := 50;
     SectorBreakdown.TotalEvents := 1;
     SectorBreakdown.AverageEfficiency := 5;
     SectorBreakdown.TotalRealAmount := 0;
     SectorBreakdown.TotalNominalAmount := 0 |}.

Definition sample_sector3_entry : SectorBreakdown.t :=
  {| SectorBreakdown.SectorID := 3;
     SectorBreakdown.TotalWaterVolume := 10;
     SectorBreakdown.TotalEvents := 1;
     SectorBreakdown.AverageEfficiency := 367730173347.66089;
     SectorBreakdown.TotalRealAmount := 367730173347.65997;
     SectorBreakdown.TotalNominalAmount := 1 |}.

(** Two iteration orders a runtime may pick: ascending and descending. *)
Definition rangeAscending : MapRange := fun m => map_to_list m.

Definition rangeDescending : MapRange := fun m => List.rev (map_to_list m).

(** ** Vocabulary of the further properties *)

(** The three change figures of a comparison entry, recomputed from the
    entry's own totals and the summary of the current window. *)
Definition changesFrom (current : AnalyticsSummary.t) (entry : PeriodMetrics.t)
  : Prop :=
  PeriodMetrics.VolumeChangePercent entry
  = calculateChangePercent (AnalyticsSummary.TotalWaterVolume current)
      (PeriodMetrics.TotalWaterVolume entry)
  /\ PeriodMetrics.EventsChangePercent entry
     = calculateChangePercent
         (Go.float64 (AnalyticsSummary.TotalEvents current))
         (Go.float64 (PeriodMetrics.TotalEvents entry))
  /\ PeriodMetrics.EfficiencyChangePercent entry
     = calculateChangePercent (AnalyticsSummary.AverageEfficiency current)
         (PeriodMetrics.AverageEfficiency entry).

(** What a [period_comparison] entry is, given the historical fetch made
    for it: absent when the fetch failed or brought no bucket; otherwise
    the summary of the fetched buckets over the shifted window, with the
    change figures against the current summary. *)
Definition comparisonEntryLaw (shiftedStart shiftedEnd : time.Time)
  (current : AnalyticsSummary.t)
  (answer : list repository.AggregatedDataWithCount * option Go.error)
  (entry : option PeriodMetrics.t) : Prop :=
  match entry with
  | None => snd answer <> None \/ fst answer = []
  | Some p =>
      snd answer = None /\ fst answer <> []
      /\ PeriodMetrics.Period p
         = {| PeriodInfo.StartDate := shiftedStart;
              PeriodInfo.EndDate := shiftedEnd |}
      /\ PeriodMetrics.TotalWaterVolume p
         = AnalyticsSummary.TotalWaterVolume (calculateSummary (fst answer))
      /\ PeriodMetrics.TotalEvents p
         = AnalyticsSummary.TotalEvents (calculateSummary (fst answer))
      /\ PeriodMetrics.AverageEfficiency p
         = AnalyticsSummary.AverageEfficiency (calculateSummary (fst answer))
      /\ changesFrom current p
  end.

(** The same for an entry of the legacy [year_over_year] view. *)
Definition legacyEntryLaw (shiftedStart shiftedEnd : time.Time)
  (current : AnalyticsSummary.t)
  (answer : list repository.AggregatedDataWithCount * option Go.error)
  (entry : option YearComparison.t) : Prop :=
  match entry with
  | None => snd answer <> None \/ fst answer = []
  | Some y =>
      snd answer = None /\ fst answer <> []
      /\ YearComparison.Period y
         = {| PeriodInfo.StartDate := shiftedStart;
              PeriodInfo.EndDate := shiftedEnd |}
      /\ YearComparison.TotalWaterVolume y
         = AnalyticsSummary.TotalWaterVolume (calculateSummary (fst answer))
      /\ YearComparison.TotalDuration y
         = AnalyticsSummary.TotalDuration (calculateSummary (fst answer))
      /\ YearComparison.TotalEvents y
         = AnalyticsSummary.TotalEvents (calculateSummary (fst answer))
      /\ YearComparison.AverageEfficiency y
         = AnalyticsSummary.AverageEfficiency (calculateSummary (fst answer))
      /\ YearComparison.ChangePercent y
         = calculateChangePercent (AnalyticsSummary.TotalWaterVolume current)
             (YearComparison.TotalWaterVolume y)
  end.

(** A sum of [int]s, left to right, starting from the first one. *)
Definition sumIntOver (f : repository.AggregatedDataWithCount -> Z)
  (buckets : list repository.AggregatedDataWithCount) : Z :=
  match buckets with
  | [] => 0
  | b :: rest => fold_left (fun acc item => Go.int_add acc (f item)) rest (f b)
  end.

(** The mathematical sum of a list of integers. *)
Definition sumZ (l : list Z) : Z := fold_right Z.add 0 l.

(** The events held by a sector map, and the map's invariant that no entry
    holds a negative count. *)
Definition mapEvents (m : gmap N SectorBreakdown.t) : Z :=
  sumZ (List.map (fun entry => SectorBreakdown.TotalEvents (snd entry))
          (map_to_list m)).

Definition mapCountsOk (m : gmap N SectorBreakdown.t) : Prop :=
  forall sectorID breakdown,
    m !! sectorID = Some breakdown ->
    0 <= SectorBreakdown.TotalEvents breakdown.

(** The [period_comparison] entry built from the buckets of a shifted
    window. *)
Definition periodMetricsOf (shiftedStart shiftedEnd : time.Time)
  (current : AnalyticsSummary.t)
  (rows : list repository.AggregatedDataWithCount) : PeriodMetrics.t :=
  let past := calculateSummary rows in
  {| PeriodMetrics.Period :=
       {| PeriodInfo.StartDate := shiftedStart;
          PeriodInfo.EndDate := shiftedEnd |};
     PeriodMetrics.TotalWaterVolume := AnalyticsSummary.TotalWaterVolume past;
     PeriodMetrics.TotalEvents := AnalyticsSummary.TotalEvents past;
     PeriodMetrics.AverageEfficiency := AnalyticsSummary.AverageEfficiency past;
     PeriodMetrics.VolumeChangePercent :=
       calculateChangePercent (AnalyticsSummary.TotalWaterVolume current)
         (AnalyticsSummary.TotalWaterVolume past);
     PeriodMetrics.EventsChangePercent :=
       calculateChangePercent
         (Go.float64 (AnalyticsSummary.TotalEvents current))
         (Go.float64 (AnalyticsSummary.TotalEvents past));
     PeriodMetrics.EfficiencyChangePercent :=
       calculateChangePercent (AnalyticsSummary.AverageEfficiency current)
         (AnalyticsSummary.AverageEfficiency past) |}.

(** ** Request metrics ([internal/middleware/logging.go]) *)

Module middleware.

(** [RequestMetrics]: the counters behind the metrics endpoint.  Both are
    [uint64]; the mutex only makes each update atomic, so one update is one
    step here. *)
Record RequestMetrics : Type := {
  TotalRequests : Z;
  RequestsByEndpoint : gmap string Z
}.

(** The package variable [metrics] as the program starts. *)
Definition metrics : RequestMetrics :=
  {| TotalRequests := 0; RequestsByEndpoint := ∅ |}.

(** The order the runtime picks when a [map[string]uint64] is ranged over. *)
Definition EndpointRange : Type := gmap string Z -> list (string * Z).

Definition EndpointRange_ok (range : EndpointRange) : Prop :=
  forall m, Permutation (range m) (map_to_list m).

(** [copyMap]: every pair of [src], in the order of the range, is stored in
    a fresh map. *)
Definition copyMap (range : EndpointRange) (src : gmap string Z)
  : gmap string Z :=
  fold_left (fun dst entry => <[fst entry := snd entry]> dst) (range src)
    (∅ : gmap string Z).

(** [GetMetrics]: the total and a copy of the per-endpoint counters. *)
Definition GetMetrics (range : EndpointRange) (current : RequestMetrics)
  : RequestMetrics :=
  {| TotalRequests := TotalRequests current;
     RequestsByEndpoint := copyMap range (RequestsByEndpoint current) |}.

(** The update [StructuredLoggingMiddleware] makes under the lock once a
    request has been served: [TotalRequests++] and
    [RequestsByEndpoint[method + " " + path]++], a missing key reading as
    zero. *)
Definition recordRequest (method path : string) (current : RequestMetrics)
  : RequestMetrics :=
  let endpoint := (method ++ " " ++ path)%string in
  {| TotalRequests := (TotalRequests current + 1) mod 2 ^ 64;
     RequestsByEndpoint :=
       <[endpoint :=
           (default 0 (RequestsByEndpoint current !! endpoint) + 1) mod 2 ^ 64]>
         (RequestsByEndpoint current) |}.

(** The metrics after a sequence of served requests, each a method and a
    path. *)
Definition serve (requests : list (string * string))
  (current : RequestMetrics) : RequestMetrics :=
  fold_left (fun state request => recordRequest (fst request) (snd request) state)
    requests current.

End middleware.

(** The number of requests of a sequence that hit an endpoint. *)
Definition hits (endpoint : string) (requests : list (string * string)) : Z :=
  len (List.filter
         (fun request =>
            String.eqb (fst request ++ " " ++ snd request) endpoint)
         requests).

(** The sum of the per-endpoint counters. *)
Definition endpointTotal (m : gmap string Z) : Z :=
  sumZ (List.map snd (map_to_list m)).

(** ** The repository ([internal/repository]) *)

Module irrigationRepository.

(** A value bound to a [?] placeholder of a statement. *)
Inductive Arg : Type :=
| ArgUint (n : N)
| ArgTime (t : time.Time).

(** [AggregatedResult]: one row of an aggregation query. *)
Record AggregatedResult : Type := {
  StartTime : time.Time;
  WaterVolume : float;
  Duration : Z;
  FarmID : N;
  IrrigationSectorID : N;
  EventCount : Z;
  NominalAmount : float;
  RealAmount : float
}.

(** The database handle, as far as the repository uses it:
    [db.Raw(sql, args...).Scan(&results).Error] and
    [db.Model(&model.Farm{}).Where(cond, args...).Count(&count).Error].
    Either reads a database that lives outside the program. *)
Record Conn (DB : Type) : Type := {
  Raw : string -> list Arg -> DB ->
        (list AggregatedResult * option Go.error) * DB;
  Count : string -> string -> list Arg -> DB -> (Z * option Go.error) * DB
}.

Arguments Raw {DB} _ _ _ _.
Arguments Count {DB} _ _ _ _ _.

(** The conversion loop at the end of both queries. *)
Definition toModel (r : AggregatedResult) : repository.AggregatedDataWithCount :=
  {| repository.Data :=
       {| model.FarmID := FarmID r;
          model.IrrigationSectorID := IrrigationSectorID r;
          model.StartTime := StartTime r;
          model.WaterVolume := WaterVolume r;
          model.Duration := Duration r;
          model.NominalAmount := NominalAmount r;
          model.RealAmount := RealAmount r |};
     repository.EventCount := EventCount r |}.

Section Queries.

Variable DB : Type.

Variable conn : Conn DB.

Variable AddDate : time.Time -> Z -> Z -> Z -> time.Time.

(** [FarmExists]: whether the table of farms has a row with this id. *)
Definition FarmExists (farmID : N) (db : DB) : (bool * option Go.error) * DB :=
  let '((count, err), db) := Count conn "farms" "id = ?" [ArgUint farmID] db in
  match err with
  | Some e => ((false, Some e), db)
  | None => ((0 <? count, None), db)
  end.

Definition GetAggregatedData (farmID : N) (sectorID : option N)
  (startDate endDate : time.Time) (aggregation : string) (db : DB)
  : (list repository.AggregatedDataWithCount * option Go.error) * DB :=
  let baseQuery := "farm_id = ? AND start_time >= ? AND start_time < ?"%string in
  let args := [ArgUint farmID; ArgTime startDate; ArgTime endDate] in
  let '(baseQuery, args) :=
    match sectorID with
    | Some sector =>
        ((baseQuery ++ " AND irrigation_sector_id = ?")%string,
         args ++ [ArgUint sector])
    | None => (baseQuery, args)
    end in
  let sqlQuery :=
    if (aggregation =? "daily")%string then
      ("
			SELECT 
				DATE(start_time)::timestamp as start_time,
				SUM(water_volume) as water_volume,
				SUM(duration) as duration,
				COUNT(*) as event_count,
				SUM(nominal_amount) as nominal_amount,
				SUM(real_amount) as real_amount,
				farm_id,
				COALESCE(irrigation_sector_id, 0) as irrigation_sector_id
			FROM irrigation_data
			WHERE " ++ baseQuery ++ "
			GROUP BY DATE(start_time), farm_id, irrigation_sector_id
			ORDER BY DATE(start_time) ASC")%string
    else if (aggregation =? "weekly")%string then
      ("
			SELECT 
				DATE_TRUNC('week', start_time) as start_time,
				SUM(water_volume) as water_volume,
				SUM(duration) as duration,
				COUNT(*) as event_count,
				SUM(nominal_amount) as nominal_amount,
				SUM(real_amount) as real_amount,
				farm_id,
				COALESCE(irrigation_sector_id, 0) as irrigation_sector_id
			FROM irrigation_data
			WHERE " ++ baseQuery ++ "
			GROUP BY DATE_TRUNC('week', start_time), farm_id, irrigation_sector_id
			ORDER BY DATE_TRUNC('week', start_time) ASC")%string
    else if (aggregation =? "monthly")%string then
      ("
			SELECT 
				DATE_TRUNC('month', start_time) as start_time,
				SUM(water_volume) as water_volume,
				SUM(duration) as duration,
				COUNT(*) as event_count,
				SUM(nominal_amount) as nominal_amount,
				SUM(real_amount) as real_amount,
				farm_id,
				COALESCE(irrigation_sector_id, 0) as irrigation_sector_id
			FROM irrigation_data
			WHERE " ++ baseQuery ++ "
			GROUP BY DATE_TRUNC('month', start_time), farm_id, irrigation_sector_id
			ORDER BY DATE_TRUNC('month', start_time) ASC")%string
    else
      ("
			SELECT 
				DATE(start_time)::timestamp as start_time,
				SUM(water_volume) as water_volume,
				SUM(duration) as duration,
				COUNT(*) as event_count,
				SUM(nominal_amount) as nominal_amount,
				SUM(real_amount) as real_amount,
				farm_id,
				COALESCE(irrigation_sector_id, 0) as irrigation_sector_id
			FROM irrigation_data
			WHERE " ++ baseQuery ++ "
			GROUP BY DATE(start_time), farm_id, irrigation_sector_id
			ORDER BY DATE(start_time) ASC")%string in
  let '((results, err), db) := Raw conn sqlQuery args db in
  match err with
  | Some e => (([], Some e), db)
  | None => ((List.map toModel results, None), db)
  end.

Definition GetYearOverYearData (farmID : N) (sectorID : option N)
  (startDate endDate : time.Time) (aggregation : string) (yearsBack : Z)
  (db : DB)
  : (list repository.AggregatedDataWithCount * option Go.error) * DB :=
  let yearStart := AddDate startDate (Go.wrap (- yearsBack)) 0 0 in
  let yearEnd := AddDate endDate (Go.wrap (- yearsBack)) 0 0 in
  let baseQuery := "farm_id = ? AND start_time >= ? AND start_time < ?"%string in
  let args := [ArgUint farmID; ArgTime yearStart; ArgTime yearEnd] in
  let '(baseQuery, args) :=
    match sectorID with
    | Some sector =>
        ((baseQuery ++ " AND irrigation_sector_id = ?")%string,
         args ++ [ArgUint sector])
    | None => (baseQuery, args)
    end in
  let sqlQuery :=
    if (aggregation =? "daily")%string then
      ("
			SELECT 
				DATE(start_time)::timestamp as start_time,
				SUM(water_volume) as water_volume,
				SUM(duration) as duration,
				COUNT(*) as event_count,
				SUM(nominal_amount) as nominal_amount,
				SUM(real_amount) as real_amount,
				farm_id,
				COALESCE(irrigation_sector_id, 0) as irrigation_sector_id
			FROM irrigation_data
			WHERE " ++ baseQuery ++ "
			GROUP BY DATE(start_time), farm_id, irrigation_sector_id
			ORDER BY DATE(start_time) ASC")%string
    else if (aggregation =? "weekly")%string then
      ("
			SELECT 
				DATE_TRUNC('week', start_time) as start_time,
				SUM(water_volume) as water_volume,
				SUM(duration) as duration,
				COUNT(*) as event_count,
				SUM(nominal_amount) as nominal_amount,
				SUM(real_amount) as real_amount,
				farm_id,
				COALESCE(irrigation_sector_id, 0) as irrigation_sector_id
			FROM irrigation_data
			WHERE " ++ baseQuery ++ "
			GROUP BY DATE_TRUNC('week', start_time), farm_id, irrigation_sector_id
			ORDER BY DATE_TRUNC('week', start_time) ASC")%string
    else if (aggregation =? "monthly")%string then
      ("
			SELECT 
				DATE_TRUNC('month', start_time) as start_time,
				SUM(water_volume) as water_volume,
				SUM(duration) as duration,
				COUNT(*) as event_count,
				SUM(nominal_amount) as nominal_amount,
				SUM(real_amount) as real_amount,
				farm_id,
				COALESCE(irrigation_sector_id, 0) as irrigation_sector_id
			FROM irrigation_data
			WHERE " ++ baseQuery ++ "
			GROUP BY DATE_TRUNC('month', start_time), farm_id, irrigation_sector_id
			ORDER BY DATE_TRUNC('month', start_time) ASC")%string
    else
      ("
			SELECT 
				DATE(start_time)::timestamp as start_time,
				SUM(water_volume) as water_volume,
				SUM(duration) as duration,
				COUNT(*) as event_count,
				SUM(nominal_amount) as nominal_amount,
				SUM(real_amount) as real_amount,
				farm_id,
				COALESCE(irrigation_sector_id, 0) as irrigation_sector_id
			FROM irrigation_data
			WHERE " ++ baseQuery ++ "
			GROUP BY DATE(start_time), farm_id, irrigation_sector_id
			ORDER BY DATE(start_time) ASC")%string in
  let '((results, err), db) := Raw conn sqlQuery args db in
  match err with
  | Some e => (([], Some e), db)
  | None => ((List.map toModel results, None), db)
  end.

(** [NewIrrigationRepository]: the three methods as the interface the
    service is given. *)
Definition NewIrrigationRepository : repository.IrrigationRepository DB :=
  {| repository.GetAggregatedData := GetAggregatedData;
     repository.GetYearOverYearData := GetYearOverYearData |}.

End Queries.

Arguments FarmExists {DB} conn _ _.
Arguments GetAggregatedData {DB} conn _ _ _ _ _ _.
Arguments GetYearOverYearData {DB} conn AddDate _ _ _ _ _ _ _.
Arguments NewIrrigationRepository {DB} conn AddDate.

End irrigationRepository.

(** A database whose content does not change: a statement answers by its
    text and arguments alone. *)
Definition stableConn {DB : Type} (conn : irrigationRepository.Conn DB) : Prop :=
  forall sql args db db',
    fst (irrigationRepository.Raw conn sql args db)
    = fst (irrigationRepository.Raw conn sql args db').

(** What both queries make of the database's answer: the error alone when
    there is one, otherwise the rows converted one by one. *)
Definition answerOf
  (answer : list irrigationRepository.AggregatedResult * option Go.error)
  : list repository.AggregatedDataWithCount * option Go.error :=
  match snd answer with
  | Some e => ([], Some e)
  | None => (List.map irrigationRepository.toModel (fst answer), None)
  end.

(** A connection that answers every statement with the statement's own
    text as the error, so that the text a query sends can be read off. *)
Definition echoConn : irrigationRepository.Conn unit :=
  {| irrigationRepository.Raw := fun sql _ db => ([], Some sql, db);
     irrigationRepository.Count := fun _ _ _ db => (0, None, db) |}.

(** The statement text [GetAggregatedData] sends for an aggregation level,
    with or without a sector. *)
Definition statementText (level : string) (scoped : bool) : string :=
  match
    snd (fst (irrigationRepository.GetAggregatedData echoConn 0%N
                (if scoped then Some 0%N else None) 0 0 level tt))
  with
  | Some sql => sql
  | None => EmptyString
  end.

(** The number of [?] placeholders of a statement. *)
Fixpoint placeholders (sql : string) : nat :=
  match sql with
  | EmptyString => 0%nat
  | String c rest =>
      ((if Ascii.eqb c "?"%char then 1 else 0) + placeholders rest)%nat
  end.

(** The bound arguments of an aggregation query. *)
Definition queryArgs (farmID : N) (sectorID : option N)
  (startDate endDate : time.Time) : list irrigationRepository.Arg :=
  [irrigationRepository.ArgUint farmID;
   irrigationRepository.ArgTime startDate;
   irrigationRepository.ArgTime endDate]
  ++ match sectorID with
     | Some sector => [irrigationRepository.ArgUint sector]
     | None => []
     end.

(** A sample database over a fixed table, one row per stored event: a
    statement's bound arguments select the rows of the farm, the window and
    the sector, each selected event answering as a bucket of its own. *)
Definition sampleConn (table : list irrigationRepository.AggregatedResult)
  : irrigationRepository.Conn unit :=
  {| irrigationRepository.Raw :=
       fun _ args db =>
         (match args with
          | irrigationRepository.ArgUint farm
            :: irrigationRepository.ArgTime from
            :: irrigationRepository.ArgTime to :: rest =>
              List.filter
                (fun r =>
                   N.eqb (irrigationRepository.FarmID r) farm
                   && (from <=? irrigationRepository.StartTime r)
                   && (irrigationRepository.StartTime r <? to)
                   && match rest with
                      | irrigationRepository.ArgUint sector :: _ =>
                          N.eqb (irrigationRepository.IrrigationSectorID r)
                            sector
                      | _ => true
                      end)
                table
          | _ => []
          end, None, db);
     irrigationRepository.Count :=
       fun _ _ args db =>
         (match args with
          | irrigationRepository.ArgUint farm :: _ =>
              len (List.filter
                     (fun r => N.eqb (irrigationRepository.FarmID r) farm)
                     table)
          | _ => 0
          end, None, db) |}.

Definition sampleRow (sector : N) (start : time.Time) (volume : float)
  (duration : Z) (nominal real : float) : irrigationRepository.AggregatedResult :=
  {| irrigationRepository.StartTime := start;
     irrigationRepository.WaterVolume := volume;
     irrigationRepository.Duration := duration;
     irrigationRepository.FarmID := 1;
     irrigationRepository.IrrigationSectorID := sector;
     irrigationRepository.EventCount := 1;
     irrigationRepository.NominalAmount := nominal;
     irrigationRepository.RealAmount := real |}.

(** Two events in the window [400, 430) and one a year (365 units) before. *)
Definition sampleTable : list irrigationRepository.AggregatedResult :=
  [sampleRow 1 410 150 60 100 120; sampleRow 2 420 50 10 0 0;
   sampleRow 1 45 80 30 40 36].

(** ** The HTTP controller ([internal/controller]) *)

Module strconv.

(** The value of a string of decimal digits, if it is one. *)
Fixpoint digits (s : string) (acc : Z) : option Z :=
  match s with
  | EmptyString => Some acc
  | String c rest =>
      let n := Z.of_N (Ascii.N_of_ascii c) in
      if (48 <=? n) && (n <=? 57) then digits rest (10 * acc + (n - 48))
      else None
  end.

(** [strconv.ParseUint(s, 10, 32)]: a non-empty string of decimal digits
    whose value fits 32 bits; no sign, no underscore.  A syntax error
    returns 0 and a range error the largest value, each with an error. *)
Definition ParseUint32 (s : string) : Z * option Go.error :=
  match s with
  | EmptyString => (0, Some "invalid syntax"%string)
  | _ =>
      match digits s 0 with
      | None => (0, Some "invalid syntax"%string)
      | Some n =>
          if n <=? 2 ^ 32 - 1 then (n, None)
          else (2 ^ 32 - 1, Some "value out of range"%string)
      end
  end.

End strconv.

Module service.

(** The [AnalyticsService] interface, as the controller sees it. *)
Record AnalyticsService (DB : Type) : Type := {
  FarmExists : N -> DB -> (bool * option Go.error) * DB;
  GetIrrigationAnalytics :
    N -> option N -> time.Time -> time.Time -> string -> DB ->
    (option AnalyticsResponse.t * option Go.error) * DB
}.

Arguments FarmExists {DB} _ _ _.
Arguments GetIrrigationAnalytics {DB} _ _ _ _ _ _ _.

End service.

(** [NewAnalyticsService]: the service over a database connection;
    [FarmExists] hands the question to the repository. *)
Definition NewAnalyticsService {DB : Type}
  (conn : irrigationRepository.Conn DB)
  (AddDate : time.Time -> Z -> Z -> Z -> time.Time) (range : MapRange)
  : service.AnalyticsService DB :=
  {| service.FarmExists := irrigationRepository.FarmExists conn;
     service.GetIrrigationAnalytics :=
       GetIrrigationAnalytics AddDate
         (irrigationRepository.NewIrrigationRepository conn AddDate) range |}.

Module gin.

(** What the handler reads of a request: the path parameters, and for each
    query key its first value if the key is present. *)
Record Context : Type := {
  params : string -> string;
  query : string -> option string
}.

Definition Param (ctx : Context) (key : string) : string := params ctx key.

Definition Query (ctx : Context) (key : string) : string :=
  match query ctx key with Some v => v | None => EmptyString end.

Definition DefaultQuery (ctx : Context) (key defaultValue : string) : string :=
  match query ctx key with Some v => v | None => defaultValue end.

(** What [ctx.JSON] is given: an error object or the analytics. *)
Inductive Body : Type :=
| H (error message : string)
| Analytics (response : AnalyticsResponse.t).

Record Response : Type := { Status : Z; Payload : Body }.

End gin.

Module controller.

Section Handler.

Variable DB : Type.

(** [time.Parse(layout, value)], with its result when it succeeds. *)
Variable Parse : string -> string -> option time.Time.

(** [time.Date(t.Year(), t.Month(), t.Day(), 0, 0, 0, 0, time.UTC)]. *)
Variable startOfDayUTC : time.Time -> time.Time.

Variable analyticsService : service.AnalyticsService DB.

Definition RFC3339 : string := "2006-01-02T15:04:05Z07:00".

Definition RFC3339Nano : string := "2006-01-02T15:04:05.999999999Z07:00".

(** [parseISO8601Date]: six attempts, the first success wins. *)
Definition parseISO8601Date (dateStr : string) : option time.Time :=
  match Parse RFC3339 dateStr with
  | Some t => Some t
  | None =>
  match Parse RFC3339Nano dateStr with
  | Some t => Some t
  | None =>
  match Parse "2006-01-02" dateStr with
  | Some t => Some (startOfDayUTC t)
  | None =>
  match Parse "2006-01-02T15:04:05" dateStr with
  | Some t => Some t
  | None =>
  match Parse "2006-01-02T15:04:05Z" dateStr with
  | Some t => Some t
  | None =>
  match Parse "2006-01-02T15:04:05Z07:00" dateStr with
  | Some t => Some t
  | None => None
  end end end end end end.

Definition badRequest (error message : string) : option gin.Response :=
  Some {| gin.Status := 400; gin.Payload := gin.H error message |}.

(** [GetIrrigationAnalytics], the handler of
    [GET /v1/farms/{farm_id}/irrigation/analytics].  Each [return] of the
    source is a response here; the log lines and the latency they report
    are left out.  [None] is a run-time panic: were the service to return
    neither a response nor an error, the handler would read the data points
    of a nil response. *)
Definition GetIrrigationAnalytics (ctx : gin.Context) (db : DB)
  : option gin.Response * DB :=
  let farmIDStr := gin.Param ctx "farm_id" in
  let '(farmID, err) := strconv.ParseUint32 farmIDStr in
  if negb (isNil err) then
    (badRequest "Invalid farm_id" "farm_id must be a valid unsigned integer", db)
  else
  let sectorIDStr := gin.Query ctx "sector_id" in
  let '(sid, err) :=
    if negb (sectorIDStr =? "")%string then strconv.ParseUint32 sectorIDStr
    else (0, None) in
  if negb (isNil err) then
    (badRequest "Invalid sector_id"
       "sector_id must be a valid unsigned integer", db)
  else
  let sectorID :=
    if negb (sectorIDStr =? "")%string then Some (Z.to_N sid) else None in
  let startDateStr := gin.Query ctx "start_date" in
  if (startDateStr =? "")%string then
    (badRequest "Missing required parameter" "start_date is required", db)
  else
  match parseISO8601Date startDateStr with
  | None =>
      (badRequest "Invalid start_date"
         "start_date must be in ISO 8601 format (RFC3339 or YYYY-MM-DD)", db)
  | Some startDate =>
  let endDateStr := gin.Query ctx "end_date" in
  if (endDateStr =? "")%string then
    (badRequest "Missing required parameter" "end_date is required", db)
  else
  match parseISO8601Date endDateStr with
  | None =>
      (badRequest "Invalid end_date"
         "end_date must be in ISO 8601 format (RFC3339 or YYYY-MM-DD)", db)
  | Some endDate =>
  if endDate <? startDate then
    (badRequest "Invalid date range" "end_date must be after start_date", db)
  else
  let aggregation := gin.DefaultQuery ctx "aggregation" "daily" in
  if negb (aggregation =? "daily")%string
     && negb (aggregation =? "weekly")%string
     && negb (aggregation =? "monthly")%string
  then
    (badRequest "Invalid aggregation"
       "aggregation must be one of: daily, weekly, monthly", db)
  else
  let '((farmExists, err), db) :=
    service.FarmExists analyticsService (Z.to_N farmID) db in
  if negb (isNil err) then
    (Some {| gin.Status := 500;
             gin.Payload :=
               gin.H "Internal server error"
                 "Failed to verify farm existence" |}, db)
  else if negb farmExists then
    (Some {| gin.Status := 404;
             gin.Payload :=
               gin.H "Farm not found"
                 ("Farm with ID "
                  ++ NilZero.string_of_uint (N.to_uint (Z.to_N farmID))
                  ++ " does not exist") |}, db)
  else
  let '((analytics, err), db) :=
    service.GetIrrigationAnalytics analyticsService (Z.to_N farmID) sectorID
      startDate endDate aggregation db in
  match err, analytics with
  | Some _, _ =>
      (Some {| gin.Status := 500;
               gin.Payload :=
                 gin.H "Internal server error"
                   "Failed to retrieve analytics data" |}, db)
  | None, Some response =>
      (Some {| gin.Status := 200; gin.Payload := gin.Analytics response |}, db)
  | None, None => (None, db)
  end
  end end.

End Handler.

Arguments GetIrrigationAnalytics {DB} Parse startOfDayUTC analyticsService _ _.

End controller.

(** The checks the handler makes before it asks the service anything. *)
Definition validRequest (Parse : string -> string -> option time.Time)
  (startOfDayUTC : time.Time -> time.Time) (ctx : gin.Context) : bool :=
  let parse := controller.parseISO8601Date Parse startOfDayUTC in
  let level := gin.DefaultQuery ctx "aggregation" "daily" in
  isNil (snd (strconv.ParseUint32 (gin.Param ctx "farm_id")))
  && ((gin.Query ctx "sector_id" =? "")%string
      || isNil (snd (strconv.ParseUint32 (gin.Query ctx "sector_id"))))
  && match parse (gin.Query ctx "start_date"),
           parse (gin.Query ctx "end_date") with
     | Some startDate, Some endDate =>
         negb (gin.Query ctx "start_date" =? "")%string
         && negb (gin.Query ctx "end_date" =? "")%string
         && negb (endDate <? startDate)
     | _, _ => false
     end
  && ((level =? "daily") || (level =? "weekly") || (level =? "monthly"))%string.

(** A sample request and a sample parser of instants written as decimal
    numbers. *)
Definition sampleParse (layout value : string) : option time.Time :=
  if (layout =? "2006-01-02")%string then
    match strconv.digits value 0 with
    | Some n => if (value =? "")%string then None else Some n
    | None => None
    end
  else None.

Definition sampleContext (farm start finish : string)
  (level : option string) : gin.Context :=
  {| gin.params := fun key => if (key =? "farm_id")%string then farm else "";
     gin.query :=
       fun key =>
         if (key =? "start_date")%string then Some start
         else if (key =? "end_date")%string then Some finish
         else if (key =? "aggregation")%string then level
         else None |}.

(** The scope and level of a request, as the handler reads them. *)
Definition farmOf (ctx : gin.Context) : N :=
  Z.to_N (fst (strconv.ParseUint32 (gin.Param ctx "farm_id"))).

Definition sectorOf (ctx : gin.Context) : option N :=
  if (gin.Query ctx "sector_id" =? "")%string then None
  else Some (Z.to_N (fst (strconv.ParseUint32 (gin.Query ctx "sector_id")))).

Definition levelOf (ctx : gin.Context) : string :=
  gin.DefaultQuery ctx "aggregation" "daily".

(** The five layouts the comment of [parseISO8601Date] lists. *)
Definition documentedLayouts : list string :=
  [controller.RFC3339; controller.RFC3339Nano; "2006-01-02"%string;
   "2006-01-02T15:04:05"%string; "2006-01-02T15:04:05Z"%string].

(** The first layout of a list that parses the value; a date without a
    time of day is moved to the start of its day in UTC. *)
Fixpoint firstAccepted (Parse : string -> string -> option time.Time)
  (startOfDayUTC : time.Time -> time.Time) (layouts : list string)
  (value : string) : option time.Time :=
  match layouts with
  | [] => None
  | layout :: rest =>
      match Parse layout value with
      | Some t =>
          Some (if (layout =? "2006-01-02")%string then startOfDayUTC t else t)
      | None => firstAccepted Parse startOfDayUTC rest value
      end
  end.

(** The sample service: the real one over the sample table. *)
Definition sampleService : service.AnalyticsService unit :=
  NewAnalyticsService (sampleConn sampleTable) sampleAddDate rangeAscending.

(** * Properties *)

(** ** Numeric facts *)

(** Two floats that differ under [==], or in sign, are different values. *)
Ltac float_neq :=
  let H := fresh in
  intros H;
  first
    [ apply (f_equal (fun x => PrimFloat.eqb x x)) in H; vm_compute in H;
      discriminate H
    | apply (f_equal (fun x => PrimFloat.compare x 0)) in H; vm_compute in H;
      discriminate H
    | match type of H with
      | ?a = ?b =>
          apply (f_equal (fun x => PrimFloat.eqb x b)) in H; vm_compute in H;
          discriminate H
      end ].

Lemma wrap_small (z : Z) : - 2 ^ 63 <= z < 2 ^ 63 -> Go.wrap z = z.
Proof.
  intros Hz. unfold Go.wrap. rewrite Z.mod_small; lia.
Qed.

Lemma positive_not_zero (x : float) :
  (0 <? x)%float = true -> (x =? 0)%float = false.
Proof.
  rewrite FloatAxioms.ltb_spec, FloatAxioms.eqb_spec. change (Prim2SF 0) with (S754_zero false).
  unfold SFltb, SFeqb.
  destruct (Prim2SF x) as [s|s| |s m e]; simpl; try destruct s; simpl;
    congruence.
Qed.

Lemma zero_not_positive (x : float) :
  (x =? 0)%float = true -> (0 <? x)%float = false.
Proof.
  intros Hx. destruct (0 <? x)%float eqn:E; [|reflexivity].
  apply positive_not_zero in E. congruence.
Qed.

(** [Go.Round] on the documented special cases and on halves. *)
Example Round_examples :
  Go.Round 2.5 = 3%float /\ Go.Round (-2.5) = (-3)%float /\
  Go.Round 0.49999999999999994 = 0%float /\
  Go.Round (-0.3) = (-0)%float /\
  Go.Round nan = nan /\ Go.Round infinity = infinity /\
  Go.Round neg_infinity = neg_infinity /\
  Go.Round 4503599627370495.5 = 4503599627370496%float.
Proof. repeat split; vm_compute; reflexivity. Qed.

(** [Go.Round] and the bit-level [Go.Round_bits] agree, bit for bit, on
    zeros, halves, values next to a half, subnormals, the last fractional
    doubles below [2^52], large integers and infinities. *)
Example Round_agrees_with_bits :
  forallb
    (fun x =>
       Z.eqb (Go.Float64bits (Go.Round x)) (Go.Float64bits (Go.Round_bits x)))
    [0; -0; 0.3; -0.3; 0.5; -0.5; 0.49999999999999994; 0.99999999999999989;
     1; 1.5; 2.5; -2.5; 3.4999; 1111.11; 10012.345600000001; 123456789.5;
     -123456789.49999999; 2251799813685247.5; 2251799813685248.5;
     4503599627370495.5; 4503599627370496; 4503599627370497;
     9007199254740993; 1e300; -1e300; 5e-324; 2.2250738585072014e-308;
     infinity; neg_infinity; nan]%float
  = true.
Proof. vm_compute. reflexivity. Qed.

(** The remaining rows of the table of [TestCalculateEfficiency]. *)
Example TestCalculateEfficiency :
  calculateEfficiency 100 100 = 1%float /\
  calculateEfficiency 120 100 = 1.2%float /\
  calculateEfficiency 80 100 = 0.8%float /\
  calculateEfficiency 150 100 = 1.5%float /\
  calculateEfficiency 50 100 = 0.5%float /\
  calculateEfficiency 0 0 = 0%float /\
  calculateEfficiency 100 0 = 0%float /\
  calculateEfficiency 0 100 = 0%float /\
  calculateEfficiency 0.001 0.01 = 0.1%float /\
  calculateEfficiency 1000000 500000 = 2%float.
Proof. repeat split; vm_compute; reflexivity. Qed.

(** The remaining rows of the table of [TestCalculateChangePercent]. *)
Example TestCalculateChangePercent :
  calculateChangePercent 100 100 = 0%float /\
  calculateChangePercent 200 100 = 100%float /\
  calculateChangePercent 50 100 = (-50)%float /\
  calculateChangePercent 0 100 = (-100)%float /\
  calculateChangePercent 0.11 0.10 = 10%float /\
  calculateChangePercent 2000000 1000000 = 100%float /\
  calculateChangePercent 105 100 = 5%float /\
  calculateChangePercent 100 (-50) = (-300)%float /\
  calculateChangePercent 1000 0 = 100%float /\
  calculateChangePercent 0.85 0 = 100%float.
Proof. repeat split; vm_compute; reflexivity. Qed.

(** ** The scalar formulas *)





(** ** The duration-based fallback *)

Lemma processDataPoint_efficiency (item : repository.AggregatedDataWithCount) :
  AggregatedDataPoint.Efficiency (processDataPoint item)
  = if pointFallbackApplies (repository.Data item)
    then fallbackEfficiency (repository.Data item)
    else plainEfficiency (repository.Data item).
Proof.
  unfold processDataPoint, pointFallbackApplies, fallbackEfficiency,
    plainEfficiency; simpl.
  destruct (model.RealAmount (repository.Data item) =? 0)%float,
    (model.NominalAmount (repository.Data item) =? 0)%float,
    (0 <? model.WaterVolume (repository.Data item))%float,
    (0 <? model.Duration (repository.Data item)); reflexivity.
Qed.

Lemma summaryEfficiency_fallback (d : model.IrrigationData) :
  pointFallbackApplies d = true -> summaryEfficiency d = fallbackEfficiency d.
Proof.
  unfold pointFallbackApplies, summaryEfficiency, fallbackEfficiency.
  intros H. repeat (apply andb_prop in H; destruct H as [H ?]).
  unfold calculateEfficiency at 1.
  replace (model.NominalAmount d =? 0)%float with true by congruence.
  replace (0 <? model.WaterVolume d)%float with true by congruence.
  replace (0 <? model.Duration d) with true by congruence.
  reflexivity.
Qed.

(** C3, as the code has it.  A data point takes the duration-based fallback
    exactly when the bucket's real and nominal amount both compare equal to
    zero and its water volume and duration are both greater than zero; the
    fallback is [calculateEfficiency] of the water volume over
    [float64(duration) * 1.0].  On every such bucket the efficiency that
    feeds the summary average is that same fallback value. *)
Theorem fallback_applicability (item : repository.AggregatedDataWithCount) :
  let d := repository.Data item in
  let applies :=
    (model.RealAmount d =? 0)%float && (model.NominalAmount d =? 0)%float
    && (0 <? model.WaterVolume d)%float && (0 <? model.Duration d) in
  AggregatedDataPoint.Efficiency (processDataPoint item)
  = (if applies
     then calculateEfficiency (model.WaterVolume d)
            (Go.float64 (model.Duration d) * 1)%float
     else calculateEfficiency (model.RealAmount d) (model.NominalAmount d))
  /\ (applies = true ->
      summaryEfficiency d
      = calculateEfficiency (model.WaterVolume d)
          (Go.float64 (model.Duration d) * 1)%float
      /\ summaryEfficiency d
         = AggregatedDataPoint.Efficiency (processDataPoint item)).
Proof.
  intros d applies.
  pose proof (processDataPoint_efficiency item) as Hp.
  fold d in Hp. change (pointFallbackApplies d) with applies in Hp.
  split; [exact Hp|].
  intros Ha. pose proof (summaryEfficiency_fallback d Ha) as Hs.
  split; [exact Hs|]. rewrite Hp, Ha. exact Hs.
Qed.

(** C3 on the legacy bucket: 50 units in 10 minutes give 5.0 in both places. *)
Lemma fallback_applicability_witness :
  AggregatedDataPoint.Efficiency (processDataPoint bucket_legacy) = 5%float
  /\ summaryEfficiency (repository.Data bucket_legacy)
     = AggregatedDataPoint.Efficiency (processDataPoint bucket_legacy).
Proof.
  destruct (fallback_applicability bucket_legacy) as [Hpoint Hsummary].
  split.
  - rewrite Hpoint. vm_compute. reflexivity.
  - apply Hsummary. vm_compute. reflexivity.
Defined.

(** C3 as worded fails twice.  A bucket with a nominal but no real amount
    is outside the worded condition and keeps 0.0 as a data point, yet
    feeds 5.0 to the summary average; a bucket with zero amounts and a
    negative volume meets the worded condition, yet no fallback is taken. *)
Lemma fallback_law_counterexample :
  ~ specFallbackLaw bucket_no_real /\ ~ specFallbackLaw bucket_negative.
Proof.
  split; intros [Hpoint Hsummary].
  - vm_compute in Hsummary. revert Hsummary. float_neq.
  - vm_compute in Hpoint. revert Hpoint. float_neq.
Qed.

(** ** The summary's average efficiency *)

Lemma len_cons {A : Type} (x : A) (l : list A) : len (x :: l) = 1 + len l.
Proof. unfold len. simpl List.length. lia. Qed.

Lemma len_nonneg {A : Type} (l : list A) : 0 <= len l.
Proof. unfold len. lia. Qed.

(** The loop of [calculateSummary] adds up the positive efficiencies and
    counts them, as long as the counter cannot wrap. *)
Lemma summary_loop_efficiency (data : list repository.AggregatedDataWithCount) :
  forall acc,
    0 <= efficiencyCount acc ->
    efficiencyCount acc + len data < 2 ^ 63 ->
    let kept :=
      positives
        (List.map (fun item => summaryEfficiency (repository.Data item)) data) in
    totalEfficiency (fold_left summaryStep data acc)
    = fold_left PrimFloat.add kept (totalEfficiency acc)
    /\ efficiencyCount (fold_left summaryStep data acc)
       = efficiencyCount acc + len kept.
Proof.
  induction data as [|item data IH]; intros acc Hlo Hhi; simpl.
  - unfold len; simpl. split; [reflexivity|lia].
  - rewrite len_cons in Hhi. pose proof (len_nonneg data) as Hn.
    destruct (0 <? summaryEfficiency (repository.Data item))%float eqn:Hpos.
    + destruct (IH (summaryStep acc item)) as [Ht Hc].
      * simpl. rewrite Hpos. unfold Go.int_add. rewrite wrap_small; lia.
      * simpl. rewrite Hpos. unfold Go.int_add. rewrite wrap_small; lia.
      * simpl. rewrite Ht, Hc. simpl. rewrite Hpos.
        unfold Go.int_add. rewrite wrap_small by lia.
        rewrite len_cons. split; [reflexivity|lia].
    + destruct (IH (summaryStep acc item)) as [Ht Hc].
      * simpl. rewrite Hpos. lia.
      * simpl. rewrite Hpos. lia.
      * rewrite Ht, Hc. simpl. rewrite Hpos. split; reflexivity.
Qed.

(** Off the buckets of [summaryOnlyFallback], the efficiency the summary
    averages is the one of the data point. *)
Lemma summaryEfficiency_point (item : repository.AggregatedDataWithCount) :
  summaryOnlyFallback (repository.Data item) = false ->
  summaryEfficiency (repository.Data item)
  = AggregatedDataPoint.Efficiency (processDataPoint item).
Proof.
  intros Hoff. rewrite processDataPoint_efficiency.
  destruct (pointFallbackApplies (repository.Data item)) eqn:Hpoint.
  - apply summaryEfficiency_fallback. exact Hpoint.
  - revert Hoff Hpoint.
    unfold summaryOnlyFallback, pointFallbackApplies, summaryEfficiency,
      plainEfficiency.
    destruct (calculateEfficiency _ _ =? 0)%float,
      (model.RealAmount (repository.Data item) =? 0)%float,
      (model.NominalAmount (repository.Data item) =? 0)%float,
      (0 <? model.WaterVolume (repository.Data item))%float,
      (0 <? model.Duration (repository.Data item));
      cbn [andb negb]; intros Hoff Hpoint;
      reflexivity || discriminate.
Qed.

(** What [calculateSummary] averages.  The average efficiency is the
    arithmetic mean, rounded to four decimals, of the strictly positive
    values of the efficiency the summary computes for each bucket, and 0.0
    when there is none.  When no bucket is one on which only the summary
    takes the fallback, these are the positive efficiencies of the data
    points. *)
Theorem summary_average_law (data : list repository.AggregatedDataWithCount) :
  len data < 2 ^ 63 ->
  let efficiencies :=
    List.map (fun item => summaryEfficiency (repository.Data item)) data in
  AnalyticsSummary.AverageEfficiency (calculateSummary data)
  = round4 (mean (positives efficiencies))
  /\ (positives efficiencies = [] ->
      AnalyticsSummary.AverageEfficiency (calculateSummary data) = 0%float)
  /\ (List.forallb
        (fun item => negb (summaryOnlyFallback (repository.Data item))) data
      = true ->
      AnalyticsSummary.AverageEfficiency (calculateSummary data)
      = round4 (mean (positives (pointEfficiencies data)))).
Proof.
  intros Hlen efficiencies.
  assert (Havg : AnalyticsSummary.AverageEfficiency (calculateSummary data)
                 = round4 (mean (positives efficiencies))).
  { unfold calculateSummary; simpl.
    destruct (summary_loop_efficiency data SummaryAcc_zero) as [Ht Hc];
      [simpl; lia | simpl; lia |].
    simpl in Ht, Hc. fold efficiencies in Ht, Hc. rewrite Ht, Hc.
    unfold round4, mean.
    destruct (positives efficiencies) as [|e kept] eqn:Hkept.
    - reflexivity.
    - replace (0 <? len (e :: kept)) with true; [reflexivity|].
      symmetry. apply Z.ltb_lt. rewrite len_cons.
      pose proof (len_nonneg kept). lia. }
  split; [exact Havg|]. split.
  - intros Hnone. rewrite Havg, Hnone. vm_compute. reflexivity.
  - intros Hoff. rewrite Havg. do 3 f_equal.
    unfold efficiencies, pointEfficiencies, processDataPoints.
    rewrite List.map_map. apply List.map_ext_in.
    intros item Hin. apply summaryEfficiency_point.
    rewrite List.forallb_forall in Hoff.
    apply negb_true_iff. apply Hoff. exact Hin.
Qed.

(** On three buckets with efficiencies 1.2, 0.0 and 5.0 the average is
    that of 1.2 and 5.0, the positive efficiencies of the data points. *)
Lemma summary_average_law_witness :
  AnalyticsSummary.AverageEfficiency
    (calculateSummary [bucket_plain; bucket_negative; bucket_legacy])
  = round4 (mean [1.2; 5])%float
  /\ positives (pointEfficiencies [bucket_plain; bucket_negative; bucket_legacy])
     = [1.2; 5]%float.
Proof.
  destruct (summary_average_law
              [bucket_plain; bucket_negative; bucket_legacy])
    as (_ & _ & Hpoints).
  - vm_compute. reflexivity.
  - split; [|vm_compute; reflexivity].
    rewrite Hpoints by (vm_compute; reflexivity). vm_compute. reflexivity.
Defined.

(** C4 fails on the code.  A bucket with real amount 0, nominal amount 100,
    water volume 50 and duration 10 has efficiency exactly 0.0, as the
    specification computes it and as its data point reports it, so it is
    to be left out of the average.  [calculateSummary] tries the fallback
    on every efficiency that compares equal to zero, turns this one into
    5.0 and counts it: alone the bucket gives an average of 5.0 where the
    claim says 0.0, and next to a bucket of efficiency 1.2 an average of
    3.1 where the claim says 1.2. *)
Theorem average_counts_true_zero :
  specFallbackApplies (repository.Data bucket_no_real) = false
  /\ specEfficiency (repository.Data bucket_no_real) = 0%float
  /\ pointEfficiencies [bucket_plain; bucket_no_real] = [1.2; 0]%float
  /\ summaryEfficiency (repository.Data bucket_no_real) = 5%float
  /\ AnalyticsSummary.AverageEfficiency (calculateSummary [bucket_no_real])
     = 5%float
  /\ AnalyticsSummary.AverageEfficiency
       (calculateSummary [bucket_plain; bucket_no_real]) = 3.1%float
  /\ round4
       (mean
          (positives
             (List.map (fun item => specEfficiency (repository.Data item))
                [bucket_plain; bucket_no_real]))) = 1.2%float
  /\ ~ specAverageLaw [bucket_no_real]
  /\ ~ specAverageLaw [bucket_plain; bucket_no_real].
Proof.
  repeat (split; [vm_compute; reflexivity|]).
  split; unfold specAverageLaw; vm_compute; float_neq.
Qed.

(** ** The sector breakdown *)

Lemma sectorStep_lookup (m : gmap N SectorBreakdown.t)
  (item : repository.AggregatedDataWithCount) (sectorID : N) :
  sectorStep m item !! sectorID
  = if N.eqb (model.IrrigationSectorID (repository.Data item)) sectorID
    then sectorFold (m !! sectorID) item
    else m !! sectorID.
Proof.
  unfold sectorStep, sectorFold.
  destruct (N.eqb_spec (model.IrrigationSectorID (repository.Data item))
              sectorID) as [->|Hne].
  - destruct (m !! sectorID); rewrite lookup_insert_eq; reflexivity.
  - destruct (m !! model.IrrigationSectorID (repository.Data item));
      rewrite lookup_insert_ne by exact Hne; reflexivity.
Qed.

(** After the grouping loop, the entry of a sector is the fold of that
    sector's buckets alone. *)
Lemma sectorMap_lookup (data : list repository.AggregatedDataWithCount) :
  forall (m : gmap N SectorBreakdown.t) (sectorID : N),
    fold_left sectorStep data m !! sectorID
    = fold_left sectorFold (sectorBuckets sectorID data) (m !! sectorID).
Proof.
  induction data as [|item data IH]; intros m sectorID; [reflexivity|].
  cbn [fold_left sectorBuckets List.filter]. rewrite IH, sectorStep_lookup.
  fold (sectorBuckets sectorID data).
  destruct (N.eqb (model.IrrigationSectorID (repository.Data item)) sectorID);
    reflexivity.
Qed.

Lemma sectorFold_Some (buckets : list repository.AggregatedDataWithCount) :
  forall breakdown,
    fold_left sectorFold buckets (Some breakdown)
    = Some (fold_left sectorUpdate buckets breakdown).
Proof.
  induction buckets as [|item buckets IH]; intros breakdown; [reflexivity|].
  cbn [fold_left]. unfold sectorFold at 2. apply IH.
Qed.

Lemma sectorFold_None (buckets : list repository.AggregatedDataWithCount) :
  fold_left sectorFold buckets None
  = match buckets with
    | [] => None
    | first :: rest => Some (fold_left sectorUpdate rest (sectorCreate first))
    end.
Proof.
  destruct buckets as [|first rest]; [reflexivity|].
  cbn [fold_left]. unfold sectorFold at 2. apply sectorFold_Some.
Qed.

(** The updates leave the sector and its first efficiency alone and add up
    the two amounts. *)
Lemma sectorUpdate_fold (buckets : list repository.AggregatedDataWithCount) :
  forall breakdown,
    let total := fold_left sectorUpdate buckets breakdown in
    SectorBreakdown.SectorID total = SectorBreakdown.SectorID breakdown
    /\ SectorBreakdown.AverageEfficiency total
       = SectorBreakdown.AverageEfficiency breakdown
    /\ SectorBreakdown.TotalRealAmount total
       = fold_left
           (fun acc item => (acc + model.RealAmount (repository.Data item))%float)
           buckets (SectorBreakdown.TotalRealAmount breakdown)
    /\ SectorBreakdown.TotalNominalAmount total
       = fold_left
           (fun acc item =>
              (acc + model.NominalAmount (repository.Data item))%float)
           buckets (SectorBreakdown.TotalNominalAmount breakdown).
Proof.
  induction buckets as [|item buckets IH]; intros breakdown; cbn zeta.
  - repeat split; reflexivity.
  - cbn [fold_left]. destruct (IH (sectorUpdate breakdown item))
      as (Hid & Havg & Hreal & Hnominal).
    rewrite Hid, Havg, Hreal, Hnominal. repeat split; reflexivity.
Qed.

(** Every entry of the sector map is the fold of the buckets of its key. *)
Lemma sectorMap_entry (data : list repository.AggregatedDataWithCount)
  (sectorID : N) (breakdown : SectorBreakdown.t) :
  fold_left sectorStep data (∅ : gmap N SectorBreakdown.t) !! sectorID
  = Some breakdown ->
  exists first rest,
    sectorBuckets sectorID data = first :: rest
    /\ breakdown = fold_left sectorUpdate rest (sectorCreate first)
    /\ SectorBreakdown.SectorID breakdown = sectorID.
Proof.
  rewrite sectorMap_lookup, lookup_empty, sectorFold_None.
  destruct (sectorBuckets sectorID data) as [|first rest] eqn:Hb;
    [discriminate|].
  intros [= <-]. exists first, rest. repeat split.
  destruct (sectorUpdate_fold rest (sectorCreate first)) as (Hid & _).
  rewrite Hid. cbn [sectorCreate SectorBreakdown.SectorID].
  assert (Hin : In first (sectorBuckets sectorID data))
    by (rewrite Hb; left; reflexivity).
  unfold sectorBuckets in Hin. apply filter_In in Hin.
  destruct Hin as [_ Heq]. apply N.eqb_eq in Heq. exact Heq.
Qed.

(** The entries of the breakdown are the finished entries of the map. *)
Lemma calculateSectorBreakdown_entries {DB : Type}
  (repo : repository.IrrigationRepository DB) (range : MapRange)
  (farmID : N) (startDate endDate : time.Time) (aggregation : string)
  (db : DB) (entry : SectorBreakdown.t) :
  MapRange_ok range ->
  In entry
    (fst (calculateSectorBreakdown repo range farmID startDate endDate
            aggregation db)) ->
  let answer :=
    repository.GetAggregatedData repo farmID None startDate endDate
      aggregation db in
  snd (fst answer) = None
  /\ exists sectorID breakdown,
       fold_left sectorStep (fst (fst answer)) (∅ : gmap N SectorBreakdown.t)
         !! sectorID = Some breakdown
       /\ entry = sectorFinish breakdown.
Proof.
  intros Hrange. unfold calculateSectorBreakdown.
  destruct (repository.GetAggregatedData repo farmID None startDate endDate
              aggregation db) as [[data err] db'].
  destruct err as [e|]; cbn; [intros []|].
  intros Hin. split; [reflexivity|].
  apply in_map_iff in Hin. destruct Hin as ([sectorID breakdown] & <- & Hin).
  exists sectorID, breakdown. split; [|reflexivity].
  apply (Permutation_in _ (Hrange _)) in Hin.
  apply list_elem_of_In in Hin. apply elem_of_map_to_list in Hin. exact Hin.
Qed.

(** C8, as the code has it.  For every entry of the sector breakdown whose
    summed nominal amount is greater than zero, the reported average
    efficiency is [calculateEfficiency] of the sector's summed real amount
    and summed nominal amount over its buckets of the window (so the
    quotient of the sums rounded to four decimals), rounded to four decimals
    once more. *)
Theorem sector_average_from_totals {DB : Type}
  (repo : repository.IrrigationRepository DB) (range : MapRange)
  (farmID : N) (startDate endDate : time.Time) (aggregation : string)
  (db : DB) (entry : SectorBreakdown.t) :
  MapRange_ok range ->
  In entry
    (fst (calculateSectorBreakdown repo range farmID startDate endDate
            aggregation db)) ->
  let rows :=
    fst (fst (repository.GetAggregatedData repo farmID None startDate endDate
                aggregation db)) in
  let buckets := sectorBuckets (SectorBreakdown.SectorID entry) rows in
  let sumReal := sumOver model.RealAmount buckets in
  let sumNominal := sumOver model.NominalAmount buckets in
  buckets <> []
  /\ ((0 <? sumNominal)%float = true ->
      SectorBreakdown.AverageEfficiency entry
      = round4 (calculateEfficiency sumReal sumNominal)
      /\ calculateEfficiency sumReal sumNominal
         = round4 (sumReal / sumNominal)%float).
Proof.
  intros Hrange Hin.
  destruct (calculateSectorBreakdown_entries repo range farmID startDate
              endDate aggregation db entry Hrange Hin)
    as (_ & sectorID & breakdown & Hlookup & ->).
  apply sectorMap_entry in Hlookup.
  destruct Hlookup as (first & rest & Hbuckets & -> & Hid).
  destruct (sectorUpdate_fold rest (sectorCreate first))
    as (_ & _ & Hreal & Hnominal).
  cbn zeta. cbn [sectorFinish SectorBreakdown.SectorID].
  rewrite Hid, Hbuckets. split; [discriminate|].
  cbn [sumOver]. intros Hpos.
  unfold sectorFinish. cbn [SectorBreakdown.AverageEfficiency].
  rewrite Hreal, Hnominal.
  cbn [sectorCreate SectorBreakdown.TotalRealAmount
         SectorBreakdown.TotalNominalAmount].
  rewrite Hpos. split; [reflexivity|].
  unfold calculateEfficiency, round4.
  rewrite (positive_not_zero _ Hpos). reflexivity.
Qed.

Lemma rangeAscending_ok : MapRange_ok rangeAscending.
Proof. intros m. reflexivity. Qed.

Lemma rangeDescending_ok : MapRange_ok rangeDescending.
Proof. intros m. symmetry. apply Permutation_rev. Qed.

(** C8 on sector 1 of the sample window: real amounts 120 and 45 over
    nominal amounts 100 and 50 give 1.1. *)
Lemma sector_average_from_totals_witness :
  SectorBreakdown.AverageEfficiency sample_sector1_entry
  = round4 (calculateEfficiency (120 + 45) (100 + 50))%float.
Proof.
  destruct (sector_average_from_totals steadyRepo rangeAscending 1 400 430
              "daily" tt sample_sector1_entry rangeAscending_ok) as [_ Havg].
  - vm_compute. right; left; reflexivity.
  - destruct Havg as [Havg _].
    + vm_compute. reflexivity.
    + rewrite Havg. vm_compute. reflexivity.
Defined.

(** C8 as worded fails twice.  Sector 2 of the sample window has only a
    legacy bucket, so its nominal total is zero: the entry keeps the first
    bucket's fallback efficiency 5.0, which is neither the rounded quotient
    of the sums (0/0) nor [calculateEfficiency] of them (0.0).  And with a
    positive nominal total, rounding twice can differ from rounding once. *)
Lemma sector_average_counterexample :
  (In sample_sector2_entry
     (fst (calculateSectorBreakdown steadyRepo rangeAscending 1 400 430
             "daily" tt))
   /\ ~ specSectorLaw [bucket_plain; bucket_legacy; bucket_more]
         sample_sector2_entry
   /\ SectorBreakdown.AverageEfficiency sample_sector2_entry
      <> calculateEfficiency 0 0)
  /\ (In sample_sector3_entry
        (fst (calculateSectorBreakdown (fixedRepo [bucket_huge])
                rangeAscending 1 400 430 "daily" tt))
      /\ ~ specSectorLaw [bucket_huge] sample_sector3_entry).
Proof.
  split; [split; [|split]|split].
  - vm_compute. left; reflexivity.
  - unfold specSectorLaw. vm_compute. float_neq.
  - vm_compute. float_neq.
  - vm_compute. left; reflexivity.
  - unfold specSectorLaw. vm_compute. float_neq.
Qed.

(** ** The request as a whole *)

(** Name the answer of the next repository call in the goal. *)
Ltac next_fetch :=
  match goal with
  | |- context [repository.GetAggregatedData ?r ?f ?s ?a ?b ?g ?db] =>
      destruct (repository.GetAggregatedData r f s a b g db)
        as [[? ?] ?] eqn:?
  | |- context [repository.GetYearOverYearData ?r ?f ?s ?a ?b ?g ?n ?db] =>
      destruct (repository.GetYearOverYearData r f s a b g n db)
        as [[? ?] ?] eqn:?
  end.

(** Run a request symbolically: every repository call gets a named answer. *)
Ltac run_request :=
  unfold GetIrrigationAnalytics, fetches, calculatePeriodComparison,
    calculateYearOverYear, calculateSectorBreakdown;
  repeat next_fetch;
  cbn [fst snd fetchCurrent fetchComparison1 fetchComparison2 fetchBreakdown
         fetchLegacy1 fetchLegacy2].

(** Once the breakdown's error is known, the later calls show up again. *)
Ltac recall_fetches :=
  cbn [isNil fst snd];
  repeat match goal with
    | H : repository.GetYearOverYearData _ _ _ _ _ _ _ _ = _ |- _ =>
        rewrite H
    end;
  repeat next_fetch.

(** Read the fields of a response that has been computed. *)
Ltac read_response :=
  cbn [fst snd isNil andb
         AnalyticsResponse.FarmID AnalyticsResponse.SectorID
         AnalyticsResponse.Period AnalyticsResponse.PeriodComparison
         AnalyticsResponse.SectorBreakdown AnalyticsResponse.YearOverYear
         PeriodComparison.OneYearAgo PeriodComparison.TwoYearsAgo
         YearOverYearComparison.OneYearAgo
         YearOverYearComparison.TwoYearsAgo].

Lemma no_rows_no_entry {A : Type} (err : option Go.error) (entry : A) :
  (if isNil err && (0 <? len (@nil repository.AggregatedDataWithCount))
   then Some entry else None) = None.
Proof. rewrite andb_false_r. reflexivity. Qed.

Lemma failed_no_entry {A B : Type} (err : option Go.error) (rows : list B)
  (entry : A) :
  err <> None ->
  (if isNil err && (0 <? len rows) then Some entry else None) = None.
Proof. destruct err; [reflexivity|congruence]. Qed.

(** C5. In a successful request, whenever the one-year (two-year) historical
    fetch made for [period_comparison] returns zero buckets, its
    [one_year_ago] ([two_years_ago]) entry is absent, a nil pointer; and
    likewise for the historical fetches made for [year_over_year]. *)
Theorem historical_omission {DB : Type}
  (AddDate : time.Time -> Z -> Z -> Z -> time.Time)
  (repo : repository.IrrigationRepository DB) (range : MapRange)
  (farmID : N) (sectorID : option N) (startDate endDate : time.Time)
  (aggregation : string) (db : DB) (response : AnalyticsResponse.t) :
  fst (GetIrrigationAnalytics AddDate repo range farmID sectorID startDate
         endDate aggregation db) = (Some response, None) ->
  let made := fetches repo farmID sectorID startDate endDate aggregation db in
  (fst (fetchComparison1 made) = [] ->
   PeriodComparison.OneYearAgo (AnalyticsResponse.PeriodComparison response)
   = None)
  /\ (fst (fetchComparison2 made) = [] ->
      PeriodComparison.TwoYearsAgo
        (AnalyticsResponse.PeriodComparison response) = None)
  /\ (fst (fetchLegacy1 made) = [] ->
      YearOverYearComparison.OneYearAgo
        (AnalyticsResponse.YearOverYear response) = None)
  /\ (fst (fetchLegacy2 made) = [] ->
      YearOverYearComparison.TwoYearsAgo
        (AnalyticsResponse.YearOverYear response) = None).
Proof.
  destruct sectorID; run_request.
  - destruct o as [e|]; [discriminate|].
    intros [= <-]. read_response.
    repeat split; intros ->; apply no_rows_no_entry.
  - destruct o as [e|]; [discriminate|].
    destruct o2; recall_fetches; intros [= <-]; read_response;
      repeat split; intros ->; apply no_rows_no_entry.
Qed.

(** C5 on the steady sample source, which has one bucket a year back and
    none two years back: both two-year entries are absent. *)
Lemma historical_omission_witness :
  exists response,
    fst (GetIrrigationAnalytics sampleAddDate steadyRepo rangeAscending 1
           None 400 430 "daily" tt) = (Some response, None)
    /\ PeriodComparison.TwoYearsAgo
         (AnalyticsResponse.PeriodComparison response) = None
    /\ YearOverYearComparison.TwoYearsAgo
         (AnalyticsResponse.YearOverYear response) = None.
Proof.
  eexists. split; [vm_compute; reflexivity|].
  edestruct (historical_omission sampleAddDate steadyRepo rangeAscending 1
               None 400 430 "daily" tt) as (_ & Hcomparison & _ & Hlegacy).
  - vm_compute. reflexivity.
  - split; [apply Hcomparison | apply Hlegacy]; reflexivity.
Defined.

(** C6. If the current-window fetch fails, the request returns that error
    and no response.  Otherwise the request succeeds, whatever the later
    fetches do: a historical fetch that fails leaves its comparison entry
    absent, and a failed unscoped fetch leaves the breakdown empty. *)
Theorem fetch_failures {DB : Type}
  (AddDate : time.Time -> Z -> Z -> Z -> time.Time)
  (repo : repository.IrrigationRepository DB) (range : MapRange)
  (farmID : N) (sectorID : option N) (startDate endDate : time.Time)
  (aggregation : string) (db : DB) :
  let made := fetches repo farmID sectorID startDate endDate aggregation db in
  let result :=
    fst (GetIrrigationAnalytics AddDate repo range farmID sectorID startDate
           endDate aggregation db) in
  (forall e, snd (fetchCurrent made) = Some e -> result = (None, Some e))
  /\ (snd (fetchCurrent made) = None ->
      exists response,
        result = (Some response, None)
        /\ (snd (fetchComparison1 made) <> None ->
            PeriodComparison.OneYearAgo
              (AnalyticsResponse.PeriodComparison response) = None)
        /\ (snd (fetchComparison2 made) <> None ->
            PeriodComparison.TwoYearsAgo
              (AnalyticsResponse.PeriodComparison response) = None)
        /\ (snd (fetchLegacy1 made) <> None ->
            YearOverYearComparison.OneYearAgo
              (AnalyticsResponse.YearOverYear response) = None)
        /\ (snd (fetchLegacy2 made) <> None ->
            YearOverYearComparison.TwoYearsAgo
              (AnalyticsResponse.YearOverYear response) = None)
        /\ (forall answer,
              fetchBreakdown made = Some answer -> snd answer <> None ->
              AnalyticsResponse.SectorBreakdown response = [])).
Proof.
  destruct sectorID; run_request.
  - split.
    + intros e ->. reflexivity.
    + intros ->. eexists. split; [reflexivity|]. read_response.
      repeat split;
        try (intros Herr; apply failed_no_entry; exact Herr).
  - split.
    + intros e ->. reflexivity.
    + intros ->. destruct o2; recall_fetches.
      * eexists. split; [reflexivity|]. read_response.
        repeat split;
          try (intros Herr; apply failed_no_entry; exact Herr).
      * eexists. split; [reflexivity|]. read_response.
        repeat split;
          try (intros Herr; apply failed_no_entry; exact Herr).
        intros answer [= <-]. cbn [snd]. congruence.
Qed.

(** C6 on a source that breaks down after three answers: the current window
    and the comparison are served, the breakdown and the legacy view are
    not, and the request still succeeds; on a source that is down from the
    start the request fails with the source's error. *)
Lemma fetch_failures_witness :
  (exists response,
      fst (GetIrrigationAnalytics sampleAddDate (failingFrom 3) rangeAscending
             1 None 400 430 "daily" 0) = (Some response, None)
      /\ AnalyticsResponse.SectorBreakdown response = []
      /\ YearOverYearComparison.OneYearAgo
           (AnalyticsResponse.YearOverYear response) = None)
  /\ fst (GetIrrigationAnalytics sampleAddDate (failingFrom 0) rangeAscending
            1 None 400 430 "daily" 0)
     = (None, Some "connection refused"%string).
Proof.
  split.
  - destruct (fetch_failures sampleAddDate (failingFrom 3) rangeAscending 1
                None 400 430 "daily" 0) as [_ Hok].
    destruct Hok as (response & Hresult & _ & _ & Hlegacy & _ & Hbreakdown).
    + vm_compute. reflexivity.
    + exists response. split; [exact Hresult|]. split.
      * apply (Hbreakdown ([], Some "connection refused"%string)).
        -- vm_compute. reflexivity.
        -- discriminate.
      * apply Hlegacy. vm_compute. discriminate.
  - destruct (fetch_failures sampleAddDate (failingFrom 0) rangeAscending 1
                None 400 430 "daily" 0) as [Hfail _].
    apply Hfail. vm_compute. reflexivity.
Defined.

Lemma steadyRepo_unchanged : unchanged steadyRepo.
Proof. split; intros; reflexivity. Qed.

(** C7. Against a data source that does not change, the legacy
    [year_over_year] entry of each historical offset is present exactly
    when the [period_comparison] entry is, and then both carry the same
    shifted period, total water volume, total events and average
    efficiency, the legacy [change_percent] being the
    [volume_change_percent]. *)
Theorem legacy_view_agrees {DB : Type}
  (AddDate : time.Time -> Z -> Z -> Z -> time.Time)
  (repo : repository.IrrigationRepository DB) (range : MapRange)
  (farmID : N) (sectorID : option N) (startDate endDate : time.Time)
  (aggregation : string) (db : DB) (response : AnalyticsResponse.t) :
  unchanged repo ->
  fst (GetIrrigationAnalytics AddDate repo range farmID sectorID startDate
         endDate aggregation db) = (Some response, None) ->
  sameEntry
    (PeriodComparison.OneYearAgo (AnalyticsResponse.PeriodComparison response))
    (YearOverYearComparison.OneYearAgo
       (AnalyticsResponse.YearOverYear response))
  /\ sameEntry
       (PeriodComparison.TwoYearsAgo
          (AnalyticsResponse.PeriodComparison response))
       (YearOverYearComparison.TwoYearsAgo
          (AnalyticsResponse.YearOverYear response)).
Proof.
  intros [_ Hsame].
  assert (Hagain : forall yearsBack db1 db2 rows1 err1 db1' rows2 err2 db2',
             repository.GetYearOverYearData repo farmID sectorID startDate
               endDate (validateAggregation aggregation) yearsBack db1
             = (rows1, err1, db1') ->
             repository.GetYearOverYearData repo farmID sectorID startDate
               endDate (validateAggregation aggregation) yearsBack db2
             = (rows2, err2, db2') ->
             rows2 = rows1 /\ err2 = err1).
  { intros yearsBack db1 db2 rows1 err1 db1' rows2 err2 db2' H1 H2.
    pose proof (Hsame farmID sectorID startDate endDate
                  (validateAggregation aggregation) yearsBack db1 db2) as H.
    rewrite H1, H2 in H. cbn [fst] in H. split; congruence. }
  assert (Hentries : forall rows err (p : PeriodMetrics.t) (y : YearComparison.t),
             (PeriodMetrics.Period p = YearComparison.Period y
              /\ PeriodMetrics.TotalWaterVolume p
                 = YearComparison.TotalWaterVolume y
              /\ PeriodMetrics.TotalEvents p = YearComparison.TotalEvents y
              /\ PeriodMetrics.AverageEfficiency p
                 = YearComparison.AverageEfficiency y
              /\ YearComparison.ChangePercent y
                 = PeriodMetrics.VolumeChangePercent p) ->
             sameEntry
               (if isNil err && (0 <? len rows) then Some p else None)
               (if isNil (A:=Go.error) err
                   && (0 <? len (A:=repository.AggregatedDataWithCount) rows)
                then Some y else None)).
  { intros rows err p y Hpy.
    destruct (isNil err && (0 <? len rows)); [exact Hpy|exact I]. }
  destruct sectorID; unfold GetIrrigationAnalytics.
  - run_request. destruct o as [e|]; [discriminate|].
    intros [= <-]. read_response.
    destruct (Hagain _ _ _ _ _ _ _ _ _ Heqp0 Heqp2) as [-> ->].
    destruct (Hagain _ _ _ _ _ _ _ _ _ Heqp1 Heqp3) as [-> ->].
    split; apply Hentries; repeat split.
  - run_request. destruct o as [e|]; [discriminate|].
    destruct o2; recall_fetches; intros [= <-]; read_response;
      destruct (Hagain _ _ _ _ _ _ _ _ _ Heqp0 Heqp3) as [-> ->];
      destruct (Hagain _ _ _ _ _ _ _ _ _ Heqp1 Heqp4) as [-> ->];
      split; apply Hentries; repeat split.
Qed.

(** C7 on the steady sample source: the one-year entries are both present
    and agree, the two-year entries are both absent. *)
Lemma legacy_view_agrees_witness :
  exists response,
    fst (GetIrrigationAnalytics sampleAddDate steadyRepo rangeAscending 1
           None 400 430 "daily" tt) = (Some response, None)
    /\ sameEntry
         (PeriodComparison.OneYearAgo
            (AnalyticsResponse.PeriodComparison response))
         (YearOverYearComparison.OneYearAgo
            (AnalyticsResponse.YearOverYear response))
    /\ sameEntry
         (PeriodComparison.TwoYearsAgo
            (AnalyticsResponse.PeriodComparison response))
         (YearOverYearComparison.TwoYearsAgo
            (AnalyticsResponse.YearOverYear response)).
Proof.
  eexists. split; [vm_compute; reflexivity|].
  apply (legacy_view_agrees sampleAddDate steadyRepo rangeAscending 1 None
           400 430 "daily" tt).
  - exact steadyRepo_unchanged.
  - vm_compute. reflexivity.
Defined.

(** Without that hypothesis the two views can part: on a source that breaks
    down after three answers the comparison has its one-year entry and the
    legacy view has none. *)
Example legacy_view_needs_unchanged :
  exists response,
    fst (GetIrrigationAnalytics sampleAddDate (failingFrom 3) rangeAscending
           1 None 400 430 "daily" 0) = (Some response, None)
    /\ PeriodComparison.OneYearAgo
         (AnalyticsResponse.PeriodComparison response) <> None
    /\ YearOverYearComparison.OneYearAgo
         (AnalyticsResponse.YearOverYear response) = None.
Proof.
  eexists. split; [vm_compute; reflexivity|].
  split; [discriminate|reflexivity].
Qed.

(** C10. A successful request echoes its scope: the response's farm is the
    [farmID] argument, its sector the optional [sectorID] argument (absent
    exactly when the argument is), and its period starts and ends at the
    [startDate] and [endDate] arguments. *)
Theorem response_echoes_scope {DB : Type}
  (AddDate : time.Time -> Z -> Z -> Z -> time.Time)
  (repo : repository.IrrigationRepository DB) (range : MapRange)
  (farmID : N) (sectorID : option N) (startDate endDate : time.Time)
  (aggregation : string) (db : DB) (response : AnalyticsResponse.t) :
  fst (GetIrrigationAnalytics AddDate repo range farmID sectorID startDate
         endDate aggregation db) = (Some response, None) ->
  AnalyticsResponse.FarmID response = farmID
  /\ AnalyticsResponse.SectorID response = sectorID
  /\ (AnalyticsResponse.SectorID response = None <-> sectorID = None)
  /\ PeriodInfo.StartDate (AnalyticsResponse.Period response) = startDate
  /\ PeriodInfo.EndDate (AnalyticsResponse.Period response) = endDate.
Proof.
  destruct sectorID; run_request.
  - destruct o as [e|]; [discriminate|].
    intros [= <-]. cbn. repeat split; intros; assumption.
  - destruct o as [e|]; [discriminate|].
    destruct o2; recall_fetches; intros [= <-]; cbn; repeat split.
Qed.

(** C10 on a request scoped to sector 1 of farm 1. *)
Lemma response_echoes_scope_witness :
  exists response,
    fst (GetIrrigationAnalytics sampleAddDate steadyRepo rangeAscending 1
           (Some 1%N) 400 430 "weekly" tt) = (Some response, None)
    /\ AnalyticsResponse.FarmID response = 1%N
    /\ AnalyticsResponse.SectorID response = Some 1%N
    /\ PeriodInfo.StartDate (AnalyticsResponse.Period response) = 400
    /\ PeriodInfo.EndDate (AnalyticsResponse.Period response) = 430.
Proof.
  eexists. split; [vm_compute; reflexivity|].
  edestruct (response_echoes_scope sampleAddDate steadyRepo rangeAscending 1
               (Some 1%N) 400 430 "weekly" tt)
    as (Hfarm & Hsector & _ & Hstart & Hend).
  - vm_compute. reflexivity.
  - exact (conj Hfarm (conj Hsector (conj Hstart Hend))).
Defined.

(** ** Reproducibility *)

(** C9 fails on the code.  The same request, against the same unchanging
    source, lists the sectors of the sample window as 2, 1 under one
    admissible iteration order of the sector map and as 1, 2 under another:
    the two responses differ. *)
Theorem sector_breakdown_order_varies :
  unchanged steadyRepo /\ MapRange_ok rangeAscending
  /\ MapRange_ok rangeDescending
  /\ exists first second,
       fst (GetIrrigationAnalytics sampleAddDate steadyRepo rangeAscending 1
              None 400 430 "daily" tt) = (Some first, None)
       /\ fst (GetIrrigationAnalytics sampleAddDate steadyRepo rangeDescending
                 1 None 400 430 "daily" tt) = (Some second, None)
       /\ List.map SectorBreakdown.SectorID
            (AnalyticsResponse.SectorBreakdown first) = [2%N; 1%N]
       /\ List.map SectorBreakdown.SectorID
            (AnalyticsResponse.SectorBreakdown second) = [1%N; 2%N]
       /\ first <> second.
Proof.
  split; [exact steadyRepo_unchanged|].
  split; [exact rangeAscending_ok|].
  split; [exact rangeDescending_ok|].
  eexists. eexists.
  split; [vm_compute; reflexivity|].
  split; [vm_compute; reflexivity|].
  split; [vm_compute; reflexivity|].
  split; [vm_compute; reflexivity|].
  intros Heq.
  apply (f_equal (fun response =>
                    List.map SectorBreakdown.SectorID
                      (AnalyticsResponse.SectorBreakdown response))) in Heq.
  vm_compute in Heq. discriminate Heq.
Qed.

(** Under [unchanged], two answers to the same query carry the same rows
    and the same error. *)
Ltac same_answers Hsame :=
  repeat match goal with
    | H1 : repository.GetYearOverYearData ?r ?f ?s ?a ?b ?g ?n ?d1
           = (?l1, ?o1, _),
      H2 : repository.GetYearOverYearData ?r ?f ?s ?a ?b ?g ?n ?d2
           = (?l2, ?o2, _) |- _ =>
        tryif (constr_eq l1 l2; constr_eq o1 o2) then fail
        else
          (let H := fresh in
           pose proof (proj2 Hsame f s a b g n d1 d2) as H;
           rewrite H1, H2 in H; cbn [fst] in H;
           injection H as ? ?; subst l1 o1)
    | H1 : repository.GetAggregatedData ?r ?f ?s ?a ?b ?g ?d1 = (?l1, ?o1, _),
      H2 : repository.GetAggregatedData ?r ?f ?s ?a ?b ?g ?d2 = (?l2, ?o2, _)
      |- _ =>
        tryif (constr_eq l1 l2; constr_eq o1 o2) then fail
        else
          (let H := fresh in
           pose proof (proj1 Hsame f s a b g d1 d2) as H;
           rewrite H1, H2 in H; cbn [fst] in H;
           injection H as ? ?; subst l1 o1)
    end.

(** What does hold of two requests with the same arguments against a data
    source that does not change: they fail alike, or they succeed with
    responses that agree field by field, the sector breakdown up to the
    order of its entries. *)
Theorem response_reproducible_up_to_order {DB : Type}
  (AddDate : time.Time -> Z -> Z -> Z -> time.Time)
  (repo : repository.IrrigationRepository DB) (range1 range2 : MapRange)
  (farmID : N) (sectorID : option N) (startDate endDate : time.Time)
  (aggregation : string) (db1 db2 : DB) :
  unchanged repo -> MapRange_ok range1 -> MapRange_ok range2 ->
  match
    fst (GetIrrigationAnalytics AddDate repo range1 farmID sectorID startDate
           endDate aggregation db1),
    fst (GetIrrigationAnalytics AddDate repo range2 farmID sectorID startDate
           endDate aggregation db2)
  with
  | (Some first, None), (Some second, None) =>
      AnalyticsResponse.FarmID first = AnalyticsResponse.FarmID second
      /\ AnalyticsResponse.SectorID first = AnalyticsResponse.SectorID second
      /\ AnalyticsResponse.Period first = AnalyticsResponse.Period second
      /\ AnalyticsResponse.Aggregation first
         = AnalyticsResponse.Aggregation second
      /\ AnalyticsResponse.Data first = AnalyticsResponse.Data second
      /\ AnalyticsResponse.Summary first = AnalyticsResponse.Summary second
      /\ AnalyticsResponse.PeriodComparison first
         = AnalyticsResponse.PeriodComparison second
      /\ AnalyticsResponse.YearOverYear first
         = AnalyticsResponse.YearOverYear second
      /\ Permutation (AnalyticsResponse.SectorBreakdown first)
           (AnalyticsResponse.SectorBreakdown second)
  | (None, Some e1), (None, Some e2) => e1 = e2
  | _, _ => False
  end.
Proof.
  intros Hsame Hrange1 Hrange2.
  destruct sectorID; run_request; same_answers Hsame.
  - destruct o0 as [e|]; cbn [fst]; [reflexivity|].
    repeat split; reflexivity.
  - destruct o6 as [e|]; [reflexivity|].
    recall_fetches. same_answers Hsame. cbn [fst].
    repeat split; try reflexivity.
    cbn [AnalyticsResponse.SectorBreakdown].
    apply Permutation_map. rewrite (Hrange1 _), (Hrange2 _). reflexivity.
Qed.

(** Two requests against the steady sample source, ranged in opposite
    orders, agree up to the order of the sector breakdown. *)
Lemma response_reproducible_up_to_order_witness :
  match
    fst (GetIrrigationAnalytics sampleAddDate steadyRepo rangeAscending 1
           None 400 430 "daily" tt),
    fst (GetIrrigationAnalytics sampleAddDate steadyRepo rangeDescending 1
           None 400 430 "daily" tt)
  with
  | (Some first, None), (Some second, None) =>
      AnalyticsResponse.FarmID first = AnalyticsResponse.FarmID second
      /\ AnalyticsResponse.SectorID first = AnalyticsResponse.SectorID second
      /\ AnalyticsResponse.Period first = AnalyticsResponse.Period second
      /\ AnalyticsResponse.Aggregation first
         = AnalyticsResponse.Aggregation second
      /\ AnalyticsResponse.Data first = AnalyticsResponse.Data second
      /\ AnalyticsResponse.Summary first = AnalyticsResponse.Summary second
      /\ AnalyticsResponse.PeriodComparison first
         = AnalyticsResponse.PeriodComparison second
      /\ AnalyticsResponse.YearOverYear first
         = AnalyticsResponse.YearOverYear second
      /\ Permutation (AnalyticsResponse.SectorBreakdown first)
           (AnalyticsResponse.SectorBreakdown second)
  | (None, Some e1), (None, Some e2) => e1 = e2
  | _, _ => False
  end.
Proof.
  apply (response_reproducible_up_to_order sampleAddDate steadyRepo
           rangeAscending rangeDescending 1 None 400 430 "daily" tt tt).
  - exact steadyRepo_unchanged.
  - exact rangeAscending_ok.
  - exact rangeDescending_ok.
Defined.

(** The other branch of the recomputation: an entry of the sector breakdown
    whose summed nominal amount is not greater than zero reports the
    efficiency of the sector's first bucket, fallback included, rounded to
    four decimals. *)
Theorem sector_average_without_nominal {DB : Type}
  (repo : repository.IrrigationRepository DB) (range : MapRange)
  (farmID : N) (startDate endDate : time.Time) (aggregation : string)
  (db : DB) (entry : SectorBreakdown.t) :
  MapRange_ok range ->
  In entry
    (fst (calculateSectorBreakdown repo range farmID startDate endDate
            aggregation db)) ->
  let rows :=
    fst (fst (repository.GetAggregatedData repo farmID None startDate endDate
                aggregation db)) in
  let buckets := sectorBuckets (SectorBreakdown.SectorID entry) rows in
  (0 <? sumOver model.NominalAmount buckets)%float = false ->
  exists first rest,
    buckets = first :: rest
    /\ SectorBreakdown.AverageEfficiency entry
       = round4 (summaryEfficiency (repository.Data first)).
Proof.
  intros Hrange Hin.
  destruct (calculateSectorBreakdown_entries repo range farmID startDate
              endDate aggregation db entry Hrange Hin)
    as (_ & sectorID & breakdown & Hlookup & ->).
  apply sectorMap_entry in Hlookup.
  destruct Hlookup as (first & rest & Hbuckets & -> & Hid).
  destruct (sectorUpdate_fold rest (sectorCreate first))
    as (_ & Havg & _ & Hnominal).
  cbn zeta. cbn [sectorFinish SectorBreakdown.SectorID].
  rewrite Hid, Hbuckets. cbn [sumOver]. intros Hpos.
  exists first, rest. split; [reflexivity|].
  unfold sectorFinish. cbn [SectorBreakdown.AverageEfficiency].
  rewrite Hnominal, Havg.
  cbn [sectorCreate SectorBreakdown.TotalNominalAmount
         SectorBreakdown.AverageEfficiency].
  rewrite Hpos. reflexivity.
Qed.

(** Sector 2 of the sample window: one legacy bucket, so the entry reports
    that bucket's fallback efficiency. *)
Lemma sector_average_without_nominal_witness :
  exists first rest,
    sectorBuckets 2 [bucket_plain; bucket_legacy; bucket_more] = first :: rest
    /\ SectorBreakdown.AverageEfficiency sample_sector2_entry
       = round4 (summaryEfficiency (repository.Data first)).
Proof.
  apply (sector_average_without_nominal steadyRepo rangeAscending 1 400 430
           "daily" tt sample_sector2_entry rangeAscending_ok).
  - vm_compute. left; reflexivity.
  - vm_compute. reflexivity.
Defined.

(** The aggregation level is normalised, never rejected: the three known
    levels pass unchanged and everything else, the empty string included,
    becomes ["daily"]. *)
Theorem validateAggregation_spec (aggregation : string) :
  (In aggregation ["daily"; "weekly"; "monthly"]%string ->
   validateAggregation aggregation = aggregation)
  /\ (~ In aggregation ["daily"; "weekly"; "monthly"]%string ->
      validateAggregation aggregation = "daily"%string)
  /\ In (validateAggregation aggregation) ["daily"; "weekly"; "monthly"]%string.
Proof.
  unfold validateAggregation.
  destruct (String.eqb_spec aggregation "") as [->|Hempty].
  - cbn. split; [|split].
    + intros [H|[H|[H|[]]]]; discriminate H.
    + reflexivity.
    + left; reflexivity.
  - destruct (String.eqb_spec aggregation "daily") as [->|Hd];
      [cbn; intuition congruence|].
    destruct (String.eqb_spec aggregation "weekly") as [->|Hw];
      [cbn; intuition congruence|].
    destruct (String.eqb_spec aggregation "monthly") as [->|Hm];
      [cbn; intuition congruence|].
    cbn. split; [|split].
    + intros [H|[H|[H|[]]]]; congruence.
    + reflexivity.
    + left; reflexivity.
Qed.

(** An unknown level and a known one. *)
Lemma validateAggregation_spec_witness :
  validateAggregation "hourly" = "daily"%string
  /\ validateAggregation "monthly" = "monthly"%string.
Proof.
  split.
  - apply (validateAggregation_spec "hourly").
    intros [H|[H|[H|[]]]]; discriminate H.
  - apply (validateAggregation_spec "monthly"). right; right; left; reflexivity.
Defined.

(** ** Totals and the worked scenario *)

Lemma summary_loop_totals (data : list repository.AggregatedDataWithCount) :
  forall acc,
    let final := fold_left summaryStep data acc in
    totalEvents final
    = fold_left Go.int_add (List.map repository.EventCount data)
        (totalEvents acc)
    /\ totalDuration final
       = fold_left Go.int_add
           (List.map (fun item => model.Duration (repository.Data item)) data)
           (totalDuration acc)
    /\ totalWaterVolume final
       = fold_left PrimFloat.add
           (List.map (fun item => model.WaterVolume (repository.Data item)) data)
           (totalWaterVolume acc)
    /\ totalRealAmount final
       = fold_left PrimFloat.add
           (List.map (fun item => model.RealAmount (repository.Data item)) data)
           (totalRealAmount acc)
    /\ totalNominalAmount final
       = fold_left PrimFloat.add
           (List.map (fun item => model.NominalAmount (repository.Data item))
              data)
           (totalNominalAmount acc).
Proof.
  induction data as [|item data IH]; intros acc; cbn zeta.
  - repeat split; reflexivity.
  - cbn [fold_left List.map].
    destruct (IH (summaryStep acc item)) as (He & Hd & Hv & Hr & Hn).
    rewrite He, Hd, Hv, Hr, Hn. repeat split; reflexivity.
Qed.

(** The summary's totals are plain sums over the buckets, in the order of
    the rows: the event total adds up the buckets' own event counts, the
    duration total their durations (both in [int] arithmetic), and the
    volume and amount totals are the float sums rounded to two decimals. *)
Theorem summary_totals (data : list repository.AggregatedDataWithCount) :
  AnalyticsSummary.TotalEvents (calculateSummary data)
  = fold_left Go.int_add (List.map repository.EventCount data) 0
  /\ AnalyticsSummary.TotalDuration (calculateSummary data)
     = fold_left Go.int_add
         (List.map (fun item => model.Duration (repository.Data item)) data) 0
  /\ AnalyticsSummary.TotalWaterVolume (calculateSummary data)
     = round2
         (fold_left PrimFloat.add
            (List.map (fun item => model.WaterVolume (repository.Data item))
               data) 0%float)
  /\ AnalyticsSummary.TotalRealAmount (calculateSummary data)
     = round2
         (fold_left PrimFloat.add
            (List.map (fun item => model.RealAmount (repository.Data item))
               data) 0%float)
  /\ AnalyticsSummary.TotalNominalAmount (calculateSummary data)
     = round2
         (fold_left PrimFloat.add
            (List.map (fun item => model.NominalAmount (repository.Data item))
               data) 0%float).
Proof.
  destruct (summary_loop_totals data SummaryAcc_zero) as (He & Hd & Hv & Hr & Hn).
  unfold calculateSummary, round2.
  cbn [AnalyticsSummary.TotalEvents AnalyticsSummary.TotalDuration
         AnalyticsSummary.TotalWaterVolume AnalyticsSummary.TotalRealAmount
         AnalyticsSummary.TotalNominalAmount].
  rewrite He, Hd, Hv, Hr, Hn. repeat split; reflexivity.
Qed.

(** The worked scenario of the specification: 4650.75 units in 31 events at
    average efficiency 1.2917, against 4200.0 units in 28 events at 1.25 a
    year earlier, give changes of 10.73, 10.71 and 3.34 percent. *)
Example end_to_end_scenario :
  calculateChangePercent 4650.75 4200 = 10.73%float
  /\ calculateChangePercent (Go.float64 31) (Go.float64 28) = 10.71%float
  /\ calculateChangePercent 1.2917 1.25 = 3.34%float.
Proof. repeat split; vm_compute; reflexivity. Qed.

(** * Further properties of the service *)

(** ** The response is consistent with itself *)

Lemma entry_law_cases {A : Type} (rows : list repository.AggregatedDataWithCount)
  (err : option Go.error) (entry : A) :
  (isNil err && (0 <? len rows) = true /\ err = None /\ rows <> [])
  \/ (isNil err && (0 <? len rows) = false /\ (err <> None \/ rows = [])).
Proof.
  destruct err as [e|]; cbn [isNil andb].
  - right. split; [reflexivity|]. left. discriminate.
  - destruct rows as [|row rows].
    + right. split; [reflexivity|]. right. reflexivity.
    + left. split; [|split; [reflexivity|discriminate]].
      apply Z.ltb_lt. rewrite len_cons. pose proof (len_nonneg rows). lia.
Qed.

(** In a successful response each comparison entry, of both views and both
    offsets, is present exactly when the historical fetch made for it
    succeeded with at least one bucket; a present entry carries the summary
    of those buckets, the window shifted by [AddDate], and change figures
    that are [calculateChangePercent] of the response's own summary against
    the entry's own totals. *)
Theorem comparison_entries_law {DB : Type}
  (AddDate : time.Time -> Z -> Z -> Z -> time.Time)
  (repo : repository.IrrigationRepository DB) (range : MapRange)
  (farmID : N) (sectorID : option N) (startDate endDate : time.Time)
  (aggregation : string) (db : DB) (response : AnalyticsResponse.t) :
  fst (GetIrrigationAnalytics AddDate repo range farmID sectorID startDate
         endDate aggregation db) = (Some response, None) ->
  let made := fetches repo farmID sectorID startDate endDate aggregation db in
  let current := AnalyticsResponse.Summary response in
  comparisonEntryLaw (AddDate startDate (-1) 0 0) (AddDate endDate (-1) 0 0)
    current (fetchComparison1 made)
    (PeriodComparison.OneYearAgo (AnalyticsResponse.PeriodComparison response))
  /\ comparisonEntryLaw (AddDate startDate (-2) 0 0)
       (AddDate endDate (-2) 0 0) current (fetchComparison2 made)
       (PeriodComparison.TwoYearsAgo
          (AnalyticsResponse.PeriodComparison response))
  /\ legacyEntryLaw (AddDate startDate (-1) 0 0) (AddDate endDate (-1) 0 0)
       current (fetchLegacy1 made)
       (YearOverYearComparison.OneYearAgo
          (AnalyticsResponse.YearOverYear response))
  /\ legacyEntryLaw (AddDate startDate (-2) 0 0) (AddDate endDate (-2) 0 0)
       current (fetchLegacy2 made)
       (YearOverYearComparison.TwoYearsAgo
          (AnalyticsResponse.YearOverYear response)).
Proof.
  assert (Hc : forall s1 s2 cur rows err (p : PeriodMetrics.t),
             (PeriodMetrics.Period p
              = {| PeriodInfo.StartDate := s1; PeriodInfo.EndDate := s2 |}
              /\ PeriodMetrics.TotalWaterVolume p
                 = AnalyticsSummary.TotalWaterVolume (calculateSummary rows)
              /\ PeriodMetrics.TotalEvents p
                 = AnalyticsSummary.TotalEvents (calculateSummary rows)
              /\ PeriodMetrics.AverageEfficiency p
                 = AnalyticsSummary.AverageEfficiency (calculateSummary rows)
              /\ changesFrom cur p) ->
             comparisonEntryLaw s1 s2 cur (rows, err)
               (if isNil err && (0 <? len rows) then Some p else None)).
  { intros s1 s2 cur rows err p Hp.
    destruct (entry_law_cases rows err p) as [(-> & He & Hr)|(-> & H)];
      cbn [comparisonEntryLaw fst snd]; [|exact H].
    split; [exact He|]. split; [exact Hr|]. exact Hp. }
  assert (Hl : forall s1 s2 cur rows err (y : YearComparison.t),
             (YearComparison.Period y
              = {| PeriodInfo.StartDate := s1; PeriodInfo.EndDate := s2 |}
              /\ YearComparison.TotalWaterVolume y
                 = AnalyticsSummary.TotalWaterVolume (calculateSummary rows)
              /\ YearComparison.TotalDuration y
                 = AnalyticsSummary.TotalDuration (calculateSummary rows)
              /\ YearComparison.TotalEvents y
                 = AnalyticsSummary.TotalEvents (calculateSummary rows)
              /\ YearComparison.AverageEfficiency y
                 = AnalyticsSummary.AverageEfficiency (calculateSummary rows)
              /\ YearComparison.ChangePercent y
                 = calculateChangePercent
                     (AnalyticsSummary.TotalWaterVolume cur)
                     (YearComparison.TotalWaterVolume y)) ->
             legacyEntryLaw s1 s2 cur (rows, err)
               (if isNil err && (0 <? len rows) then Some y else None)).
  { intros s1 s2 cur rows err y Hy.
    destruct (entry_law_cases rows err y) as [(-> & He & Hr)|(-> & H)];
      cbn [legacyEntryLaw fst snd]; [|exact H].
    split; [exact He|]. split; [exact Hr|]. exact Hy. }
  destruct sectorID; run_request.
  - destruct o as [e|]; [discriminate|].
    intros [= <-]. cbn zeta. read_response.
    cbn [AnalyticsResponse.Summary].
    repeat split; first [apply Hc | apply Hl]; repeat split.
  - destruct o as [e|]; [discriminate|].
    destruct o2; recall_fetches; intros [= <-]; cbn zeta; read_response;
      cbn [AnalyticsResponse.Summary];
      repeat split; first [apply Hc | apply Hl]; repeat split.
Qed.

(** On the steady sample source the one-year comparison entry is present
    and obeys the law. *)
Lemma comparison_entries_law_witness :
  exists response,
    fst (GetIrrigationAnalytics sampleAddDate steadyRepo rangeAscending 1
           None 400 430 "daily" tt) = (Some response, None)
    /\ comparisonEntryLaw (sampleAddDate 400 (-1) 0 0)
         (sampleAddDate 430 (-1) 0 0) (AnalyticsResponse.Summary response)
         ([bucket_plain], None)
         (PeriodComparison.OneYearAgo
            (AnalyticsResponse.PeriodComparison response)).
Proof.
  eexists. split; [vm_compute; reflexivity|].
  edestruct (comparison_entries_law sampleAddDate steadyRepo rangeAscending 1
               None 400 430 "daily" tt) as (Hone & _).
  - vm_compute. reflexivity.
  - exact Hone.
Defined.

(** In a successful response there is one data point per fetched bucket, in
    the order of the rows, and the summary's totals are the sums over the
    data points: events and durations in [int] arithmetic, the volume and
    the two amounts as float sums rounded to two decimals. *)
Theorem summary_matches_data_points {DB : Type}
  (AddDate : time.Time -> Z -> Z -> Z -> time.Time)
  (repo : repository.IrrigationRepository DB) (range : MapRange)
  (farmID : N) (sectorID : option N) (startDate endDate : time.Time)
  (aggregation : string) (db : DB) (response : AnalyticsResponse.t) :
  fst (GetIrrigationAnalytics AddDate repo range farmID sectorID startDate
         endDate aggregation db) = (Some response, None) ->
  let made := fetches repo farmID sectorID startDate endDate aggregation db in
  let points := AnalyticsResponse.Data response in
  let summary := AnalyticsResponse.Summary response in
  List.map AggregatedDataPoint.Period points
  = List.map (fun item => model.StartTime (repository.Data item))
      (fst (fetchCurrent made))
  /\ AnalyticsSummary.TotalEvents summary
     = fold_left Go.int_add (List.map AggregatedDataPoint.EventCount points) 0
  /\ AnalyticsSummary.TotalDuration summary
     = fold_left Go.int_add (List.map AggregatedDataPoint.Duration points) 0
  /\ AnalyticsSummary.TotalWaterVolume summary
     = round2
         (fold_left PrimFloat.add
            (List.map AggregatedDataPoint.WaterVolume points) 0%float)
  /\ AnalyticsSummary.TotalRealAmount summary
     = round2
         (fold_left PrimFloat.add
            (List.map AggregatedDataPoint.RealAmount points) 0%float)
  /\ AnalyticsSummary.TotalNominalAmount summary
     = round2
         (fold_left PrimFloat.add
            (List.map AggregatedDataPoint.NominalAmount points) 0%float).
Proof.
  assert (Hrows : forall rows aggregation',
             let points := processDataPoints rows aggregation' in
             let summary := calculateSummary rows in
             List.map AggregatedDataPoint.Period points
             = List.map (fun item => model.StartTime (repository.Data item))
                 rows
             /\ AnalyticsSummary.TotalEvents summary
                = fold_left Go.int_add
                    (List.map AggregatedDataPoint.EventCount points) 0
             /\ AnalyticsSummary.TotalDuration summary
                = fold_left Go.int_add
                    (List.map AggregatedDataPoint.Duration points) 0
             /\ AnalyticsSummary.TotalWaterVolume summary
                = round2
                    (fold_left PrimFloat.add
                       (List.map AggregatedDataPoint.WaterVolume points)
                       0%float)
             /\ AnalyticsSummary.TotalRealAmount summary
                = round2
                    (fold_left PrimFloat.add
                       (List.map AggregatedDataPoint.RealAmount points)
                       0%float)
             /\ AnalyticsSummary.TotalNominalAmount summary
                = round2
                    (fold_left PrimFloat.add
                       (List.map AggregatedDataPoint.NominalAmount points)
                       0%float)).
  { intros rows aggregation'. cbn zeta.
    destruct (summary_totals rows) as (He & Hd & Hv & Hr & Hn).
    rewrite He, Hd, Hv, Hr, Hn. unfold processDataPoints.
    rewrite !List.map_map. repeat split; reflexivity. }
  destruct sectorID; run_request.
  - destruct o as [e|]; [discriminate|].
    intros [= <-]. cbn zeta.
    cbn [AnalyticsResponse.Data AnalyticsResponse.Summary]. apply Hrows.
  - destruct o as [e|]; [discriminate|].
    destruct o2; recall_fetches; intros [= <-]; cbn zeta;
      cbn [AnalyticsResponse.Data AnalyticsResponse.Summary]; apply Hrows.
Qed.

(** On the sample window: three buckets, three data points, six events. *)
Lemma summary_matches_data_points_witness :
  exists response,
    fst (GetIrrigationAnalytics sampleAddDate steadyRepo rangeAscending 1
           None 400 430 "daily" tt) = (Some response, None)
    /\ AnalyticsSummary.TotalEvents (AnalyticsResponse.Summary response)
       = fold_left Go.int_add
           (List.map AggregatedDataPoint.EventCount
              (AnalyticsResponse.Data response)) 0.
Proof.
  eexists. split; [vm_compute; reflexivity|].
  edestruct (summary_matches_data_points sampleAddDate steadyRepo
               rangeAscending 1 None 400 430 "daily" tt) as (_ & Hevents & _).
  - vm_compute. reflexivity.
  - exact Hevents.
Defined.

(** An empty current window is a success, not an error: the response has no
    data point and an all-zero summary, and when the unscoped fetch brings
    no bucket either, no sector entry. *)
Theorem empty_window_response {DB : Type}
  (AddDate : time.Time -> Z -> Z -> Z -> time.Time)
  (repo : repository.IrrigationRepository DB) (range : MapRange)
  (farmID : N) (sectorID : option N) (startDate endDate : time.Time)
  (aggregation : string) (db : DB) :
  MapRange_ok range ->
  let made := fetches repo farmID sectorID startDate endDate aggregation db in
  fetchCurrent made = ([], None) ->
  exists response,
    fst (GetIrrigationAnalytics AddDate repo range farmID sectorID startDate
           endDate aggregation db) = (Some response, None)
    /\ AnalyticsResponse.Data response = []
    /\ AnalyticsResponse.Summary response
       = {| AnalyticsSummary.TotalWaterVolume := 0;
            AnalyticsSummary.TotalDuration := 0;
            AnalyticsSummary.AverageEfficiency := 0;
            AnalyticsSummary.TotalEvents := 0;
            AnalyticsSummary.TotalRealAmount := 0;
            AnalyticsSummary.TotalNominalAmount := 0 |}
    /\ (forall err, fetchBreakdown made = Some ([], err) ->
        AnalyticsResponse.SectorBreakdown response = []).
Proof.
  intros Hrange.
  assert (Hempty : range (∅ : gmap N SectorBreakdown.t) = []).
  { apply Permutation_nil. symmetry. rewrite <- (map_to_list_empty (M:=gmap N)).
    apply Hrange. }
  destruct sectorID; run_request.
  - intros [= -> ->]. eexists. split; [reflexivity|].
    cbn [AnalyticsResponse.Data AnalyticsResponse.Summary
           AnalyticsResponse.SectorBreakdown].
    split; [reflexivity|]. split; [vm_compute; reflexivity|].
    intros err [=].
  - intros [= -> ->]. destruct o2; recall_fetches.
    + eexists. split; [reflexivity|].
      cbn [AnalyticsResponse.Data AnalyticsResponse.Summary
             AnalyticsResponse.SectorBreakdown].
      split; [reflexivity|]. split; [vm_compute; reflexivity|].
      reflexivity.
    + eexists. split; [reflexivity|].
      cbn [AnalyticsResponse.Data AnalyticsResponse.Summary
             AnalyticsResponse.SectorBreakdown].
      split; [reflexivity|]. split; [vm_compute; reflexivity|].
      intros err [= -> _]. cbn [fold_left]. rewrite Hempty. reflexivity.
Qed.

(** A source without any bucket answers with an empty, all-zero response. *)
Lemma empty_window_response_witness :
  exists response,
    fst (GetIrrigationAnalytics sampleAddDate (fixedRepo []) rangeDescending
           1 None 400 430 "daily" tt) = (Some response, None)
    /\ AnalyticsResponse.Data response = []
    /\ AnalyticsSummary.TotalEvents (AnalyticsResponse.Summary response) = 0
    /\ AnalyticsResponse.SectorBreakdown response = [].
Proof.
  destruct (empty_window_response sampleAddDate (fixedRepo [])
              rangeDescending 1 None 400 430 "daily" tt rangeDescending_ok)
    as (response & Hok & Hdata & Hsummary & Hsectors).
  - reflexivity.
  - exists response. split; [exact Hok|]. split; [exact Hdata|].
    split; [rewrite Hsummary; reflexivity|].
    apply (Hsectors None). reflexivity.
Defined.

(** ** One entry per sector *)

Lemma sectorUpdate_fold_totals
  (buckets : list repository.AggregatedDataWithCount) :
  forall breakdown,
    let total := fold_left sectorUpdate buckets breakdown in
    SectorBreakdown.TotalEvents total
    = fold_left
        (fun acc item => Go.int_add acc (repository.EventCount item))
        buckets (SectorBreakdown.TotalEvents breakdown)
    /\ SectorBreakdown.TotalWaterVolume total
       = fold_left
           (fun acc item =>
              (acc + model.WaterVolume (repository.Data item))%float)
           buckets (SectorBreakdown.TotalWaterVolume breakdown).
Proof.
  induction buckets as [|item buckets IH]; intros breakdown; cbn zeta.
  - split; reflexivity.
  - cbn [fold_left]. destruct (IH (sectorUpdate breakdown item)) as (He & Hv).
    rewrite He, Hv. split; reflexivity.
Qed.

Lemma sectorMap_has_sector (data : list repository.AggregatedDataWithCount)
  (sectorID : N) :
  is_Some (fold_left sectorStep data (∅ : gmap N SectorBreakdown.t) !! sectorID)
  <-> sectorBuckets sectorID data <> [].
Proof.
  rewrite sectorMap_lookup, lookup_empty, sectorFold_None.
  destruct (sectorBuckets sectorID data).
  - split; [intros [x Hx]; discriminate|congruence].
  - split; [discriminate|eauto].
Qed.

(** The sector ids listed by a breakdown are the keys of the sector map, in
    the order the map was ranged over. *)
Lemma breakdown_sector_ids (range : MapRange)
  (data : list repository.AggregatedDataWithCount) :
  MapRange_ok range ->
  let m := fold_left sectorStep data (∅ : gmap N SectorBreakdown.t) in
  List.map SectorBreakdown.SectorID
    (List.map (fun entry => sectorFinish (snd entry)) (range m))
  = List.map fst (range m).
Proof.
  intros Hrange m. rewrite List.map_map. apply List.map_ext_in.
  intros [sectorID breakdown] Hin. cbn [fst snd sectorFinish
                                         SectorBreakdown.SectorID].
  apply (Permutation_in _ (Hrange _)) in Hin.
  apply list_elem_of_In in Hin. apply elem_of_map_to_list in Hin.
  apply sectorMap_entry in Hin. destruct Hin as (_ & _ & _ & _ & Hid).
  exact Hid.
Qed.

(** When the unscoped fetch succeeds, the breakdown has exactly one entry
    for every sector that has a bucket among the fetched rows and none for
    any other; each entry's totals are the sums over that sector's buckets,
    in the order of the rows: the events in [int] arithmetic, the volume and
    the two amounts as float sums rounded to two decimals. *)
Theorem sector_breakdown_structure {DB : Type}
  (repo : repository.IrrigationRepository DB) (range : MapRange)
  (farmID : N) (startDate endDate : time.Time) (aggregation : string)
  (db : DB) :
  MapRange_ok range ->
  let answer :=
    repository.GetAggregatedData repo farmID None startDate endDate
      aggregation db in
  snd (fst answer) = None ->
  let rows := fst (fst answer) in
  let breakdown :=
    fst (calculateSectorBreakdown repo range farmID startDate endDate
           aggregation db) in
  List.NoDup (List.map SectorBreakdown.SectorID breakdown)
  /\ (forall sectorID,
        In sectorID (List.map SectorBreakdown.SectorID breakdown)
        <-> sectorBuckets sectorID rows <> [])
  /\ (forall entry,
        In entry breakdown ->
        let buckets := sectorBuckets (SectorBreakdown.SectorID entry) rows in
        SectorBreakdown.TotalEvents entry
        = sumIntOver repository.EventCount buckets
        /\ SectorBreakdown.TotalWaterVolume entry
           = round2 (sumOver model.WaterVolume buckets)
        /\ SectorBreakdown.TotalRealAmount entry
           = round2 (sumOver model.RealAmount buckets)
        /\ SectorBreakdown.TotalNominalAmount entry
           = round2 (sumOver model.NominalAmount buckets)).
Proof.
  intros Hrange answer Herr rows breakdown.
  assert (Hbd : breakdown
                = List.map (fun entry => sectorFinish (snd entry))
                    (range (fold_left sectorStep rows ∅))).
  { subst breakdown rows answer. unfold calculateSectorBreakdown.
    destruct (repository.GetAggregatedData repo farmID None startDate endDate
                aggregation db) as [[data err] db'].
    cbn [fst snd] in Herr |- *. rewrite Herr. reflexivity. }
  split; [|split].
  - rewrite Hbd, (breakdown_sector_ids range rows Hrange).
    apply NoDup_ListNoDup.
    rewrite (Hrange _). apply (NoDup_fst_map_to_list (M:=gmap N)).
  - intros sectorID.
    rewrite Hbd, (breakdown_sector_ids range rows Hrange).
    rewrite <- sectorMap_has_sector. split.
    + intros Hin. apply in_map_iff in Hin.
      destruct Hin as ([k v] & <- & Hin).
      apply (Permutation_in _ (Hrange _)) in Hin.
      apply list_elem_of_In, elem_of_map_to_list in Hin. cbn [fst]. eauto.
    + intros [v Hv]. apply in_map_iff. exists (sectorID, v).
      split; [reflexivity|].
      apply (Permutation_in _ (Permutation_sym (Hrange _))).
      apply list_elem_of_In, elem_of_map_to_list. exact Hv.
  - intros entry Hin. rewrite Hbd in Hin. apply in_map_iff in Hin.
    destruct Hin as ([k v] & <- & Hin). cbn [snd].
    apply (Permutation_in _ (Hrange _)) in Hin.
    apply list_elem_of_In, elem_of_map_to_list in Hin.
    apply sectorMap_entry in Hin.
    destruct Hin as (first & rest & Hbuckets & -> & Hid).
    destruct (sectorUpdate_fold rest (sectorCreate first))
      as (_ & _ & Hreal & Hnominal).
    destruct (sectorUpdate_fold_totals rest (sectorCreate first))
      as (Hevents & Hvolume).
    cbn zeta. cbn [sectorFinish SectorBreakdown.SectorID].
    rewrite Hid, Hbuckets. unfold sectorFinish, round2.
    cbn [SectorBreakdown.TotalEvents SectorBreakdown.TotalWaterVolume
           SectorBreakdown.TotalRealAmount SectorBreakdown.TotalNominalAmount].
    rewrite Hevents, Hvolume, Hreal, Hnominal.
    repeat split; reflexivity.
Qed.

(** On the sample window: sectors 1 and 2, once each, and sector 1 counts
    the events of its two buckets. *)
Lemma sector_breakdown_structure_witness :
  List.NoDup
    (List.map SectorBreakdown.SectorID
       (fst (calculateSectorBreakdown steadyRepo rangeDescending 1 400 430
               "daily" tt)))
  /\ SectorBreakdown.TotalEvents sample_sector1_entry
     = sumIntOver repository.EventCount [bucket_plain; bucket_more].
Proof.
  destruct (sector_breakdown_structure steadyRepo rangeDescending 1 400 430
              "daily" tt rangeDescending_ok) as (Hnodup & _ & Hentries).
  - reflexivity.
  - split; [exact Hnodup|].
    apply (Hentries sample_sector1_entry). vm_compute. left; reflexivity.
Defined.

(** ** The sectors' events add up to the total *)

Lemma sumZ_Permutation (l1 l2 : list Z) :
  Permutation l1 l2 -> sumZ l1 = sumZ l2.
Proof.
  induction 1 as [|x l1 l2 _ IH|x y l|l1 l2 l3 _ IH1 _ IH2]; cbn [sumZ fold_right];
    unfold sumZ in *; lia.
Qed.

Lemma sumZ_nonneg (l : list Z) : (forall z, In z l -> 0 <= z) -> 0 <= sumZ l.
Proof.
  induction l as [|x l IH]; intros Hall; cbn [sumZ fold_right]; [lia|].
  pose proof (Hall x (or_introl eq_refl)).
  assert (0 <= sumZ l) by (apply IH; intros z Hz; apply Hall; right; exact Hz).
  unfold sumZ in *. lia.
Qed.

(** Without overflow, the [int] sum of non-negative counts is their sum. *)
Lemma fold_int_add_sumZ (l : list Z) :
  forall acc,
    0 <= acc -> (forall z, In z l -> 0 <= z) -> acc + sumZ l < 2 ^ 63 ->
    fold_left Go.int_add l acc = acc + sumZ l.
Proof.
  induction l as [|x l IH]; intros acc Hacc Hall Hsum;
    cbn [fold_left sumZ fold_right] in *; [lia|].
  pose proof (Hall x (or_introl eq_refl)) as Hx.
  assert (Hl : 0 <= sumZ l)
    by (apply sumZ_nonneg; intros z Hz; apply Hall; right; exact Hz).
  unfold sumZ in Hl.
  unfold Go.int_add at 2. rewrite wrap_small by lia.
  rewrite IH; [unfold sumZ; lia|lia| |unfold sumZ; lia].
  intros z Hz. apply Hall. right. exact Hz.
Qed.

Lemma mapEvents_insert_new (m : gmap N SectorBreakdown.t) (sectorID : N)
  (breakdown : SectorBreakdown.t) :
  m !! sectorID = None ->
  mapEvents (<[sectorID := breakdown]> m)
  = SectorBreakdown.TotalEvents breakdown + mapEvents m.
Proof.
  intros Hnew. unfold mapEvents.
  rewrite (sumZ_Permutation _ _
             (Permutation_map _ (map_to_list_insert m sectorID breakdown Hnew))).
  reflexivity.
Qed.

Lemma mapEvents_lookup (m : gmap N SectorBreakdown.t) (sectorID : N)
  (breakdown : SectorBreakdown.t) :
  m !! sectorID = Some breakdown ->
  mapEvents m
  = SectorBreakdown.TotalEvents breakdown + mapEvents (delete sectorID m).
Proof.
  intros Hold. unfold mapEvents.
  rewrite <- (sumZ_Permutation _ _
                (Permutation_map _
                   (map_to_list_delete m sectorID breakdown Hold))).
  reflexivity.
Qed.

Lemma mapEvents_nonneg (m : gmap N SectorBreakdown.t) :
  mapCountsOk m -> 0 <= mapEvents m.
Proof.
  intros Hok. apply sumZ_nonneg. intros z Hz.
  apply in_map_iff in Hz. destruct Hz as ([k v] & <- & Hin).
  apply list_elem_of_In, elem_of_map_to_list in Hin. exact (Hok k v Hin).
Qed.

Lemma mapCountsOk_delete (m : gmap N SectorBreakdown.t) (sectorID : N) :
  mapCountsOk m -> mapCountsOk (delete sectorID m).
Proof.
  intros Hok k v Hk. apply lookup_delete_Some in Hk. exact (Hok k v (proj2 Hk)).
Qed.

(** One bucket more: the map holds its events too, as long as the sum
    stays in range. *)
Lemma sectorStep_events (m : gmap N SectorBreakdown.t)
  (item : repository.AggregatedDataWithCount) :
  mapCountsOk m -> 0 <= repository.EventCount item ->
  mapEvents m + repository.EventCount item < 2 ^ 63 ->
  mapEvents (sectorStep m item) = mapEvents m + repository.EventCount item
  /\ mapCountsOk (sectorStep m item).
Proof.
  intros Hok Hitem Hsum. unfold sectorStep.
  set (sectorID := model.IrrigationSectorID (repository.Data item)).
  destruct (m !! sectorID) as [breakdown|] eqn:Hlookup.
  - pose proof (Hok _ _ Hlookup) as Hb.
    pose proof (mapEvents_lookup m sectorID breakdown Hlookup) as Hm.
    pose proof (mapEvents_nonneg _ (mapCountsOk_delete m sectorID Hok)) as Hrest.
    assert (Hupd : SectorBreakdown.TotalEvents (sectorUpdate breakdown item)
                   = SectorBreakdown.TotalEvents breakdown
                     + repository.EventCount item).
    { cbn [sectorUpdate SectorBreakdown.TotalEvents]. unfold Go.int_add.
      apply wrap_small. lia. }
    split.
    + rewrite <- insert_delete_eq.
      rewrite mapEvents_insert_new by apply lookup_delete_eq.
      rewrite Hupd. lia.
    + intros k v Hk. apply lookup_insert_Some in Hk.
      destruct Hk as [[_ <-]|[_ Hk]]; [rewrite Hupd; lia|exact (Hok k v Hk)].
  - split.
    + rewrite mapEvents_insert_new by exact Hlookup.
      cbn [sectorCreate SectorBreakdown.TotalEvents]. lia.
    + intros k v Hk. apply lookup_insert_Some in Hk.
      destruct Hk as [[_ <-]|[_ Hk]]; [exact Hitem|exact (Hok k v Hk)].
Qed.

Lemma sectorMap_events (data : list repository.AggregatedDataWithCount) :
  forall m : gmap N SectorBreakdown.t,
    mapCountsOk m ->
    (forall item, In item data -> 0 <= repository.EventCount item) ->
    mapEvents m + sumZ (List.map repository.EventCount data) < 2 ^ 63 ->
    mapEvents (fold_left sectorStep data m)
    = mapEvents m + sumZ (List.map repository.EventCount data).
Proof.
  induction data as [|item data IH]; intros m Hok Hall Hsum;
    cbn [fold_left List.map sumZ fold_right] in *; [lia|].
  pose proof (Hall item (or_introl eq_refl)) as Hitem.
  assert (Hrest : 0 <= sumZ (List.map repository.EventCount data)).
  { apply sumZ_nonneg. intros z Hz. apply in_map_iff in Hz.
    destruct Hz as (x & <- & Hx). apply Hall. right. exact Hx. }
  unfold sumZ in Hrest.
  destruct (sectorStep_events m item Hok Hitem) as [Hstep Hok']; [lia|].
  rewrite IH; [rewrite Hstep; unfold sumZ; lia|exact Hok'| |].
  - intros x Hx. apply Hall. right. exact Hx.
  - rewrite Hstep. unfold sumZ. lia.
Qed.

(** For an unscoped request against a data source that does not change,
    with no negative event count among the fetched buckets and their sum
    within [int], the events of the sector entries add up to the summary's
    total events. *)
Theorem sector_events_add_up {DB : Type}
  (AddDate : time.Time -> Z -> Z -> Z -> time.Time)
  (repo : repository.IrrigationRepository DB) (range : MapRange)
  (farmID : N) (startDate endDate : time.Time) (aggregation : string)
  (db : DB) (response : AnalyticsResponse.t) :
  unchanged repo -> MapRange_ok range ->
  fst (GetIrrigationAnalytics AddDate repo range farmID None startDate endDate
         aggregation db) = (Some response, None) ->
  let counts :=
    List.map AggregatedDataPoint.EventCount (AnalyticsResponse.Data response) in
  (forall count, In count counts -> 0 <= count) ->
  sumZ counts < 2 ^ 63 ->
  sumZ (List.map SectorBreakdown.TotalEvents
          (AnalyticsResponse.SectorBreakdown response))
  = AnalyticsSummary.TotalEvents (AnalyticsResponse.Summary response)
  /\ AnalyticsSummary.TotalEvents (AnalyticsResponse.Summary response)
     = sumZ counts.
Proof.
  intros Hsame Hrange. run_request. same_answers Hsame.
  match goal with
  | H : repository.GetAggregatedData _ _ _ _ _ _ db = (?l, ?o, _) |- _ =>
      destruct o as [e|]; [discriminate|]; rename l into rows
  end.
  recall_fetches. intros [= <-]. cbn zeta.
  cbn [AnalyticsResponse.Data AnalyticsResponse.Summary
         AnalyticsResponse.SectorBreakdown].
  unfold processDataPoints. rewrite List.map_map.
  rewrite (List.map_ext _ repository.EventCount) by reflexivity.
  intros Hall Hsum.
  assert (Hall' : forall item, In item rows -> 0 <= repository.EventCount item).
  { intros item Hitem. apply Hall. apply in_map_iff. eauto. }
  destruct (summary_totals rows) as (-> & _).
  rewrite (fold_int_add_sumZ _ 0); [|lia|exact Hall|lia].
  split; [|lia].
  rewrite List.map_map. cbn [sectorFinish SectorBreakdown.TotalEvents].
  rewrite (sumZ_Permutation _ _ (Permutation_map _ (Hrange _))).
  fold (mapEvents (fold_left sectorStep rows ∅)).
  rewrite sectorMap_events.
  - unfold mapEvents. rewrite (map_to_list_empty (M:=gmap N)).
    cbn [List.map sumZ fold_right]. lia.
  - intros k v Hk. rewrite lookup_empty in Hk. discriminate.
  - exact Hall'.
  - unfold mapEvents. rewrite (map_to_list_empty (M:=gmap N)).
    cbn [List.map sumZ fold_right]. lia.
Qed.

(** On the sample window: five events in sector 1 and one in sector 2 make
    the six events of the summary. *)
Lemma sector_events_add_up_witness :
  exists response,
    fst (GetIrrigationAnalytics sampleAddDate steadyRepo rangeDescending 1
           None 400 430 "daily" tt) = (Some response, None)
    /\ sumZ (List.map SectorBreakdown.TotalEvents
               (AnalyticsResponse.SectorBreakdown response))
       = AnalyticsSummary.TotalEvents (AnalyticsResponse.Summary response).
Proof.
  eexists. split; [vm_compute; reflexivity|].
  edestruct (sector_events_add_up sampleAddDate steadyRepo rangeDescending 1
               400 430 "daily" tt) as [Hsum _].
  - exact steadyRepo_unchanged.
  - exact rangeDescending_ok.
  - vm_compute. reflexivity.
  - intros count Hin. vm_compute in Hin.
    destruct Hin as [<-|[<-|[<-|[]]]]; lia.
  - vm_compute. reflexivity.
  - exact Hsum.
Defined.

(** * Request metrics *)

Lemma endpointTotal_insert_new (m : gmap string Z) (endpoint : string) (v : Z) :
  m !! endpoint = None -> endpointTotal (<[endpoint := v]> m) = v + endpointTotal m.
Proof.
  intros Hnew. unfold endpointTotal.
  rewrite (sumZ_Permutation _ _
             (Permutation_map _ (map_to_list_insert m endpoint v Hnew))).
  reflexivity.
Qed.

Lemma endpointTotal_insert_old (m : gmap string Z) (endpoint : string)
  (old v : Z) :
  m !! endpoint = Some old ->
  endpointTotal (<[endpoint := v]> m) = endpointTotal m - old + v.
Proof.
  intros Hold. rewrite <- insert_delete_eq.
  rewrite endpointTotal_insert_new by apply lookup_delete_eq.
  unfold endpointTotal at 2.
  rewrite <- (sumZ_Permutation _ _
                (Permutation_map _ (map_to_list_delete m endpoint old Hold))).
  cbn [List.map snd sumZ fold_right]. unfold endpointTotal, sumZ. lia.
Qed.

Lemma hits_snoc (endpoint : string) (requests : list (string * string))
  (method path : string) :
  hits endpoint (requests ++ [(method, path)])
  = hits endpoint requests
    + (if String.eqb (method ++ " " ++ path) endpoint then 1 else 0).
Proof.
  unfold hits, len. rewrite List.filter_app, List.length_app.
  cbn [List.filter fst snd].
  destruct (String.eqb (method ++ " " ++ path) endpoint); cbn [List.length]; lia.
Qed.

Lemma hits_bounds (endpoint : string) (requests : list (string * string)) :
  0 <= hits endpoint requests <= len requests.
Proof.
  unfold hits, len. pose proof (List.filter_length_le
    (fun request => String.eqb (fst request ++ " " ++ snd request) endpoint)
    requests). lia.
Qed.

(** The counters after any sequence of fewer than [2^64] served requests,
    from the initial state: the total is the number of requests, every
    endpoint's counter is the number of requests that hit it (and an
    endpoint never hit has no entry), and the per-endpoint counters add up
    to the total. *)
Theorem metrics_count_requests (requests : list (string * string)) :
  len requests < 2 ^ 64 ->
  let final := middleware.serve requests middleware.metrics in
  middleware.TotalRequests final = len requests
  /\ (forall endpoint,
        middleware.RequestsByEndpoint final !! endpoint
        = if hits endpoint requests =? 0 then None
          else Some (hits endpoint requests))
  /\ endpointTotal (middleware.RequestsByEndpoint final)
     = middleware.TotalRequests final.
Proof.
  induction requests as [|[method path] requests IH] using rev_ind;
    intros Hlen; cbn zeta.
  - cbn. split; [reflexivity|]. split; [|reflexivity].
    intros endpoint. apply lookup_empty.
  - unfold middleware.serve. rewrite fold_left_app. cbn [fold_left fst snd].
    fold (middleware.serve requests middleware.metrics).
    assert (Hsnoc : len (requests ++ [(method, path)]) = len requests + 1)
      by (unfold len; rewrite List.length_app; cbn [List.length]; lia).
    rewrite Hsnoc in *. pose proof (len_nonneg requests) as Hn.
    destruct IH as (Htotal & Hcount & Hsum); [lia|].
    set (state := middleware.serve requests middleware.metrics) in *.
    set (endpoint := (method ++ " " ++ path)%string).
    pose proof (hits_bounds endpoint requests) as Hb.
    assert (Hnew : (default 0 (middleware.RequestsByEndpoint state !! endpoint)
                    + 1) mod 2 ^ 64 = hits endpoint requests + 1).
    { rewrite Hcount. destruct (Z.eqb_spec (hits endpoint requests) 0) as [->|_];
        unfold default; cbn [from_option id]; rewrite Z.mod_small; lia. }
    cbn [middleware.recordRequest middleware.TotalRequests
           middleware.RequestsByEndpoint].
    fold endpoint. rewrite Hnew, Htotal, Z.mod_small by lia.
    split; [reflexivity|]. split.
    + intros other. rewrite hits_snoc. fold endpoint.
      destruct (String.eqb_spec endpoint other) as [<-|Hne].
      * rewrite lookup_insert_eq.
        destruct (Z.eqb_spec (hits endpoint requests + 1) 0); [lia|reflexivity].
      * rewrite lookup_insert_ne by exact Hne. rewrite Z.add_0_r. apply Hcount.
    + pose proof (Hcount endpoint) as He.
      destruct (Z.eqb_spec (hits endpoint requests) 0) as [Hz|Hz].
      * rewrite endpointTotal_insert_new by exact He. lia.
      * rewrite (endpointTotal_insert_old _ _ _ _ He). lia.
Qed.

(** Three requests, two of them to the same endpoint. *)
Lemma metrics_count_requests_witness :
  let final :=
    middleware.serve
      [("GET", "/metrics"); ("GET", "/health"); ("GET", "/metrics")]%string
      middleware.metrics in
  middleware.TotalRequests final = 3
  /\ middleware.RequestsByEndpoint final !! "GET /metrics"%string = Some 2
  /\ middleware.RequestsByEndpoint final !! "POST /metrics"%string = None.
Proof.
  destruct (metrics_count_requests
              [("GET", "/metrics"); ("GET", "/health"); ("GET", "/metrics")]%string)
    as (Htotal & Hcount & _).
  - vm_compute. reflexivity.
  - cbn zeta. split; [exact Htotal|]. split.
    + rewrite Hcount. reflexivity.
    + rewrite Hcount. reflexivity.
Defined.

Lemma copy_loop_lookup (entries : list (string * Z)) :
  forall (dst : gmap string Z) (endpoint : string) (v : Z),
    List.NoDup (List.map fst entries) ->
    fold_left (fun dst entry => <[fst entry := snd entry]> dst) entries dst
      !! endpoint = Some v
    <-> In (endpoint, v) entries
        \/ (~ In endpoint (List.map fst entries) /\ dst !! endpoint = Some v).
Proof.
  induction entries as [|[k x] entries IH]; intros dst endpoint v Hnodup;
    cbn [fold_left List.map fst snd In].
  - tauto.
  - inversion Hnodup as [|? ? Hk Hrest]; subst.
    rewrite (IH _ _ _ Hrest). split.
    + intros [Hin|[Hnot Hlookup]]; [tauto|].
      apply lookup_insert_Some in Hlookup.
      destruct Hlookup as [[<- <-]|[Hne Hlookup]]; [tauto|].
      right. split; [|exact Hlookup]. intros [Heq|Hin]; [congruence|tauto].
    + intros [[Heq|Hin]|[Hnot Hlookup]].
      * injection Heq as <- <-. right. split; [exact Hk|].
        apply lookup_insert_eq.
      * tauto.
      * right. split; [tauto|]. rewrite lookup_insert_ne by tauto.
        exact Hlookup.
Qed.

(** [copyMap] returns a map with exactly the entries of its argument,
    whatever order the runtime ranges over it in; so [GetMetrics] hands out
    the counters as they are at the time of the call. *)
Theorem copyMap_copies (range : middleware.EndpointRange)
  (current : middleware.RequestMetrics) :
  middleware.EndpointRange_ok range ->
  middleware.copyMap range (middleware.RequestsByEndpoint current)
  = middleware.RequestsByEndpoint current
  /\ middleware.GetMetrics range current = current.
Proof.
  intros Hrange.
  assert (Hcopy : forall src : gmap string Z, middleware.copyMap range src = src).
  { intros src. apply map_eq. intros endpoint. apply option_eq. intros v.
    unfold middleware.copyMap. rewrite copy_loop_lookup.
    - rewrite lookup_empty. split.
      + intros [Hin|[_ Hno]]; [|discriminate].
        apply (Permutation_in _ (Hrange _)) in Hin.
        apply list_elem_of_In, elem_of_map_to_list in Hin. exact Hin.
      + intros Hlookup. left.
        apply (Permutation_in _ (Permutation_sym (Hrange _))).
        apply list_elem_of_In, elem_of_map_to_list. exact Hlookup.
    - apply NoDup_ListNoDup. rewrite (Hrange _).
      apply (NoDup_fst_map_to_list (M:=gmap string)). }
  split; [apply Hcopy|].
  unfold middleware.GetMetrics. rewrite Hcopy. destruct current; reflexivity.
Qed.

(** A snapshot taken after three requests, the map ranged over backwards. *)
Lemma copyMap_copies_witness :
  middleware.GetMetrics (fun m => List.rev (map_to_list m))
    (middleware.serve
       [("GET", "/metrics"); ("GET", "/health"); ("GET", "/metrics")]%string
       middleware.metrics)
  = middleware.serve
      [("GET", "/metrics"); ("GET", "/health"); ("GET", "/metrics")]%string
      middleware.metrics.
Proof.
  apply copyMap_copies. intros m. symmetry. apply Permutation_rev.
Defined.

(** * The repository *)

(** [GetYearOverYearData] is [GetAggregatedData] on the window shifted back
    by [yearsBack] calendar years: the same statement text, the same bound
    arguments but for the two shifted instants, the same treatment of the
    answer. *)
Theorem GetYearOverYearData_shifts_window {DB : Type}
  (conn : irrigationRepository.Conn DB)
  (AddDate : time.Time -> Z -> Z -> Z -> time.Time)
  (farmID : N) (sectorID : option N) (startDate endDate : time.Time)
  (aggregation : string) (yearsBack : Z) (db : DB) :
  irrigationRepository.GetYearOverYearData conn AddDate farmID sectorID
    startDate endDate aggregation yearsBack db
  = irrigationRepository.GetAggregatedData conn farmID sectorID
      (AddDate startDate (Go.wrap (- yearsBack)) 0 0)
      (AddDate endDate (Go.wrap (- yearsBack)) 0 0) aggregation db.
Proof.
  unfold irrigationRepository.GetYearOverYearData,
    irrigationRepository.GetAggregatedData.
  destruct sectorID; reflexivity.
Qed.

(** Normalise the statement texts of the goal. *)
Ltac read_statements conn db :=
  repeat match goal with
    | |- context [irrigationRepository.Raw conn ?sql _ db] =>
        progress (let text := eval vm_compute in sql in change sql with text)
    end.

(** The statements are parameterised.  The text sent to the database
    depends only on the normalised aggregation level and on whether a
    sector is given, so an unknown level runs the daily statement; the
    farm, the two instants and the sector travel as bound arguments, one
    for each placeholder, and the aggregation string is never part of the
    text.  A failed statement yields the error and no rows; a successful
    one yields its rows converted in order. *)
Theorem queries_are_parameterised {DB : Type}
  (conn : irrigationRepository.Conn DB) (farmID : N) (sectorID : option N)
  (startDate endDate : time.Time) (aggregation : string) (db : DB) :
  let text :=
    statementText (validateAggregation aggregation) (negb (isNil sectorID)) in
  let args := queryArgs farmID sectorID startDate endDate in
  let sent := irrigationRepository.Raw conn text args db in
  irrigationRepository.GetAggregatedData conn farmID sectorID startDate
    endDate aggregation db
  = (answerOf (fst sent), snd sent)
  /\ placeholders text = List.length args.
Proof.
  cbn zeta.
  unfold irrigationRepository.GetAggregatedData, validateAggregation, queryArgs,
    answerOf.
  destruct (String.eqb_spec aggregation "") as [->|_];
    [|destruct (String.eqb_spec aggregation "daily") as [->|_];
      [|destruct (String.eqb_spec aggregation "weekly") as [->|_];
        [|destruct (String.eqb_spec aggregation "monthly") as [->|_]]]];
    destruct sectorID as [sector|];
    cbn [isNil negb andb app];
    (split; [|vm_compute; reflexivity]);
    read_statements conn db;
    destruct (irrigationRepository.Raw conn _ _ db) as [[rows [e|]] db'];
    reflexivity.
Qed.

(** On the sample table: an unknown level for farm 1, sector 2, sends the
    daily statement with four bound arguments. *)
Lemma queries_are_parameterised_witness :
  irrigationRepository.GetAggregatedData (sampleConn sampleTable) 1
    (Some 2%N) 400 430 "hourly" tt
  = (answerOf
       (fst (irrigationRepository.Raw (sampleConn sampleTable)
               (statementText "daily" true) (queryArgs 1 (Some 2%N) 400 430)
               tt)),
     tt)
  /\ placeholders (statementText "daily" true) = 4%nat.
Proof.
  exact (queries_are_parameterised (sampleConn sampleTable) 1 (Some 2%N) 400
           430 "hourly" tt).
Defined.

Lemma GetAggregatedData_stable {DB : Type}
  (conn : irrigationRepository.Conn DB) :
  stableConn conn ->
  forall farmID sectorID startDate endDate aggregation db db',
    fst (irrigationRepository.GetAggregatedData conn farmID sectorID startDate
           endDate aggregation db)
    = fst (irrigationRepository.GetAggregatedData conn farmID sectorID
             startDate endDate aggregation db').
Proof.
  intros Hstable farmID sectorID startDate endDate aggregation db db'.
  unfold irrigationRepository.GetAggregatedData.
  destruct sectorID;
    match goal with
    | |- context [irrigationRepository.Raw conn ?sql ?args db] =>
        pose proof (Hstable sql args db db') as Hsame;
        destruct (irrigationRepository.Raw conn sql args db) as [[r1 e1] d1];
        destruct (irrigationRepository.Raw conn sql args db') as [[r2 e2] d2]
    end;
    cbn [fst] in Hsame; injection Hsame as -> ->; destruct e2; reflexivity.
Qed.

(** Over a database whose content does not change, the repository is a
    data source that does not change. *)
Lemma NewIrrigationRepository_unchanged {DB : Type}
  (conn : irrigationRepository.Conn DB)
  (AddDate : time.Time -> Z -> Z -> Z -> time.Time) :
  stableConn conn ->
  unchanged (irrigationRepository.NewIrrigationRepository conn AddDate).
Proof.
  intros Hstable. split; intros; cbn [repository.GetAggregatedData
    repository.GetYearOverYearData
    irrigationRepository.NewIrrigationRepository].
  - apply (GetAggregatedData_stable conn Hstable).
  - rewrite !GetYearOverYearData_shifts_window.
    apply (GetAggregatedData_stable conn Hstable).
Qed.

(** What a successful request did: the current-window fetch gave rows and
    no error, the response reports those rows, and the two entries of the
    comparison come from the two historical fetches that followed. *)
Lemma request_runs {DB : Type}
  (AddDate : time.Time -> Z -> Z -> Z -> time.Time)
  (repo : repository.IrrigationRepository DB) (range : MapRange)
  (farmID : N) (sectorID : option N) (startDate endDate : time.Time)
  (aggregation : string) (db : DB) (response : AnalyticsResponse.t) :
  fst (GetIrrigationAnalytics AddDate repo range farmID sectorID startDate
         endDate aggregation db) = (Some response, None) ->
  let level := validateAggregation aggregation in
  exists rows db1 rows1 err1 db2 rows2 err2 db3,
    repository.GetAggregatedData repo farmID sectorID startDate endDate level
      db = (rows, None, db1)
    /\ repository.GetYearOverYearData repo farmID sectorID startDate endDate
         level 1 db1 = (rows1, err1, db2)
    /\ repository.GetYearOverYearData repo farmID sectorID startDate endDate
         level 2 db2 = (rows2, err2, db3)
    /\ AnalyticsResponse.Period response
       = {| PeriodInfo.StartDate := startDate; PeriodInfo.EndDate := endDate |}
    /\ AnalyticsResponse.Aggregation response = level
    /\ AnalyticsResponse.Data response = processDataPoints rows level
    /\ AnalyticsResponse.Summary response = calculateSummary rows
    /\ PeriodComparison.OneYearAgo
         (AnalyticsResponse.PeriodComparison response)
       = (if isNil err1 && (0 <? len rows1)
          then Some (periodMetricsOf (AddDate startDate (-1) 0 0)
                       (AddDate endDate (-1) 0 0) (calculateSummary rows) rows1)
          else None)
    /\ PeriodComparison.TwoYearsAgo
         (AnalyticsResponse.PeriodComparison response)
       = (if isNil err2 && (0 <? len rows2)
          then Some (periodMetricsOf (AddDate startDate (-2) 0 0)
                       (AddDate endDate (-2) 0 0) (calculateSummary rows) rows2)
          else None).
Proof.
  cbn zeta. destruct sectorID; run_request.
  - destruct o as [e|]; [discriminate|]. intros [= <-].
    repeat eexists; eassumption.
  - destruct o as [e|]; [discriminate|].
    destruct o2; recall_fetches; intros [= <-]; repeat eexists; eassumption.
Qed.

(** A comparison entry is the summary of the shifted request.  Over a
    database whose content does not change, take a successful request and a
    successful request for its window shifted back by one or two years:
    the first one's entry for that offset is present exactly when the
    second has a data point, and then its period is the second's period and
    its volume, events and average efficiency are the second's summary
    figures. *)
Theorem history_is_shifted_request {DB : Type}
  (conn : irrigationRepository.Conn DB)
  (AddDate : time.Time -> Z -> Z -> Z -> time.Time)
  (range range' : MapRange) (farmID : N) (sectorID : option N)
  (startDate endDate : time.Time) (aggregation : string) (yearsBack : Z)
  (db db' : DB) (response shifted : AnalyticsResponse.t) :
  stableConn conn ->
  yearsBack = 1 \/ yearsBack = 2 ->
  let repo := irrigationRepository.NewIrrigationRepository conn AddDate in
  fst (GetIrrigationAnalytics AddDate repo range farmID sectorID startDate
         endDate aggregation db) = (Some response, None) ->
  fst (GetIrrigationAnalytics AddDate repo range' farmID sectorID
         (AddDate startDate (- yearsBack) 0 0)
         (AddDate endDate (- yearsBack) 0 0) aggregation db')
  = (Some shifted, None) ->
  match
    (if yearsBack =? 1
     then PeriodComparison.OneYearAgo
            (AnalyticsResponse.PeriodComparison response)
     else PeriodComparison.TwoYearsAgo
            (AnalyticsResponse.PeriodComparison response))
  with
  | Some entry =>
      AnalyticsResponse.Data shifted <> []
      /\ PeriodMetrics.Period entry = AnalyticsResponse.Period shifted
      /\ PeriodMetrics.TotalWaterVolume entry
         = AnalyticsSummary.TotalWaterVolume (AnalyticsResponse.Summary shifted)
      /\ PeriodMetrics.TotalEvents entry
         = AnalyticsSummary.TotalEvents (AnalyticsResponse.Summary shifted)
      /\ PeriodMetrics.AverageEfficiency entry
         = AnalyticsSummary.AverageEfficiency
             (AnalyticsResponse.Summary shifted)
  | None => AnalyticsResponse.Data shifted = []
  end.
Proof.
  intros Hstable Hyears repo Hfirst Hsecond.
  assert (Hshift : forall d d',
             fst (repository.GetYearOverYearData repo farmID sectorID
                    startDate endDate (validateAggregation aggregation)
                    yearsBack d)
             = fst (repository.GetAggregatedData repo farmID sectorID
                      (AddDate startDate (- yearsBack) 0 0)
                      (AddDate endDate (- yearsBack) 0 0)
                      (validateAggregation aggregation) d')).
  { intros d d'. subst repo.
    cbn [repository.GetAggregatedData repository.GetYearOverYearData
           irrigationRepository.NewIrrigationRepository].
    rewrite GetYearOverYearData_shifts_window.
    replace (Go.wrap (- yearsBack)) with (- yearsBack)
      by (destruct Hyears as [->| ->]; reflexivity).
    apply (GetAggregatedData_stable conn Hstable). }
  clearbody repo.
  apply request_runs in Hfirst. apply request_runs in Hsecond.
  cbn zeta in Hfirst, Hsecond.
  destruct Hfirst as (rows & db1 & rows1 & err1 & db2 & rows2 & err2 & db3
                      & _ & Hone & Htwo & _ & _ & _ & _ & Hentry1 & Hentry2).
  destruct Hsecond as (past & dbs & _ & _ & _ & _ & _ & _
                       & Hpast & _ & _ & Hperiod & _ & Hdata & Hsummary & _).
  assert (Hcase : forall rowsN errN dbN dbM (entry : option PeriodMetrics.t),
             repository.GetYearOverYearData repo farmID sectorID startDate
               endDate (validateAggregation aggregation) yearsBack dbN
             = (rowsN, errN, dbM) ->
             entry
             = (if isNil errN && (0 <? len rowsN)
                then Some (periodMetricsOf (AddDate startDate (- yearsBack) 0 0)
                             (AddDate endDate (- yearsBack) 0 0)
                             (calculateSummary rows) rowsN)
                else None) ->
             match entry with
             | Some entry =>
                 AnalyticsResponse.Data shifted <> []
                 /\ PeriodMetrics.Period entry = AnalyticsResponse.Period shifted
                 /\ PeriodMetrics.TotalWaterVolume entry
                    = AnalyticsSummary.TotalWaterVolume
                        (AnalyticsResponse.Summary shifted)
                 /\ PeriodMetrics.TotalEvents entry
                    = AnalyticsSummary.TotalEvents
                        (AnalyticsResponse.Summary shifted)
                 /\ PeriodMetrics.AverageEfficiency entry
                    = AnalyticsSummary.AverageEfficiency
                        (AnalyticsResponse.Summary shifted)
             | None => AnalyticsResponse.Data shifted = []
             end).
  { intros rowsN errN dbN dbM entry Hfetch ->.
    pose proof (Hshift dbN db') as Heq. rewrite Hfetch, Hpast in Heq.
    cbn [fst] in Heq. injection Heq as -> ->. cbn [isNil andb].
    rewrite Hdata, Hsummary, Hperiod. unfold processDataPoints.
    destruct past as [|row past]; [reflexivity|].
    replace (0 <? len (row :: past)) with true.
    - cbn [periodMetricsOf PeriodMetrics.Period PeriodMetrics.TotalWaterVolume
             PeriodMetrics.TotalEvents PeriodMetrics.AverageEfficiency].
      repeat split. discriminate.
    - symmetry. apply Z.ltb_lt. rewrite len_cons.
      pose proof (len_nonneg past). lia. }
  destruct Hyears as [-> | ->]; cbn [Z.eqb Pos.eqb].
  - exact (Hcase _ _ _ _ _ Hone Hentry1).
  - exact (Hcase _ _ _ _ _ Htwo Hentry2).
Qed.

Lemma sampleConn_stable (table : list irrigationRepository.AggregatedResult) :
  stableConn (sampleConn table).
Proof. intros sql args db db'. reflexivity. Qed.

(** On the sample table the window [400, 430) has one event a year back, at
    instant 45: the one-year entry of the request is the summary of the
    request for [35, 65). *)
Lemma history_is_shifted_request_witness :
  match
    fst (GetIrrigationAnalytics sampleAddDate
           (irrigationRepository.NewIrrigationRepository
              (sampleConn sampleTable) sampleAddDate)
           rangeAscending 1 None 400 430 "daily" tt),
    fst (GetIrrigationAnalytics sampleAddDate
           (irrigationRepository.NewIrrigationRepository
              (sampleConn sampleTable) sampleAddDate)
           rangeDescending 1 None 35 65 "daily" tt)
  with
  | (Some response, None), (Some shifted, None) =>
      match
        PeriodComparison.OneYearAgo
          (AnalyticsResponse.PeriodComparison response)
      with
      | Some entry =>
          PeriodMetrics.Period entry = AnalyticsResponse.Period shifted
          /\ PeriodMetrics.TotalWaterVolume entry
             = AnalyticsSummary.TotalWaterVolume
                 (AnalyticsResponse.Summary shifted)
      | None => False
      end
  | _, _ => False
  end.
Proof.
  destruct (fst (GetIrrigationAnalytics sampleAddDate _ rangeAscending 1 None
                   400 430 "daily" tt)) as [[response|] [e|]] eqn:Hfirst;
    try (vm_compute in Hfirst; discriminate Hfirst).
  destruct (fst (GetIrrigationAnalytics sampleAddDate _ rangeDescending 1 None
                   35 65 "daily" tt)) as [[shifted|] [e|]] eqn:Hsecond;
    try (vm_compute in Hsecond; discriminate Hsecond).
  pose proof (history_is_shifted_request (sampleConn sampleTable)
                sampleAddDate rangeAscending rangeDescending 1 None 400 430
                "daily" 1 tt tt response shifted (sampleConn_stable sampleTable)
                (or_introl eq_refl) Hfirst Hsecond) as Hlaw.
  cbn [Z.eqb Pos.eqb] in Hlaw.
  vm_compute in Hfirst. injection Hfirst as <-.
  cbn [AnalyticsResponse.PeriodComparison PeriodComparison.OneYearAgo]
    in Hlaw |- *.
  destruct Hlaw as (_ & Hperiod & Hvolume & _).
  split; [exact Hperiod|exact Hvolume].
Defined.

(** ** The HTTP controller *)

Lemma digits_nonneg (s : string) :
  forall acc n, strconv.digits s acc = Some n -> 0 <= acc -> 0 <= n.
Proof.
  induction s as [|c rest IH]; intros acc n; cbn.
  - intros [= <-]. auto.
  - destruct (_ && _) eqn:Hc; [|discriminate].
    intros Hd Hacc. apply (IH _ _ Hd).
    apply andb_true_iff in Hc as [Hlo Hhi]. lia.
Qed.

(** An accepted number is what its digits say, and fits 32 bits. *)
Lemma ParseUint32_accepts (s : string) (n : Z) :
  strconv.ParseUint32 s = (n, None) ->
  s <> EmptyString /\ strconv.digits s 0 = Some n /\ 0 <= n < 2 ^ 32.
Proof.
  unfold strconv.ParseUint32. destruct s as [|c rest]; [discriminate|].
  destruct (strconv.digits (String c rest) 0) as [m|] eqn:Hd; [|discriminate].
  destruct (m <=? 2 ^ 32 - 1) eqn:Hm; [|discriminate].
  intros [= <-]. split; [discriminate|]. split; [reflexivity|].
  apply digits_nonneg in Hd; lia.
Qed.

(** One step of reading the handler: name the result of the next parse or
    comparison the goal branches on. *)
Ltac handler_step :=
  match goal with
  | |- context [strconv.ParseUint32 ?s] =>
      let n := fresh "n" in let e := fresh "e" in let H := fresh "Hparse" in
      destruct (strconv.ParseUint32 s) as [n [e|]] eqn:H
  | |- context [controller.parseISO8601Date ?p ?d ?s] =>
      let t := fresh "t" in let H := fresh "Hdate" in
      destruct (controller.parseISO8601Date p d s) as [t|] eqn:H
  | |- context [String.eqb ?a ?b] =>
      let H := fresh "Hstr" in destruct (String.eqb a b) eqn:H
  | |- context [Z.ltb ?a ?b] =>
      let H := fresh "Hlt" in destruct (Z.ltb a b) eqn:H
  end; cbn [isNil negb andb orb fst snd].

(** A request that fails a check is answered 400 on the spot. *)
Lemma handler_refuses {DB : Type}
  (Parse : string -> string -> option time.Time)
  (startOfDayUTC : time.Time -> time.Time)
  (analyticsService : service.AnalyticsService DB)
  (ctx : gin.Context) (db : DB) :
  validRequest Parse startOfDayUTC ctx = false ->
  exists error message,
    controller.GetIrrigationAnalytics Parse startOfDayUTC analyticsService
      ctx db
    = (Some {| gin.Status := 400; gin.Payload := gin.H error message |}, db).
Proof.
  unfold controller.GetIrrigationAnalytics, validRequest,
    controller.badRequest.
  repeat handler_step; try discriminate; intros _; eauto.
Qed.

(** What a request that passed the checks was read as. *)
Lemma valid_request_reading
  (Parse : string -> string -> option time.Time)
  (startOfDayUTC : time.Time -> time.Time) (ctx : gin.Context) :
  validRequest Parse startOfDayUTC ctx = true ->
  exists startDate endDate,
    controller.parseISO8601Date Parse startOfDayUTC
      (gin.Query ctx "start_date") = Some startDate
    /\ controller.parseISO8601Date Parse startOfDayUTC
         (gin.Query ctx "end_date") = Some endDate
    /\ startDate <= endDate
    /\ strconv.digits (gin.Param ctx "farm_id") 0 = Some (Z.of_N (farmOf ctx))
    /\ (levelOf ctx = "daily" \/ levelOf ctx = "weekly"
        \/ levelOf ctx = "monthly")%string
    /\ forall (DB : Type) (analyticsService : service.AnalyticsService DB)
         (db : DB),
         controller.GetIrrigationAnalytics Parse startOfDayUTC
           analyticsService ctx db
         = let '((farmExists, err), db) :=
             service.FarmExists analyticsService (farmOf ctx) db in
           match err with
           | Some _ =>
               (Some {| gin.Status := 500;
                        gin.Payload :=
                          gin.H "Internal server error"
                            "Failed to verify farm existence" |}, db)
           | None =>
               if farmExists then
                 let '((analytics, err), db) :=
                   service.GetIrrigationAnalytics analyticsService
                     (farmOf ctx) (sectorOf ctx) startDate endDate
                     (levelOf ctx) db in
                 match err, analytics with
                 | Some _, _ =>
                     (Some {| gin.Status := 500;
                              gin.Payload :=
                                gin.H "Internal server error"
                                  "Failed to retrieve analytics data" |}, db)
                 | None, Some response =>
                     (Some {| gin.Status := 200;
                              gin.Payload := gin.Analytics response |}, db)
                 | None, None => (None, db)
                 end
               else
                 (Some {| gin.Status := 404;
                          gin.Payload :=
                            gin.H "Farm not found"
                              ("Farm with ID "
                               ++ NilZero.string_of_uint
                                    (N.to_uint (farmOf ctx))
                               ++ " does not exist") |}, db)
           end.
Proof.
  unfold validRequest, farmOf, sectorOf, levelOf.
  destruct (strconv.ParseUint32 (gin.Param ctx "farm_id")) as [n [e|]]
    eqn:Hfarm; cbn [isNil andb fst snd]; [discriminate|].
  apply ParseUint32_accepts in Hfarm as Hn. destruct Hn as (_ & Hdigits & Hn).
  destruct (controller.parseISO8601Date Parse startOfDayUTC
              (gin.Query ctx "start_date")) as [startDate|] eqn:Hstart;
    [|rewrite andb_false_r; discriminate].
  destruct (controller.parseISO8601Date Parse startOfDayUTC
              (gin.Query ctx "end_date")) as [endDate|] eqn:Hend;
    [|rewrite andb_false_r; discriminate].
  intros Hvalid.
  apply andb_true_iff in Hvalid as [Hvalid Hlevel].
  apply andb_true_iff in Hvalid as [Hsector Hvalid].
  apply andb_true_iff in Hvalid as [Hvalid Horder].
  apply andb_true_iff in Hvalid as [Hs He].
  apply negb_true_iff in Hs, He, Horder. apply Z.ltb_ge in Horder.
  exists startDate, endDate. split; [reflexivity|]. split; [reflexivity|].
  split; [exact Horder|]. split; [rewrite Z2N.id by lia; exact Hdigits|].
  split.
  { apply orb_true_iff in Hlevel as [Hlevel|Hlevel];
      [apply orb_true_iff in Hlevel as [Hlevel|Hlevel]|];
      apply String.eqb_eq in Hlevel; auto. }
  intros DB analyticsService db.
  unfold controller.GetIrrigationAnalytics.
  rewrite Hfarm, Hstart, Hend, Hs, He. cbn [isNil negb fst snd].
  assert ((endDate <? startDate) = false) as -> by (apply Z.ltb_ge; exact Horder).
  assert (negb (gin.DefaultQuery ctx "aggregation" "daily" =? "daily")%string
          && negb (gin.DefaultQuery ctx "aggregation" "daily" =? "weekly")%string
          && negb (gin.DefaultQuery ctx "aggregation" "daily" =? "monthly")%string
          = false) as ->.
  { rewrite <- !negb_orb. rewrite Hlevel. reflexivity. }
  destruct (gin.Query ctx "sector_id" =? "")%string eqn:Hempty;
    cbn [negb isNil orb] in Hsector |- *.
  - destruct (service.FarmExists analyticsService (Z.to_N n) db)
      as [[[|] [e1|]] db1]; reflexivity.
  - destruct (strconv.ParseUint32 (gin.Query ctx "sector_id")) as [sid [e|]];
      [discriminate|]. cbn [isNil negb fst].
    destruct (service.FarmExists analyticsService (Z.to_N n) db)
      as [[[|] [e1|]] db1]; reflexivity.
Qed.

(** The handler answers 400 exactly to the requests that fail one of its
    checks, and answers those without asking the service anything: the
    data source is left as it was. *)
Theorem invalid_requests_are_refused {DB : Type}
  (Parse : string -> string -> option time.Time)
  (startOfDayUTC : time.Time -> time.Time)
  (analyticsService : service.AnalyticsService DB)
  (ctx : gin.Context) (db : DB) :
  let out :=
    controller.GetIrrigationAnalytics Parse startOfDayUTC analyticsService
      ctx db in
  (validRequest Parse startOfDayUTC ctx = false ->
   exists error message,
     out = (Some {| gin.Status := 400;
                    gin.Payload := gin.H error message |}, db))
  /\ (validRequest Parse startOfDayUTC ctx = true ->
      forall r, fst out = Some r -> gin.Status r <> 400).
Proof.
  cbn zeta. split; [apply handler_refuses|].
  intros Hvalid r.
  destruct (valid_request_reading Parse startOfDayUTC ctx Hvalid)
    as (startDate & endDate & _ & _ & _ & _ & _ & Hrun).
  rewrite Hrun.
  destruct (service.FarmExists _ _ _) as [[[|] [e1|]] db1];
    cbn [fst]; try (intros [= <-]; discriminate).
  destruct (service.GetIrrigationAnalytics _ _ _ _ _ _ _)
    as [[[response|] [e2|]] db2];
    cbn [fst]; try discriminate; intros [= <-]; discriminate.
Qed.

(** A request with a sign in its farm id is refused, and nothing is asked
    of the service. *)
Lemma invalid_requests_are_refused_witness :
  validRequest sampleParse (fun t => t)
    (sampleContext "-1" "400" "430" None) = false
  /\ exists error message,
       controller.GetIrrigationAnalytics sampleParse (fun t => t)
         sampleService (sampleContext "-1" "400" "430" None) tt
       = (Some {| gin.Status := 400; gin.Payload := gin.H error message |},
          tt).
Proof.
  split; [vm_compute; reflexivity|].
  apply (proj1 (invalid_requests_are_refused sampleParse (fun t => t)
                  sampleService (sampleContext "-1" "400" "430" None) tt)).
  vm_compute. reflexivity.
Defined.

(** Settle what an outcome says of the two answers of the service. *)
Ltac outcome :=
  repeat split; intros;
  try solve [ discriminate | congruence | intuition (discriminate || congruence)
            | eexists; repeat split
            | left; discriminate
            | right; split; [reflexivity|discriminate] ].

(** What becomes of a request that passed the checks.  The handler asks
    whether the farm exists, and only if it does asks for the analytics, of
    the farm, sector, window and level the request names.  The answer is
    404 exactly when the farm is reported missing, and then the analytics
    were never asked for; it is 200 exactly when both questions were
    answered without error, and then its body is the response of the
    service; any error makes it 500. *)
Theorem valid_requests_are_served {DB : Type}
  (Parse : string -> string -> option time.Time)
  (startOfDayUTC : time.Time -> time.Time)
  (analyticsService : service.AnalyticsService DB)
  (ctx : gin.Context) (db : DB) :
  validRequest Parse startOfDayUTC ctx = true ->
  exists startDate endDate,
    controller.parseISO8601Date Parse startOfDayUTC
      (gin.Query ctx "start_date") = Some startDate
    /\ controller.parseISO8601Date Parse startOfDayUTC
         (gin.Query ctx "end_date") = Some endDate
    /\ forall farmExists err db1 analytics err' db2 r db',
         service.FarmExists analyticsService (farmOf ctx) db
         = ((farmExists, err), db1) ->
         service.GetIrrigationAnalytics analyticsService (farmOf ctx)
           (sectorOf ctx) startDate endDate (levelOf ctx) db1
         = ((analytics, err'), db2) ->
         controller.GetIrrigationAnalytics Parse startOfDayUTC
           analyticsService ctx db = (Some r, db') ->
         (gin.Status r = 404 <-> err = None /\ farmExists = false)
         /\ (gin.Status r = 404 -> db' = db1)
         /\ (gin.Status r = 200
             <-> err = None /\ farmExists = true /\ err' = None)
         /\ (gin.Status r = 200
             -> exists response,
                  analytics = Some response
                  /\ gin.Payload r = gin.Analytics response /\ db' = db2)
         /\ (gin.Status r = 500
             <-> err <> None \/ (farmExists = true /\ err' <> None)).
Proof.
  intros Hvalid.
  destruct (valid_request_reading Parse startOfDayUTC ctx Hvalid)
    as (startDate & endDate & Hstart & Hend & _ & _ & _ & Hrun).
  exists startDate, endDate. split; [exact Hstart|]. split; [exact Hend|].
  intros farmExists err db1 analytics err' db2 r db' Hfarm Hservice.
  rewrite Hrun, Hfarm.
  destruct err as [e|]; [|destruct farmExists].
  - intros [= <- <-]. cbn [gin.Status gin.Payload]. outcome.
  - rewrite Hservice.
    destruct err' as [e|]; [|destruct analytics as [response|]];
      [| |discriminate]; intros [= <- <-]; cbn [gin.Status gin.Payload];
      outcome.
  - intros [= <- <-]. cbn [gin.Status gin.Payload]. outcome.
Qed.

(** A weekly request for farm 1 over [400, 430) is served. *)
Lemma valid_requests_are_served_witness :
  validRequest sampleParse (fun t => t)
    (sampleContext "1" "400" "430" (Some "weekly"%string)) = true
  /\ exists r response,
       controller.GetIrrigationAnalytics sampleParse (fun t => t)
         sampleService (sampleContext "1" "400" "430" (Some "weekly"%string))
         tt = (Some r, tt)
       /\ gin.Status r = 200 /\ gin.Payload r = gin.Analytics response.
Proof.
  split; [vm_compute; reflexivity|].
  destruct (valid_requests_are_served sampleParse (fun t => t) sampleService
              (sampleContext "1" "400" "430" (Some "weekly"%string)) tt)
    as (startDate & endDate & Hstart & Hend & Hlaw);
    [vm_compute; reflexivity|].
  vm_compute in Hstart, Hend.
  injection Hstart as <-. injection Hend as <-.
  destruct (controller.GetIrrigationAnalytics sampleParse (fun t => t)
              sampleService
              (sampleContext "1" "400" "430" (Some "weekly"%string)) tt)
    as [[r|] []] eqn:Hout; [|vm_compute in Hout; discriminate Hout].
  destruct (service.FarmExists sampleService
              (farmOf (sampleContext "1" "400" "430" (Some "weekly"%string)))
              tt) as [[farmExists err] db1] eqn:Hfarm.
  destruct (service.GetIrrigationAnalytics sampleService
              (farmOf (sampleContext "1" "400" "430" (Some "weekly"%string)))
              (sectorOf (sampleContext "1" "400" "430" (Some "weekly"%string)))
              400 430
              (levelOf (sampleContext "1" "400" "430" (Some "weekly"%string)))
              db1) as [[analytics err'] db2] eqn:Hservice.
  destruct (Hlaw _ _ _ _ _ _ _ _ eq_refl Hservice eq_refl)
    as (_ & _ & Hok & Hbody & _).
  vm_compute in Hfarm. injection Hfarm as <- <- <-.
  assert (gin.Status r = 200) as Hstatus.
  { apply Hok. repeat split.
    destruct err' as [e|]; [vm_compute in Hservice; discriminate Hservice|].
    reflexivity. }
  destruct (Hbody Hstatus) as (response & _ & Hpayload & _).
  exists r, response. repeat split; assumption.
Defined.

(** The scope of a successful request's response. *)
Lemma request_scope {DB : Type}
  (AddDate : time.Time -> Z -> Z -> Z -> time.Time)
  (repo : repository.IrrigationRepository DB) (range : MapRange)
  (farmID : N) (sectorID : option N) (startDate endDate : time.Time)
  (aggregation : string) (db : DB) (response : AnalyticsResponse.t) :
  fst (GetIrrigationAnalytics AddDate repo range farmID sectorID startDate
         endDate aggregation db) = (Some response, None) ->
  AnalyticsResponse.FarmID response = farmID
  /\ AnalyticsResponse.SectorID response = sectorID.
Proof.
  destruct sectorID; run_request.
  - destruct o as [e|]; [discriminate|].
    intros [= <-]. cbn. split; reflexivity.
  - destruct o as [e|]; [discriminate|].
    destruct o2; recall_fetches; intros [= <-]; cbn; split; reflexivity.
Qed.

(** Controller, service and repository together: whatever the database
    answers, a body of analytics is only ever sent with status 200, and it
    answers the request that was made.  Its farm is the number written in
    the path, its sector the one of the query (none if the query names
    none), its period the two dates of the query as parsed, the start not
    after the end, and its aggregation the level asked for, [daily] if
    none was, one of the three levels in any case. *)
Theorem served_response_answers_request {DB : Type}
  (conn : irrigationRepository.Conn DB)
  (AddDate : time.Time -> Z -> Z -> Z -> time.Time) (range : MapRange)
  (Parse : string -> string -> option time.Time)
  (startOfDayUTC : time.Time -> time.Time)
  (ctx : gin.Context) (db : DB) (r : gin.Response)
  (response : AnalyticsResponse.t) :
  fst (controller.GetIrrigationAnalytics Parse startOfDayUTC
         (NewAnalyticsService conn AddDate range) ctx db) = Some r ->
  gin.Payload r = gin.Analytics response ->
  gin.Status r = 200
  /\ strconv.digits (gin.Param ctx "farm_id") 0
     = Some (Z.of_N (AnalyticsResponse.FarmID response))
  /\ AnalyticsResponse.SectorID response = sectorOf ctx
  /\ controller.parseISO8601Date Parse startOfDayUTC
       (gin.Query ctx "start_date")
     = Some (PeriodInfo.StartDate (AnalyticsResponse.Period response))
  /\ controller.parseISO8601Date Parse startOfDayUTC
       (gin.Query ctx "end_date")
     = Some (PeriodInfo.EndDate (AnalyticsResponse.Period response))
  /\ PeriodInfo.StartDate (AnalyticsResponse.Period response)
     <= PeriodInfo.EndDate (AnalyticsResponse.Period response)
  /\ AnalyticsResponse.Aggregation response = levelOf ctx
  /\ (AnalyticsResponse.Aggregation response = "daily"
      \/ AnalyticsResponse.Aggregation response = "weekly"
      \/ AnalyticsResponse.Aggregation response = "monthly")%string.
Proof.
  destruct (validRequest Parse startOfDayUTC ctx) eqn:Hvalid.
  2:{ destruct (handler_refuses Parse startOfDayUTC
                  (NewAnalyticsService conn AddDate range) ctx db Hvalid)
        as (error & message & ->).
      intros [= <-]. discriminate. }
  destruct (valid_request_reading Parse startOfDayUTC ctx Hvalid)
    as (startDate & endDate & Hstart & Hend & Horder & Hfarm & Hlevel & Hrun).
  rewrite Hrun.
  destruct (service.FarmExists _ _ _) as [[[|] [e1|]] db1];
    cbn [fst]; try (intros [= <-]; discriminate).
  cbn [NewAnalyticsService service.GetIrrigationAnalytics].
  destruct (GetIrrigationAnalytics AddDate _ range (farmOf ctx) (sectorOf ctx)
              startDate endDate (levelOf ctx) db1)
    as [[[answer|] [e2|]] db2] eqn:Hservice;
    cbn [fst]; try discriminate; try (intros [= <-]; discriminate).
  intros [= <-] [= ->].
  assert (fst (GetIrrigationAnalytics AddDate
                 (irrigationRepository.NewIrrigationRepository conn AddDate)
                 range (farmOf ctx) (sectorOf ctx) startDate endDate
                 (levelOf ctx) db1) = (Some response, None)) as Hran
    by (rewrite Hservice; reflexivity).
  destruct (request_scope _ _ _ _ _ _ _ _ _ _ Hran) as (-> & ->).
  destruct (request_runs _ _ _ _ _ _ _ _ _ _ Hran)
    as (rows & d1 & rows1 & err1 & d2 & rows2 & err2 & d3 & _ & _ & _
        & -> & -> & _).
  assert (validateAggregation (levelOf ctx) = levelOf ctx) as ->
    by (destruct Hlevel as [-> | [-> | ->]]; reflexivity).
  cbn [PeriodInfo.StartDate PeriodInfo.EndDate gin.Status].
  repeat split; assumption.
Qed.

(** The weekly request for farm 1 over [400, 430) again: the response
    says farm 1 and weekly. *)
Lemma served_response_answers_request_witness :
  exists r response,
    fst (controller.GetIrrigationAnalytics sampleParse (fun t => t)
           (NewAnalyticsService (sampleConn sampleTable) sampleAddDate
              rangeAscending)
           (sampleContext "1" "400" "430" (Some "weekly"%string)) tt) = Some r
    /\ gin.Payload r = gin.Analytics response
    /\ gin.Status r = 200
    /\ AnalyticsResponse.FarmID response = 1%N
    /\ AnalyticsResponse.Aggregation response = "weekly"%string.
Proof.
  destruct (fst (controller.GetIrrigationAnalytics sampleParse (fun t => t)
                   (NewAnalyticsService (sampleConn sampleTable) sampleAddDate
                      rangeAscending)
                   (sampleContext "1" "400" "430" (Some "weekly"%string)) tt))
    as [[status [error message|response]]|] eqn:Hout;
    try (vm_compute in Hout; discriminate Hout).
  destruct (served_response_answers_request (sampleConn sampleTable)
              sampleAddDate rangeAscending sampleParse (fun t => t)
              (sampleContext "1" "400" "430" (Some "weekly"%string)) tt
              _ response Hout eq_refl)
    as (Hstatus & Hfarm & _ & _ & _ & _ & Hlevel & _).
  exists {| gin.Status := status; gin.Payload := gin.Analytics response |},
    response.
  split; [reflexivity|]. split; [reflexivity|]. split; [exact Hstatus|].
  split; [|exact Hlevel].
  vm_compute in Hfarm. injection Hfarm as Hfarm.
  apply N2Z.inj. symmetry. exact Hfarm.
Defined.

(** [parseISO8601Date] accepts what one of the five documented layouts
    parses, the first of them in the documented order deciding the value;
    its sixth attempt repeats the first layout and never decides.  So it
    fails exactly when all five layouts fail. *)
Theorem parseISO8601Date_layouts
  (Parse : string -> string -> option time.Time)
  (startOfDayUTC : time.Time -> time.Time) (dateStr : string) :
  controller.parseISO8601Date Parse startOfDayUTC dateStr
  = firstAccepted Parse startOfDayUTC documentedLayouts dateStr
  /\ (controller.parseISO8601Date Parse startOfDayUTC dateStr = None
      <-> forall layout, In layout documentedLayouts ->
                         Parse layout dateStr = None).
Proof.
  assert (controller.parseISO8601Date Parse startOfDayUTC dateStr
          = firstAccepted Parse startOfDayUTC documentedLayouts dateStr)
    as Hfirst.
  { unfold controller.parseISO8601Date, documentedLayouts.
    cbn [firstAccepted].
    change "2006-01-02T15:04:05Z07:00"%string with controller.RFC3339.
    destruct (Parse controller.RFC3339 dateStr); [reflexivity|].
    destruct (Parse controller.RFC3339Nano dateStr); [reflexivity|].
    destruct (Parse "2006-01-02"%string dateStr); [reflexivity|].
    destruct (Parse "2006-01-02T15:04:05"%string dateStr); [reflexivity|].
    destruct (Parse "2006-01-02T15:04:05Z"%string dateStr); reflexivity. }
  split; [exact Hfirst|]. rewrite Hfirst.
  generalize documentedLayouts as layouts.
  induction layouts as [|layout rest IH]; cbn [firstAccepted].
  - split; [intros _ layout []|reflexivity].
  - destruct (Parse layout dateStr) as [t|] eqn:Hparse.
    + split; [discriminate|]. intros Hall.
      rewrite (Hall layout (or_introl eq_refl)) in Hparse. discriminate.
    + rewrite IH. split.
      * intros Hall l [<- | Hin]; auto.
      * intros Hall l Hin. apply Hall. right. exact Hin.
Qed.

(** The farm is looked up before anything else is read.  A request that
    passed the checks counts the rows of the table of farms with the id of
    the path; if the count fails the answer is 500, if it finds no row the
    answer is 404, and in both cases no aggregation statement was run: the
    database is as the count left it.  If it finds a row the answer is
    never 404. *)
Theorem farm_lookup_decides {DB : Type}
  (conn : irrigationRepository.Conn DB)
  (AddDate : time.Time -> Z -> Z -> Z -> time.Time) (range : MapRange)
  (Parse : string -> string -> option time.Time)
  (startOfDayUTC : time.Time -> time.Time)
  (ctx : gin.Context) (db db1 : DB) (count : Z) (err : option Go.error) :
  validRequest Parse startOfDayUTC ctx = true ->
  irrigationRepository.Count conn "farms" "id = ?"
    [irrigationRepository.ArgUint (farmOf ctx)] db = ((count, err), db1) ->
  let out :=
    controller.GetIrrigationAnalytics Parse startOfDayUTC
      (NewAnalyticsService conn AddDate range) ctx db in
  (err <> None ->
   exists r, out = (Some r, db1) /\ gin.Status r = 500)
  /\ (err = None -> count <= 0 ->
      exists r, out = (Some r, db1) /\ gin.Status r = 404)
  /\ (err = None -> 0 < count ->
      forall r, fst out = Some r -> gin.Status r <> 404).
Proof.
  intros Hvalid Hcount. cbn zeta.
  destruct (valid_request_reading Parse startOfDayUTC ctx Hvalid)
    as (startDate & endDate & _ & _ & _ & _ & _ & Hrun).
  rewrite Hrun.
  cbn [NewAnalyticsService service.FarmExists service.GetIrrigationAnalytics].
  unfold irrigationRepository.FarmExists. rewrite Hcount.
  destruct err as [e|].
  - split; [intros _; eexists; split; reflexivity|].
    split; discriminate.
  - split; [intros Hno; contradiction Hno; reflexivity|].
    split.
    + intros _ Hle.
      assert ((0 <? count) = false) as -> by (apply Z.ltb_ge; exact Hle).
      eexists. split; reflexivity.
    + intros _ Hlt r.
      assert ((0 <? count) = true) as -> by (apply Z.ltb_lt; exact Hlt).
      destruct (GetIrrigationAnalytics AddDate _ range (farmOf ctx)
                  (sectorOf ctx) startDate endDate (levelOf ctx) db1)
        as [[[response|] [e2|]] db2];
        cbn [fst]; try discriminate; intros [= <-]; discriminate.
Qed.

(** The sample table has no farm 7. *)
Lemma farm_lookup_decides_witness :
  exists r,
    controller.GetIrrigationAnalytics sampleParse (fun t => t)
      (NewAnalyticsService (sampleConn sampleTable) sampleAddDate
         rangeAscending)
      (sampleContext "7" "400" "430" None) tt = (Some r, tt)
    /\ gin.Status r = 404.
Proof.
  apply (proj1 (proj2
    (farm_lookup_decides (sampleConn sampleTable) sampleAddDate
       rangeAscending sampleParse (fun t => t)
       (sampleContext "7" "400" "430" None) tt tt 0 None
       eq_refl eq_refl))).
  - reflexivity.
  - lia.
Defined.
